(** * Classifier3: the glue code of [classifier.ipynb]

    A shallow embedding of the notebook's own functions: [load_data],
    [create_datasets], [ShapeNetDataset.__getitem__], [save_checkpoint],
    [load_checkpoint], [train_model], [ThreeDClassifier] and
    [predict_3d_model].

    Calls into the operating system and into trimesh, torch and sklearn
    are modelled as follows.
    - The filesystem is a map from path strings to entries; paths are
      joined as [posixpath.join] does and compared as strings (two
      spellings of one file are two keys).  Writing a file does not
      touch the listing of its directory: no function below lists a
      directory it writes to.
    - Python exceptions are values of an error monad; every exception
      value modelled here is an instance of [Exception].
    - Objects the notebook updates in place (the model, the optimizer)
      are passed in and returned.
    - A float is kept up to what comparisons can see; float arithmetic
      and the numeric work of the libraries (parsing and sampling a
      mesh, the kernels of a forward pass, the loss of a batch, an
      optimizer step, pickling, the shuffles) are fields of the classes
      [Lib], [Module] and [Training].  The theorems hold for every
      implementation of these, and say so when they need a contract of
      a library. *)

From Stdlib Require Import List String Ascii ZArith Lia Bool Arith PeanoNat.
From Stdlib Require Import Permutation Sorting.Sorted Sorting.Mergesort Orders.
Import ListNotations.

Set Warnings "-register-all".

Local Open Scope string_scope.
Local Open Scope list_scope.

(* ===================================================================== *)
(** * Python values and builtins *)
(* ===================================================================== *)

(** An exception instance: its class name and [str(e)]. *)
Record exn : Type := Exn { exn_class : string; exn_str : string }.

(** The outcome of evaluating an expression that may raise. *)
Inductive result (A : Type) : Type :=
| Ok (a : A)
| Raise (e : exn).
Arguments Ok {A} a.
Arguments Raise {A} e.

Definition rbind {A B : Type} (r : result A) (k : A -> result B) : result B :=
  match r with
  | Ok a => k a
  | Raise e => Raise e
  end.

(** Python [float]: a binary64 value, kept up to what [<] can observe.
    Every finite double is an integer multiple of [2^-1074]; [Finite m]
    is the double [m * 2^-1074], so finite doubles compare as their
    integers do ([-0.0] and [0.0] are both [Finite 0]). *)
Inductive pyfloat : Type :=
| NaN
| NegInf
| Finite (m : Z)
| PosInf.

(** [x < y] on floats: false as soon as one side is NaN. *)
Definition flt (x y : pyfloat) : bool :=
  match x, y with
  | NaN, _ | _, NaN => false
  | PosInf, _ => false
  | _, NegInf => false
  | NegInf, _ => true
  | _, PosInf => true
  | Finite a, Finite b => (a <? b)%Z
  end.

Definition is_nan (x : pyfloat) : bool :=
  match x with NaN => true | _ => false end.

(** ** [dict] with [str] keys

    A Python dict keeps insertion order; assigning to a key that is
    present replaces the value in place. *)
Definition dict (V : Type) : Type := list (string * V).

Section Dict.
Context {V : Type}.

Fixpoint dict_get (k : string) (d : dict V) : option V :=
  match d with
  | [] => None
  | (k', v) :: d' => if String.eqb k k' then Some v else dict_get k d'
  end.

(** [d[k] = v] *)
Fixpoint dict_set (k : string) (v : V) (d : dict V) : dict V :=
  match d with
  | [] => [(k, v)]
  | (k', v') :: d' =>
      if String.eqb k k' then (k', v) :: d' else (k', v') :: dict_set k v d'
  end.

(** [list(d.keys())] and [list(d.values())] *)
Definition dict_keys (d : dict V) : list string := map fst d.
Definition dict_values (d : dict V) : list V := map snd d.
End Dict.

(** [l.index(x)] on a list of ints: the first position holding [x],
    [ValueError] when there is none. *)
Fixpoint list_index (x : nat) (l : list nat) : result nat :=
  match l with
  | [] => Raise (Exn "ValueError" "x is not in list")
  | y :: l' =>
      if Nat.eqb y x then Ok 0
      else rbind (list_index x l') (fun i => Ok (S i))
  end.

(** [l[i]] for [i >= 0]. *)
Definition list_item {A : Type} (l : list A) (i : nat) : result A :=
  match nth_error l i with
  | Some a => Ok a
  | None => Raise (Exn "IndexError" "list index out of range")
  end.

(** [sorted] on a list of [str]: Python orders strings by code point,
    which on their UTF-8 bytes is the bytewise lexicographic order of
    [String.leb].  The order is total, so the sorted list is unique and
    any correct sort returns it; a merge sort is used, as Python does. *)
Module StringOrder <: TotalLeBool.
Definition t := string.
Definition leb := String.leb.
Theorem leb_total : forall a1 a2, leb a1 a2 = true \/ leb a2 a1 = true.
Proof. exact String.leb_total. Qed.
End StringOrder.

Module StringSort := Sort StringOrder.

Definition sorted (l : list string) : list string := StringSort.sort l.

(* ===================================================================== *)
(** * Paths and the filesystem *)
(* ===================================================================== *)

(** [path.endswith('/')] *)
Fixpoint ends_with_sep (s : string) : bool :=
  match s with
  | EmptyString => false
  | String c s' =>
      match s' with
      | EmptyString => Ascii.eqb c "/"%char
      | String _ _ => ends_with_sep s'
      end
  end.

(** One step of [posixpath.join]: an absolute component restarts the
    path, otherwise it is appended after exactly one separator. *)
Definition join_step (path b : string) : string :=
  if prefix "/" b then b
  else if (String.eqb path "" || ends_with_sep path)%bool then path ++ b
  else path ++ "/" ++ b.

(** [os.path.join(a, *p)] *)
Definition path_join (a : string) (p : list string) : string :=
  fold_left join_step p a.

(** A path cut at its last ['/']: what is before it (the parent
    directory as [torch.save] computes it) and what is after.  [None]
    when the path has no ['/']. *)
Fixpoint split_last_sep (s : string) : option (string * string) :=
  match s with
  | EmptyString => None
  | String c s' =>
      match split_last_sep s' with
      | Some (d, b) => Some (String c d, b)
      | None => if Ascii.eqb c "/"%char then Some (EmptyString, s') else None
      end
  end.

(** A directory holds the names [os.listdir] returns for it, in the
    order it returns them; a regular file holds its bytes. *)
Inductive entry : Type :=
| EDir (names : list string)
| EFile (bytes : string).

Definition filesystem : Type := string -> option entry.

Definition isdir (fs : filesystem) (p : string) : bool :=
  match fs p with Some (EDir _) => true | _ => false end.

Definition isfile (fs : filesystem) (p : string) : bool :=
  match fs p with Some (EFile _) => true | _ => false end.

Definition listdir (fs : filesystem) (p : string) : result (list string) :=
  match fs p with
  | Some (EDir names) => Ok names
  | Some (EFile _) => Raise (Exn "NotADirectoryError" p)
  | None => Raise (Exn "FileNotFoundError" p)
  end.

Definition fs_empty : filesystem := fun _ => None.

(** The filesystem after [p] has been made to hold [e]. *)
Definition fs_put (p : string) (e : entry) (fs : filesystem) : filesystem :=
  fun q => if String.eqb q p then Some e else fs q.

(* ===================================================================== *)
(** * [load_data] *)
(* ===================================================================== *)

(** The three accumulators of [load_data]. *)
Record loaded : Type := Loaded {
  file_paths : list string;
  labels : list nat;
  label_map : dict nat
}.

(** The inner loop, [for models in os.listdir(dir_path)]. *)
Fixpoint scan_models (fs : filesystem) (dir_path : string) (idx : nat)
    (models : list string) (acc : loaded) : loaded :=
  match models with
  | [] => acc
  | m :: rest =>
      let model_directory :=
        path_join dir_path [m; "models/model_normalized.obj"] in
      if isfile fs model_directory then
        scan_models fs dir_path idx rest
          (Loaded (file_paths acc ++ [model_directory])
                  (labels acc ++ [idx])
                  (label_map acc))
      else scan_models fs dir_path idx rest acc
  end.

(** The outer loop, [for idx, directory in enumerate(...)]: [idx] counts
    every name of the listing, directory or not. *)
Fixpoint scan_dirs (fs : filesystem) (root_dir : string) (idx : nat)
    (directories : list string) (acc : loaded) : result loaded :=
  match directories with
  | [] => Ok acc
  | directory :: rest =>
      let dir_path := path_join root_dir [directory] in
      if isdir fs dir_path then
        rbind (listdir fs dir_path) (fun models =>
          scan_dirs fs root_dir (S idx) rest
            (scan_models fs dir_path idx models
               (Loaded (file_paths acc) (labels acc)
                       (dict_set directory idx (label_map acc)))))
      else scan_dirs fs root_dir (S idx) rest acc
  end.

Definition load_data (fs : filesystem) (root_dir : string) : result loaded :=
  rbind (listdir fs root_dir) (fun names =>
    scan_dirs fs root_dir 0 (sorted names) (Loaded [] [] [])).

(** The lookup of [predict_3d_model],
    [list(label_map.keys())[list(label_map.values()).index(i)]]. *)
Definition label_of_index (label_map : dict nat) (i : nat) : result string :=
  rbind (list_index i (dict_values label_map)) (fun pos =>
    list_item (dict_keys label_map) pos).

(** [zip(file_paths, labels)]: the (path, label) pairs a result holds. *)
Definition samples (ld : loaded) : list (string * nat) :=
  combine (file_paths ld) (labels ld).

(** The path [load_data] probes for the entry [m] of the category
    directory [c]. *)
Definition model_file (root_dir c m : string) : string :=
  path_join (path_join root_dir [c]) [m; "models/model_normalized.obj"].

(** A name as [os.listdir] returns them: not empty, no separator. *)
Fixpoint no_sep (s : string) : bool :=
  match s with
  | EmptyString => true
  | String c s' => negb (Ascii.eqb c "/"%char) && no_sep s'
  end.

Definition plain_name (s : string) : bool :=
  negb (String.eqb s "") && no_sep s.

(** No two keys share a label, and every label is below [n]. *)
Definition dict_injective (d : dict nat) : Prop :=
  forall k1 k2 v, dict_get k1 d = Some v -> dict_get k2 d = Some v -> k1 = k2.

Definition labels_below (n : nat) (d : dict nat) : Prop :=
  forall k v, dict_get k d = Some v -> v < n.

(* ===================================================================== *)
(** * Tensors, pickled values and the world *)
(* ===================================================================== *)

(** A tensor (or numpy array): its shape and its elements, row-major. *)
Record tensor : Type := Tensor { shape : list nat; data : list pyfloat }.

Definition numel (sh : list nat) : nat := fold_right Nat.mul 1 sh.

(** A sampled point, one row of the [(n, 3)] array [mesh.sample] returns. *)
Definition point : Type := (pyfloat * pyfloat * pyfloat)%type.

Definition coords (p : point) : list pyfloat :=
  let '(x, y, z) := p in [x; y; z].

(** [torch.tensor(points, dtype=torch.float32)] on an [(n, 3)] array. *)
Definition tensor_of_points (points : list point) : tensor :=
  Tensor [List.length points; 3] (flat_map coords points).

(** [t.unsqueeze(0)] *)
Definition unsqueeze0 (t : tensor) : tensor := Tensor (1 :: shape t) (data t).

(** The objects a checkpoint is built from.  A [VDict] lists its items in
    insertion order. *)
Inductive pyval : Type :=
| VNone
| VInt (z : Z)
| VFloat (x : pyfloat)
| VStr (s : string)
| VTensor (t : tensor)
| VList (l : list pyval)
| VDict (items : list (pyval * pyval)).

Definition key_is (s : string) (k : pyval) : bool :=
  match k with VStr s' => String.eqb s s' | _ => false end.

(** [obj[s]] for a [str] key [s]. *)
Definition py_getitem (obj : pyval) (s : string) : result pyval :=
  match obj with
  | VDict items =>
      match find (fun kv => key_is s (fst kv)) items with
      | Some kv => Ok (snd kv)
      | None => Raise (Exn "KeyError" s)
      end
  | _ => Raise (Exn "TypeError" "object is not subscriptable")
  end.

(** The keys of a dict object, in order. *)
Definition py_keys (obj : pyval) : list pyval :=
  match obj with VDict items => map fst items | _ => [] end.

(** A printed line: the literal text of an f-string and the values it
    formats, left unformatted. *)
Inductive piece : Type :=
| Text (s : string)
| Val (v : pyval).

(** What a run leaves behind, in order: lines printed and objects handed
    to [torch.save]. *)
Inductive io_event : Type :=
| EvPrint (line : list piece)
| EvSave (path : string) (obj : pyval).

(** The state a call runs in: the filesystem, the state of the random
    generators (a number) and the trace of events so far. *)
Record world : Type := World {
  w_fs : filesystem;
  w_rng : N;
  w_log : list io_event
}.

(** Computations that update a state [S] and may raise; what was done
    to the state before an exception stays done. *)
Definition SE (S A : Type) : Type := S -> result A * S.

(** Computations on the world, and computations that only draw random
    numbers. *)
Definition M : Type -> Type := SE world.
Definition R : Type -> Type := SE N.

Definition ret {S A : Type} (a : A) : SE S A := fun w => (Ok a, w).

Definition bind {S A B : Type} (c : SE S A) (k : A -> SE S B) : SE S B :=
  fun w => match c w with
           | (Ok a, w') => k a w'
           | (Raise e, w') => (Raise e, w')
           end.

(** An expression that may raise, evaluated in place. *)
Definition lift {S A : Type} (r : result A) : SE S A := fun w => (r, w).

(** [try: body except Exception as e: handler(e)] *)
Definition try_except {S A : Type} (body : SE S A) (handler : exn -> SE S A)
    : SE S A :=
  fun w => match body w with
           | (Ok a, w') => (Ok a, w')
           | (Raise e, w') => handler e w'
           end.

Declare Scope py_scope.
Delimit Scope py_scope with py.
Notation "x <- c ;; k" := (bind c (fun x => k))
  (at level 61, c at next level, right associativity) : py_scope.
Notation "' pat <- c ;; k" := (bind c (fun x => match x with pat => k end))
  (at level 61, pat pattern, c at next level, right associativity) : py_scope.
Notation "c ;; k" := (bind c (fun _ => k))
  (at level 61, right associativity) : py_scope.
Local Open Scope py_scope.

Definition print (line : list piece) : M unit :=
  fun w => (Ok tt, World (w_fs w) (w_rng w) (w_log w ++ [EvPrint line])).

(** A computation on the random generators, run in the world. *)
Definition with_rng {A : Type} (c : R A) : M A :=
  fun w => let '(r, s) := c (w_rng w) in (r, World (w_fs w) s (w_log w)).

(** A library function that draws random numbers and cannot fail. *)
Definition draw {A : Type} (f : N -> A * N) : R A :=
  fun s => let '(a, s') := f s in (Ok a, s').

(** [int] to [float]: exact for the sizes met here. *)
Definition float_of_nat (n : nat) : pyfloat := Finite (Z.of_nat n * 2 ^ 1074).

(* ===================================================================== *)
(** * The libraries *)
(* ===================================================================== *)

(** What the notebook takes from trimesh, torch and sklearn and from the
    machine's arithmetic.  Nothing is assumed of these functions beyond
    their types. *)
Class Lib : Type := {
  (** binary64 arithmetic, as the machine rounds it *)
  fadd : pyfloat -> pyfloat -> pyfloat;
  fsub : pyfloat -> pyfloat -> pyfloat;
  fmul : pyfloat -> pyfloat -> pyfloat;
  fdiv : pyfloat -> pyfloat -> pyfloat;
  (** the bytes [torch.save] writes for an object, and [torch.load] *)
  pickle_dumps : pyval -> string;
  pickle_loads : string -> result pyval;
  (** trimesh: parsing the bytes of a file with [force='mesh'], and
      [mesh.sample(count)] *)
  Mesh : Type;
  trimesh_parse : string -> result Mesh;
  mesh_sample : Mesh -> nat -> R (list point);
  (** torch kernels: the elements of [F.linear(input, weight, bias)], of
      dropout with probability [p] in training mode, of [log_softmax]
      over dim 1, the index [torch.max] picks in a row, and the initial
      weight and bias of [nn.Linear(in, out)] *)
  linear_fn : tensor -> tensor -> tensor -> list pyfloat;
  dropout_fn : pyfloat -> tensor -> N -> list pyfloat * N;
  log_softmax_fn : tensor -> list pyfloat;
  argmax_fn : list pyfloat -> nat;
  linear_init : nat -> nat -> N -> (tensor * tensor) * N;
  (** [CrossEntropyLoss()(outputs, labels).item()], and the order in
      which a shuffling [DataLoader] visits [n] samples *)
  cross_entropy : tensor -> list nat -> result pyfloat;
  randperm : nat -> N -> list nat * N;
  (** sklearn: the permutation [RandomState(seed).permutation(n)] *)
  rs_permutation : Z -> nat -> list nat
}.

(* ===================================================================== *)
(** * [ShapeNetDataset] and [DataLoader] *)
(* ===================================================================== *)

Record ShapeNetDataset : Type := Dataset {
  ds_file_paths : list string;
  ds_labels : list nat
}.

(** [len(dataset)] *)
Definition __len__ (ds : ShapeNetDataset) : nat := List.length (ds_file_paths ds).

(** [trimesh.load(path, force='mesh')] *)
Definition trimesh_load `{Lib} (path : string) : M Mesh :=
  fun w => match w_fs w path with
           | Some (EFile bytes) => (trimesh_parse bytes, w)
           | _ => (Raise (Exn "ValueError" "string is not a file"), w)
           end.

(** [ShapeNetDataset.__getitem__] *)
Definition __getitem__ `{Lib} (self : ShapeNetDataset) (idx : nat)
    : M (tensor * nat) :=
  path <- lift (list_item (ds_file_paths self) idx) ;;
  mesh <- trimesh_load path ;;
  points <- with_rng (mesh_sample mesh 1024) ;;
  let points := tensor_of_points points in
  label <- lift (list_item (ds_labels self) idx) ;;
  ret (points, label).

(** [DataLoader(dataset, batch_size=..., shuffle=...)] *)
Record DataLoader : Type := Loader {
  dl_dataset : ShapeNetDataset;
  dl_batch_size : nat;
  dl_shuffle : bool
}.

(** [len(loader)]: the number of batches, the last one possibly short
    ([batch_size] is positive: [DataLoader] refuses 0). *)
Definition dl_len (dl : DataLoader) : nat :=
  (__len__ (dl_dataset dl) + dl_batch_size dl - 1) / dl_batch_size dl.

(** The default collate of a batch of point clouds: [torch.stack]. *)
Definition stack (items : list tensor) : result tensor :=
  match items with
  | [] => Raise (Exn "RuntimeError" "stack expects a non-empty TensorList")
  | t :: _ =>
      if forallb (fun t' => if list_eq_dec Nat.eq_dec (shape t') (shape t)
                            then true else false) items
      then Ok (Tensor (List.length items :: shape t) (flat_map data items))
      else Raise (Exn "RuntimeError" "stack expects each tensor to be equal size")
  end.

(* ===================================================================== *)
(** * [ThreeDClassifier] *)
(* ===================================================================== *)

(** [nn.Linear(in_features, out_features)] *)
Record Linear : Type := MkLinear {
  in_features : nat;
  out_features : nat;
  weight : tensor;
  bias : tensor
}.

Definition new_Linear `{Lib} (n_in n_out : nat) (s : N) : Linear * N :=
  let '((w, b), s') := linear_init n_in n_out s in
  (MkLinear n_in n_out w b, s').

(** Applying a linear layer to a 2-D input: the last dimension has to be
    [in_features]. *)
Definition apply_Linear `{Lib} (layer : Linear) (x : tensor) : result tensor :=
  match shape x with
  | [b; f] =>
      if Nat.eqb f (in_features layer)
      then Ok (Tensor [b; out_features layer]
                      (linear_fn x (weight layer) (bias layer)))
      else Raise (Exn "RuntimeError" "mat1 and mat2 shapes cannot be multiplied")
  | _ => Raise (Exn "RuntimeError" "mat1 and mat2 shapes cannot be multiplied")
  end.

(** [nn.ReLU()], elementwise: negative numbers become zero, NaN stays. *)
Definition relu (x : tensor) : tensor :=
  Tensor (shape x)
         (map (fun v => if flt v (Finite 0) then Finite 0 else v) (data x)).

(** [nn.Dropout(p)]: the identity in evaluation mode. *)
Definition apply_Dropout `{Lib} (p : pyfloat) (training : bool) (x : tensor)
    : R tensor :=
  if training
  then d <- draw (dropout_fn p x) ;; ret (Tensor (shape x) d)
  else ret x.

(** [x.reshape(x.size(0), -1)] *)
Definition reshape_rows (x : tensor) : result tensor :=
  match shape x with
  | [] => Raise (Exn "IndexError" "dimension specified as 0 but tensor has no dimensions")
  | b :: rest =>
      if Nat.eqb b 0
      then Raise (Exn "RuntimeError" "cannot reshape tensor of 0 elements")
      else Ok (Tensor [b; numel rest] (data x))
  end.

Record ThreeDClassifier : Type := Classifier {
  fc1 : Linear;
  fc2 : Linear;
  fc3 : Linear;
  dropout : pyfloat;
  training : bool
}.



(** [ThreeDClassifier.forward] *)
Definition forward `{Lib} (self : ThreeDClassifier) (x : tensor) : R tensor :=
  x <- lift (reshape_rows x) ;;
  x <- lift (apply_Linear (fc1 self) x) ;;
  let x := relu x in
  x <- apply_Dropout (dropout self) (training self) x ;;
  x <- lift (apply_Linear (fc2 self) x) ;;
  let x := relu x in
  x <- apply_Dropout (dropout self) (training self) x ;;
  x <- lift (apply_Linear (fc3 self) x) ;;
  ret (Tensor (shape x) (log_softmax_fn x)).

(** The interface of [nn.Module] the notebook relies on.  A forward
    pass computes, and may draw random numbers. *)
Class Module (Mdl : Type) : Type := {
  (** [model(x)] *)
  call : Mdl -> tensor -> R tensor;
  (** [model.train()] and [model.eval()] *)
  set_training : bool -> Mdl -> Mdl;
  (** [model.state_dict()] and [model.load_state_dict(obj)] *)
  state_dict : Mdl -> pyval;
  load_state_dict : Mdl -> pyval -> result Mdl
}.

(** The entries of [state_dict()] a layer contributes. *)
Definition Linear_state (name : string) (layer : Linear)
    : list (pyval * pyval) :=
  [ (VStr (name ++ ".weight"), VTensor (weight layer));
    (VStr (name ++ ".bias"), VTensor (bias layer)) ].

(** The entry of a state dict that a parameter is loaded from; a
    missing key is reported, with every other error of the loading, as
    a RuntimeError. *)
Definition state_entry (obj : pyval) (key : string) : result pyval :=
  match py_getitem obj key with
  | Ok v => Ok v
  | Raise _ => Raise (Exn "RuntimeError" "Missing key(s) in state_dict")
  end.

(** Loading one layer, strictly: both entries present, tensors of the
    shapes the layer has. *)
Definition Linear_load (name : string) (layer : Linear) (obj : pyval)
    : result Linear :=
  rbind (state_entry obj (name ++ ".weight")) (fun w =>
  rbind (state_entry obj (name ++ ".bias")) (fun b =>
    match w, b with
    | VTensor w, VTensor b =>
        if (if list_eq_dec Nat.eq_dec (shape w) (shape (weight layer))
            then true else false)
           && (if list_eq_dec Nat.eq_dec (shape b) (shape (bias layer))
               then true else false)
        then Ok (MkLinear (in_features layer) (out_features layer) w b)
        else Raise (Exn "RuntimeError" "size mismatch")
    | _, _ => Raise (Exn "RuntimeError" "expected torch.Tensor")
    end)).

#[export] Instance ThreeDClassifier_Module `{Lib} : Module ThreeDClassifier := {
  call := forward;
  set_training := fun mode self =>
    Classifier (fc1 self) (fc2 self) (fc3 self) (dropout self) mode;
  state_dict := fun self =>
    VDict (Linear_state "fc1" (fc1 self) ++ Linear_state "fc2" (fc2 self)
           ++ Linear_state "fc3" (fc3 self));
  load_state_dict := fun self obj =>
    match obj with
    | VDict _ =>
        if Nat.eqb (List.length (py_keys obj)) 6
        then rbind (Linear_load "fc1" (fc1 self) obj) (fun l1 =>
             rbind (Linear_load "fc2" (fc2 self) obj) (fun l2 =>
             rbind (Linear_load "fc3" (fc3 self) obj) (fun l3 =>
               Ok (Classifier l1 l2 l3 (dropout self) (training self)))))
        else Raise (Exn "RuntimeError"
                      "Missing or unexpected key(s) in state_dict")
    | _ => Raise (Exn "TypeError" "Expected state_dict to be dict-like")
    end
}.

(** ** Iterating a [DataLoader] *)

(** [l] cut into batches of [size], the last one possibly short. *)
Fixpoint chunks (fuel size : nat) (l : list nat) : list (list nat) :=
  match fuel, l with
  | S fuel', _ :: _ => firstn size l :: chunks fuel' size (skipn size l)
  | _, _ => []
  end.

(** The index batches of one pass over the loader. *)
Definition batches `{Lib} (dl : DataLoader) : M (list (list nat)) :=
  let n := __len__ (dl_dataset dl) in
  order <- (if dl_shuffle dl then with_rng (draw (randperm n))
            else ret (seq 0 n)) ;;
  ret (chunks n (dl_batch_size dl) order).

Fixpoint map_M {A B : Type} (f : A -> M B) (l : list A) : M (list B) :=
  match l with
  | [] => ret []
  | a :: l' => b <- f a ;; bs <- map_M f l' ;; ret (b :: bs)
  end.

(** One batch, [points, labels], as the loader yields it. *)
Definition fetch `{Lib} (ds : ShapeNetDataset) (idxs : list nat)
    : M (tensor * list nat) :=
  items <- map_M (__getitem__ ds) idxs ;;
  points <- lift (stack (map fst items)) ;;
  ret (points, map snd items).

(* ===================================================================== *)
(** * Checkpoints *)
(* ===================================================================== *)

(** What training takes from [torch.optim] for a model class. *)
Class Training (Mdl : Type) : Type := {
  Optimizer : Type;
  (** [torch.optim.Adam(model.parameters(), lr=lr)] *)
  Adam : Mdl -> pyfloat -> Optimizer;
  (** [optimizer.state_dict()] and [optimizer.load_state_dict(obj)] *)
  opt_state_dict : Optimizer -> pyval;
  opt_load_state_dict : Optimizer -> pyval -> result Optimizer;
  (** [loss.backward(); optimizer.step()] for the loss of one batch,
      given the generator state the forward pass started from *)
  optim_step : Mdl -> Optimizer -> tensor -> list nat -> N -> Mdl * Optimizer
}.

(** [os.makedirs(p, exist_ok=True)] *)
Definition makedirs (p : string) : M unit :=
  fun w => match w_fs w p with
           | Some (EDir _) => (Ok tt, w)
           | Some (EFile _) => (Raise (Exn "FileExistsError" p), w)
           | None => (Ok tt, World (fs_put p (EDir []) (w_fs w)) (w_rng w) (w_log w))
           end.

(** Why [torch.save] cannot open [path] for writing, when it cannot.
    Its file writer first checks that the parent directory, the part
    of the path before the last ['/'], exists, and then opens the file;
    the open fails when the parent is not a directory and when the path
    names a directory: one that exists, or a path that ends in ['/'],
    ['/.'] or ['/..'].  Both failures are RuntimeErrors of the file
    writer.  Paths are looked up as they are spelled. *)
Definition open_refused (fs : filesystem) (path : string) : option exn :=
  let '(dir_name, base) :=
    match split_last_sep path with
    | Some db => db
    | None => (EmptyString, path)
    end in
  if negb (String.eqb dir_name "")
     && match fs dir_name with None => true | Some _ => false end
  then Some (Exn "RuntimeError"
               ("Parent directory " ++ dir_name ++ " does not exist."))
  else if (negb (String.eqb dir_name "") && isfile fs dir_name)
          || String.eqb base "" || String.eqb base "." || String.eqb base ".."
          || isdir fs path
  then Some (Exn "RuntimeError" ("File " ++ path ++ " cannot be opened."))
  else None.

(** [torch.save(obj, path)] *)
Definition torch_save `{Lib} (obj : pyval) (path : string) : M unit :=
  fun w => match open_refused (w_fs w) path with
           | Some e => (Raise e, w)
           | None => (Ok tt, World (fs_put path (EFile (pickle_dumps obj)) (w_fs w))
                                   (w_rng w) (w_log w ++ [EvSave path obj]))
           end.

(** [torch.load(path)] *)
Definition torch_load `{Lib} (path : string) : M pyval :=
  fun w => match w_fs w path with
           | Some (EFile bytes) => (pickle_loads bytes, w)
           | Some (EDir _) => (Raise (Exn "IsADirectoryError" path), w)
           | None => (Raise (Exn "FileNotFoundError" path), w)
           end.

Definition save_checkpoint `{Lib} (state : pyval) (filename : string) : M unit :=
  makedirs "./checkpoints" ;;
  torch_save state (path_join "./checkpoints" [filename]).

(** [load_checkpoint]: the model and the optimizer are updated in place
    in the notebook and are returned here next to the result;
    [model.to(device)] changes nothing that is modelled. *)
Definition load_checkpoint `{Lib} {Mdl : Type} `{Module Mdl} `{Training Mdl}
    (filepath : string) (model : Mdl) (optimizer : option Optimizer)
    : M (option pyval * Mdl * option Optimizer) :=
  found <- (fun w => (Ok (isfile (w_fs w) filepath), w)) ;;
  if negb found then
    print [Text "No checkpoint found at '"; Text filepath; Text "'"] ;;
    ret (None, model, optimizer)
  else
    checkpoint <- torch_load filepath ;;
    sd <- lift (py_getitem checkpoint "state_dict") ;;
    model <- lift (load_state_dict model sd) ;;
    optimizer <- match optimizer with
                 | Some opt =>
                     od <- lift (py_getitem checkpoint "optimizer") ;;
                     opt <- lift (opt_load_state_dict opt od) ;;
                     ret (Some opt)
                 | None => ret None
                 end ;;
    epoch <- lift (py_getitem checkpoint "epoch") ;;
    print [Text "Loaded checkpoint '"; Text filepath; Text "' (epoch ";
           Val epoch; Text ")"] ;;
    ret (Some checkpoint, model, optimizer).

(* ===================================================================== *)
(** * [train_model] *)
(* ===================================================================== *)

(** [x / n] for a float [x] and an int [n]. *)
Definition py_div `{Lib} (x : pyfloat) (n : nat) : result pyfloat :=
  match n with
  | 0 => Raise (Exn "ZeroDivisionError" "division by zero")
  | S _ => Ok (fdiv x (float_of_nat n))
  end.

(** The binary64 nearest to 0.001, [0x1.0624dd2f1a9fcp-10]. *)
Definition float_0_001 : pyfloat := Finite (1152921504606847 * 2 ^ (1074 - 60)).

Section Train.
Context `{Lib} {Mdl : Type} `{Module Mdl} `{Training Mdl}.
Variables (train_loader val_loader : DataLoader) (save_path : string).

(** The local variables that live across epochs. *)
Record train_state : Type := TrainState {
  ts_model : Mdl;
  ts_optimizer : Optimizer;
  best_val_loss : pyfloat
}.

(** What an epoch has computed when it reaches the print. *)
Record epoch_result : Type := EpochResult {
  er_model : Mdl;
  er_optimizer : Optimizer;
  total_train_loss : pyfloat;
  average_val_loss : pyfloat
}.

(** [for points, labels in train_loader: ...] *)
Fixpoint train_batches (bs : list (list nat)) (model : Mdl)
    (optimizer : Optimizer) (total_train_loss : pyfloat)
    : M (Mdl * Optimizer * pyfloat) :=
  match bs with
  | [] => ret (model, optimizer, total_train_loss)
  | b :: rest =>
      '(points, labels) <- fetch (dl_dataset train_loader) b ;;
      s <- (fun w => (Ok (w_rng w), w)) ;;
      outputs <- with_rng (call model points) ;;
      loss <- lift (cross_entropy outputs labels) ;;
      let '(model, optimizer) := optim_step model optimizer points labels s in
      train_batches rest model optimizer (fadd total_train_loss loss)
  end.

(** [for points, labels in val_loader: ...] *)
Fixpoint val_batches (bs : list (list nat)) (model : Mdl)
    (total_val_loss : pyfloat) : M pyfloat :=
  match bs with
  | [] => ret total_val_loss
  | b :: rest =>
      '(points, labels) <- fetch (dl_dataset val_loader) b ;;
      outputs <- with_rng (call model points) ;;
      loss <- lift (cross_entropy outputs labels) ;;
      val_batches rest model (fadd total_val_loss loss)
  end.

(** The body of the epoch loop down to [average_val_loss]. *)
Definition run_epoch (st : train_state) : M epoch_result :=
  let model := set_training true (ts_model st) in
  bs <- batches train_loader ;;
  '(model, optimizer, total_train_loss) <-
    train_batches bs model (ts_optimizer st) (Finite 0) ;;
  let model := set_training false model in
  bs <- batches val_loader ;;
  total_val_loss <- val_batches bs model (Finite 0) ;;
  average_val_loss <- lift (py_div total_val_loss (dl_len val_loader)) ;;
  ret (EpochResult model optimizer total_train_loss average_val_loss).

(** The record handed to [save_checkpoint]. *)
Definition checkpoint_of (epoch : nat) (model : Mdl) (best : pyfloat)
    (optimizer : Optimizer) : pyval :=
  VDict [ (VStr "epoch", VInt (Z.of_nat epoch + 1));
          (VStr "state_dict", state_dict model);
          (VStr "best_val_loss", VFloat best);
          (VStr "optimizer", opt_state_dict optimizer) ].

(** The rest of the body: the print and the checkpoint. *)
Definition report_epoch (epoch : nat) (best_val_loss : pyfloat)
    (r : epoch_result) : M train_state :=
  train_loss <- lift (py_div (total_train_loss r) (dl_len train_loader)) ;;
  print [Text "Epoch "; Val (VInt (Z.of_nat epoch + 1));
         Text ", Train Loss: "; Val (VFloat train_loss);
         Text ", Validation Loss: "; Val (VFloat (average_val_loss r))] ;;
  if flt (average_val_loss r) best_val_loss then
    print [Text "Validation loss decreased ("; Val (VFloat best_val_loss);
           Text " --> "; Val (VFloat (average_val_loss r));
           Text "). Saving checkpoint"] ;;
    let best_val_loss := average_val_loss r in
    save_checkpoint
      (checkpoint_of epoch (er_model r) best_val_loss (er_optimizer r))
      save_path ;;
    ret (TrainState (er_model r) (er_optimizer r) best_val_loss)
  else ret (TrainState (er_model r) (er_optimizer r) best_val_loss).

Definition train_epoch (epoch : nat) (st : train_state) : M train_state :=
  r <- run_epoch st ;;
  report_epoch epoch (best_val_loss st) r.

(** [for epoch in ...] *)
Fixpoint train_loop (epochs : list nat) (st : train_state) : M train_state :=
  match epochs with
  | [] => ret st
  | epoch :: rest => st <- train_epoch epoch st ;; train_loop rest st
  end.

(** The state the loop starts from. *)
Definition train_init (model : Mdl) : train_state :=
  TrainState model (Adam model float_0_001) PosInf.

(** [train_model]; the trained model, updated in place in the
    notebook, is returned. *)
Definition train_model (model : Mdl) (num_epochs : nat) : M Mdl :=
  st <- train_loop (seq 0 num_epochs) (train_init model) ;;
  ret (ts_model st).

(** The runs of the first epochs of [train_model model]: the average
    validation loss of each completed epoch, oldest first, and the
    state and world after the last of them. *)
Inductive epochs_done (model : Mdl) (w0 : world)
    : list pyfloat -> train_state -> world -> Prop :=
| done_none : epochs_done model w0 [] (train_init model) w0
| done_next losses st w r w1 st' w' :
    epochs_done model w0 losses st w ->
    run_epoch st w = (Ok r, w1) ->
    report_epoch (List.length losses) (best_val_loss st) r w1 = (Ok st', w') ->
    epochs_done model w0 (losses ++ [average_val_loss r]) st' w'.
End Train.

(* ===================================================================== *)
(** * [predict_3d_model] *)
(* ===================================================================== *)

(** The rows of a [b]-by-[c] tensor. *)
Fixpoint rows (b c : nat) (l : list pyfloat) : list (list pyfloat) :=
  match b with
  | 0 => []
  | S b' => firstn c l :: rows b' c (skipn c l)
  end.

(** The indices of [torch.max(outputs, 1)]. *)
Definition torch_max_1 `{Lib} (outputs : tensor) : result (list nat) :=
  match shape outputs with
  | [b; c] =>
      if Nat.eqb c 0
      then Raise (Exn "IndexError" "max(): expected reduction dim 1 to have non-zero size")
      else Ok (map argmax_fn (rows b c (data outputs)))
  | _ => Raise (Exn "IndexError" "dimension out of range")
  end.

(** [t.item()] on a tensor of indices. *)
Definition item (t : list nat) : result nat :=
  match t with
  | [i] => Ok i
  | _ => Raise (Exn "RuntimeError" "a Tensor with several elements cannot be converted to Scalar")
  end.

Section Predict.
Context `{Lib} {Mdl : Type} `{Module Mdl}.

(** The body of the [try]. *)
Definition predict_body (model : Mdl) (file_path : string)
    (label_map : dict nat) : M (option string) :=
  mesh <- trimesh_load file_path ;;
  points <- with_rng (mesh_sample mesh 1024) ;;
  let points := tensor_of_points points in
  let points := unsqueeze0 points in
  outputs <- with_rng (call model points) ;;
  predicted_idx <- lift (torch_max_1 outputs) ;;
  i <- lift (item predicted_idx) ;;
  predicted_label <- lift (label_of_index label_map i) ;;
  ret (Some predicted_label).

(** [predict_3d_model]: the label or [None]; the model, put in
    evaluation mode, is returned next to it. *)
Definition predict_3d_model (model : Mdl) (file_path : string)
    (label_map : dict nat) : M (option string * Mdl) :=
  let model := set_training false model in
  r <- try_except (predict_body model file_path label_map)
         (fun e =>
            print [Text "An error occurred: "; Text (exn_str e)] ;;
            ret None) ;;
  ret (r, model).
End Predict.

(* ===================================================================== *)
(** * [create_datasets] *)
(* ===================================================================== *)

(** [x <= y] on floats. *)
Definition fle (x y : pyfloat) : bool :=
  match x, y with
  | NaN, _ | _, NaN => false
  | _, _ => negb (flt y x)
  end.

(** [math.ceil(x)] *)
Definition py_ceil (x : pyfloat) : result Z :=
  match x with
  | Finite m => Ok (- ((- m) / 2 ^ 1074))%Z
  | NaN => Raise (Exn "ValueError" "cannot convert float NaN to integer")
  | _ => Raise (Exn "OverflowError" "cannot convert float infinity to integer")
  end.

(** [[l[i] for i in idxs]] *)
Fixpoint take {A : Type} (l : list A) (idxs : list nat) : result (list A) :=
  match idxs with
  | [] => Ok []
  | i :: rest =>
      rbind (list_item l i) (fun a =>
      rbind (take l rest) (fun r => Ok (a :: r)))
  end.

(** The sizes sklearn derives from a float [test_size], with no
    [train_size] given. *)
Definition validate_shuffle_split `{Lib} (n_samples : nat) (test_size : pyfloat)
    : result (nat * nat) :=
  if (fle test_size (Finite 0) || fle (float_of_nat 1) test_size)%bool
  then Raise (Exn "ValueError" "test_size should be in the (0, 1) range")
  else
    rbind (py_ceil (fmul test_size (float_of_nat n_samples))) (fun n_test =>
      let n_test := Z.to_nat n_test in
      let n_train := n_samples - n_test in
      if Nat.eqb n_train 0
      then Raise (Exn "ValueError" "the resulting train set will be empty")
      else Ok (n_train, n_test)).

(** [train_test_split(xs, ys, test_size=test_size, random_state=seed)]:
    train and test parts of [xs], then of [ys]. *)
Definition train_test_split `{Lib} {A B : Type} (xs : list A) (ys : list B)
    (test_size : pyfloat) (random_state : Z)
    : result (list A * list A * list B * list B) :=
  if negb (Nat.eqb (List.length xs) (List.length ys))
  then Raise (Exn "ValueError" "inconsistent numbers of samples")
  else
    let n_samples := List.length xs in
    rbind (validate_shuffle_split n_samples test_size) (fun '(n_train, n_test) =>
      let permutation := rs_permutation random_state n_samples in
      let ind_test := firstn n_test permutation in
      let ind_train := firstn n_train (skipn n_test permutation) in
      rbind (take xs ind_train) (fun xs_train =>
      rbind (take xs ind_test) (fun xs_test =>
      rbind (take ys ind_train) (fun ys_train =>
      rbind (take ys ind_test) (fun ys_test =>
        Ok (xs_train, xs_test, ys_train, ys_test)))))).

(** [x / y] on floats. *)
Definition py_truediv `{Lib} (x y : pyfloat) : result pyfloat :=
  match y with
  | Finite 0 => Raise (Exn "ZeroDivisionError" "float division by zero")
  | _ => Ok (fdiv x y)
  end.

Record datasets : Type := Datasets {
  train_dataset : ShapeNetDataset;
  val_dataset : ShapeNetDataset;
  test_dataset : ShapeNetDataset;
  ds_label_map : dict nat
}.

Definition create_datasets `{Lib} (root_dir : string) (test_size val_size : pyfloat)
    : M datasets :=
  ld <- (fun w => (load_data (w_fs w) root_dir, w)) ;;
  '(train_paths, test_paths, train_labels, test_labels) <-
    lift (train_test_split (file_paths ld) (labels ld) test_size 42) ;;
  ratio <- lift (py_truediv val_size (fsub (float_of_nat 1) test_size)) ;;
  '(train_paths, val_paths, train_labels, val_labels) <-
    lift (train_test_split train_paths train_labels ratio 42) ;;
  ret (Datasets (Dataset train_paths train_labels)
                (Dataset val_paths val_labels)
                (Dataset test_paths test_labels)
                (label_map ld)).

(** The (path, label) pairs of a dataset. *)
Definition ds_samples (ds : ShapeNetDataset) : list (string * nat) :=
  combine (ds_file_paths ds) (ds_labels ds).

(** The defaults [test_size=0.2] and [val_size=0.1], as binary64:
    [0x1.999999999999ap-3] and [0x1.999999999999ap-4]. *)
Definition float_0_2 : pyfloat := Finite (3602879701896397 * 2 ^ (1074 - 54)).
Definition float_0_1 : pyfloat := Finite (3602879701896397 * 2 ^ (1074 - 55)).

(* ===================================================================== *)
(** * A small implementation of the libraries *)
(* ===================================================================== *)

(** Used to run the definitions above on concrete inputs.  Arithmetic is
    exact on finite numbers and truncates; a mesh is the number of bytes
    of its file and every sampled point is the origin; all kernels
    return zeros; the loss of a batch is the first element of the
    outputs; the shuffles are the identity; an object is pickled as the
    decimal of its record's epoch and unpickled as [toy_obj] with that
    epoch put back. *)
Definition toy_arith (op : Z -> Z -> Z) (x y : pyfloat) : pyfloat :=
  match x, y with
  | Finite a, Finite b => Finite (op a b)
  | NaN, _ | _, NaN => NaN
  | Finite _, i => i
  | i, _ => i
  end.

Definition origin : point := (Finite 0, Finite 0, Finite 0).

Definition toy_epoch (obj : pyval) : Z :=
  match py_getitem obj "epoch" with
  | Ok (VInt z) => z
  | _ => 0
  end.

Definition toy_obj (epoch : Z) : pyval :=
  VDict [ (VStr "epoch", VInt epoch);
          (VStr "state_dict", VDict [(VStr "loss", VFloat (Finite 0))]);
          (VStr "best_val_loss", VFloat (Finite 0));
          (VStr "optimizer", VList []) ].

Definition toy_Lib : Lib := {|
  fadd := toy_arith Z.add;
  fsub := toy_arith Z.sub;
  fmul := toy_arith (fun a b => a * b / 2 ^ 1074)%Z;
  fdiv := toy_arith (fun a b => a * 2 ^ 1074 / b)%Z;
  pickle_dumps := fun obj => String (ascii_of_N (Z.to_N (toy_epoch obj))) "";
  pickle_loads := fun bytes =>
    match bytes with
    | String c "" => Ok (toy_obj (Z.of_N (N_of_ascii c)))
    | _ => Raise (Exn "UnpicklingError" "invalid load key")
    end;
  Mesh := nat;
  trimesh_parse := fun bytes =>
    match bytes with
    | "" => Raise (Exn "ValueError" "mesh is empty")
    | _ => Ok (String.length bytes)
    end;
  mesh_sample := fun _ count s => (Ok (repeat origin count), N.succ s);
  linear_fn := fun x w b =>
    repeat (Finite 0) (hd 0 (shape x) * hd 0 (shape w));
  dropout_fn := fun _ x s => (data x, N.succ s);
  log_softmax_fn := data;
  argmax_fn := fun _ => 0;
  linear_init := fun n_in n_out s =>
    (Tensor [n_out; n_in] [], Tensor [n_out] [], N.succ s);
  cross_entropy := fun outputs _ => Ok (hd NaN (data outputs));
  randperm := fun n s => (seq 0 n, N.succ s);
  rs_permutation := fun _ n => seq 0 n
|}.

(** A model that is nothing but the loss it yields, and an optimizer
    that is the list of the models its steps will install, starting
    from a given schedule. *)
Definition toy_Module : Module pyfloat := {|
  call := fun m x => ret (Tensor [hd 1 (shape x); 1] (repeat m (hd 1 (shape x))));
  set_training := fun _ m => m;
  state_dict := fun m => VDict [(VStr "loss", VFloat m)];
  load_state_dict := fun m obj =>
    match py_getitem obj "loss" with
    | Ok (VFloat x) => Ok x
    | _ => Raise (Exn "RuntimeError" "missing keys in state_dict")
    end
|}.

Definition toy_Training (schedule : list pyfloat) : Training pyfloat := {|
  Optimizer := list pyfloat;
  Adam := fun _ _ => schedule;
  opt_state_dict := fun o => VList (map VFloat o);
  opt_load_state_dict := fun o obj =>
    match obj with
    | VList _ => Ok o
    | _ => Raise (Exn "ValueError" "not an optimizer state")
    end;
  optim_step := fun m o _ _ _ =>
    match o with
    | [] => (m, [])
    | m' :: o' => (m', o')
    end
|}.

(** A world whose filesystem is [fs]. *)
Definition world_of (fs : filesystem) : world := World fs 0 [].

(** A computation that leaves the filesystem and the trace alone. *)
Definition quiet {A : Type} (c : M A) : Prop :=
  forall w r w', c w = (r, w') -> w_fs w' = w_fs w /\ w_log w' = w_log w.

(** Loaders over one sample each. *)
Definition toy_train_loader : DataLoader :=
  Loader (Dataset ["data/02691156/m1/models/model_normalized.obj"] [0]) 10 true.
Definition toy_val_loader : DataLoader :=
  Loader (Dataset ["data/02747177/m3/models/model_normalized.obj"] [1]) 10 false.

(** [train_model] on the small implementation, the optimizer following
    [schedule]. *)
Definition toy_train (schedule : list pyfloat) (num_epochs : nat) : M pyfloat :=
  @train_model toy_Lib pyfloat toy_Module (toy_Training schedule)
    toy_train_loader toy_val_loader "model_checkpoint.pth" (Finite 9) num_epochs.

(** Two small trees used below.  [fs_stray] is a dataset root with a
    regular file next to its one category directory. *)
Definition fs_of_list (l : list (string * entry)) : filesystem :=
  fold_right (fun pe fs => fs_put (fst pe) (snd pe) fs) fs_empty l.

Definition fs_two : filesystem :=
  fs_of_list
    [ ("data", EDir ["02747177"; "02691156"]);
      ("data/02691156", EDir ["m1"; "m2"]);
      ("data/02691156/m1", EDir ["models"]);
      ("data/02691156/m1/models/model_normalized.obj", EFile "v 0 0 0");
      ("data/02691156/m2", EDir []);
      ("data/02747177", EDir ["m3"]);
      ("data/02747177/m3", EDir ["models"]);
      ("data/02747177/m3/models/model_normalized.obj", EFile "v 1 1 1") ].

Definition fs_stray : filesystem :=
  fs_of_list
    [ ("data", EDir ["synset"; "README.txt"]);
      ("data/README.txt", EFile "about");
      ("data/synset", EDir ["m1"]);
      ("data/synset/m1", EDir ["models"]);
      ("data/synset/m1/models/model_normalized.obj", EFile "v 0 0 0") ].


(** The first [k] epochs of that loop, and the state they end in. *)
Definition toy_loop (schedule : list pyfloat) (k : nat)
    : result (@train_state pyfloat (toy_Training schedule)) * world :=
  @train_loop toy_Lib pyfloat toy_Module (toy_Training schedule)
    toy_train_loader toy_val_loader "model_checkpoint.pth" (seq 0 k)
    (@train_init pyfloat (toy_Training schedule) (Finite 9))
    (world_of fs_two).

Definition toy_state (schedule : list pyfloat) (k : nat)
    : @train_state pyfloat (toy_Training schedule) :=
  match fst (toy_loop schedule k) with
  | Ok st => st
  | Raise _ => @train_init pyfloat (toy_Training schedule) (Finite 9)
  end.

(** The two halves of an epoch of that loop. *)
Definition toy_run_epoch (schedule : list pyfloat) :=
  @run_epoch toy_Lib pyfloat toy_Module (toy_Training schedule)
    toy_train_loader toy_val_loader.

Definition toy_report_epoch (schedule : list pyfloat) :=
  @report_epoch toy_Lib pyfloat toy_Module (toy_Training schedule)
    toy_train_loader "model_checkpoint.pth".

(** A root with one category of seven models. *)
Definition fs_seven : filesystem :=
  let models := ["m1"; "m2"; "m3"; "m4"; "m5"; "m6"; "m7"] in
  fs_of_list
    ([ ("data7", EDir ["c"]); ("data7/c", EDir models) ]
     ++ map (fun m =>
               (("data7/c/" ++ m ++ "/models/model_normalized.obj")%string,
                EFile "v 0 0 0")) models).

(** [k] is exactly the fraction [x] of [n]: [k = x * n] with no
    rounding. *)
Definition exact_fraction (x : pyfloat) (n k : nat) : Prop :=
  match x with
  | Finite m => (Z.of_nat k * 2 ^ 1074 = m * Z.of_nat n)%Z
  | _ => False
  end.

(** The objects a trace shows as saved, oldest first. *)
Definition saved_objs (log : list io_event) : list pyval :=
  flat_map (fun ev => match ev with EvSave _ obj => [obj] | _ => [] end) log.

(* ===================================================================== *)
(** * [test_model] *)
(* ===================================================================== *)

(** What [test_model] takes from [sklearn.metrics], each called with
    [(actual_labels, pred_labels)]: [accuracy_score],
    [precision_score(average='macro', zero_division=1)],
    [recall_score(average='macro')], [f1_score(average='macro')] and
    [confusion_matrix]. *)
Class Metrics : Type := {
  accuracy_score : list nat -> list nat -> result pyfloat;
  precision_score : list nat -> list nat -> result pyfloat;
  recall_score : list nat -> list nat -> result pyfloat;
  f1_score : list nat -> list nat -> result pyfloat;
  confusion_matrix : list nat -> list nat -> result pyval
}.

Section Test.
Context `{Lib} `{Metrics} {Mdl : Type} `{Module Mdl}.
Variable test_loader : DataLoader.

(** What the loop of [test_model] accumulates. *)
Record test_totals : Type := TestTotals {
  total_test_loss : pyfloat;
  pred_labels : list nat;
  actual_labels : list nat
}.

(** [for points, labels in test_loader: ...] *)
Fixpoint test_batches (bs : list (list nat)) (model : Mdl) (acc : test_totals)
    : M test_totals :=
  match bs with
  | [] => ret acc
  | b :: rest =>
      '(points, labels) <- fetch (dl_dataset test_loader) b ;;
      outputs <- with_rng (call model points) ;;
      loss <- lift (cross_entropy outputs labels) ;;
      predicted <- lift (torch_max_1 outputs) ;;
      test_batches rest model
        (TestTotals (fadd (total_test_loss acc) loss)
                    (pred_labels acc ++ predicted)
                    (actual_labels acc ++ labels))
  end.

(** The part of [test_model] before the prints. *)
Definition test_pass (model : Mdl) : M test_totals :=
  bs <- batches test_loader ;;
  test_batches bs model (TestTotals (Finite 0) [] []).

(** [test_model]; the model, put in evaluation mode, is returned. *)
Definition test_model (model : Mdl) : M Mdl :=
  let model := set_training false model in
  t <- test_pass model ;;
  print [Text "Test Scores:-"] ;;
  accuracy <- lift (accuracy_score (actual_labels t) (pred_labels t)) ;;
  print [Text "Accuracy: "; Val (VFloat accuracy)] ;;
  precision <- lift (precision_score (actual_labels t) (pred_labels t)) ;;
  print [Text "Precision: "; Val (VFloat precision)] ;;
  recall <- lift (recall_score (actual_labels t) (pred_labels t)) ;;
  print [Text "Recall: "; Val (VFloat recall)] ;;
  f1 <- lift (f1_score (actual_labels t) (pred_labels t)) ;;
  print [Text "F1 Score: "; Val (VFloat f1)] ;;
  cm <- lift (confusion_matrix (actual_labels t) (pred_labels t)) ;;
  print [Text "Confusion Matrix:
"; Text " "; Val cm] ;;
  test_loss <- lift (py_div (total_test_loss t) (dl_len test_loader)) ;;
  print [Text "Test Loss: "; Val (VFloat test_loss)] ;;
  ret model.
End Test.

(** The steps of [predict_3d_model]'s [try] that follow the sampling:
    from the batch of one point cloud to the label. *)
Definition classify `{Lib} {Mdl : Type} `{Module Mdl} (model : Mdl)
    (label_map : dict nat) (points : tensor) : M (option string) :=
  outputs <- with_rng (call model points) ;;
  predicted_idx <- lift (torch_max_1 outputs) ;;
  i <- lift (item predicted_idx) ;;
  predicted_label <- lift (label_of_index label_map i) ;;
  ret (Some predicted_label).

(** Metrics for the small implementation: the share of equal labels for
    all four scores, no confusion matrix. *)
Definition toy_Metrics : Metrics :=
  let score actual pred :=
    match actual with
    | [] => Raise (Exn "ValueError" "empty input")
    | _ => Ok (Finite (Z.of_nat (List.length
                 (filter (fun ap => Nat.eqb (fst ap) (snd ap))
                    (combine actual pred)))))
    end in
  {| accuracy_score := score;
     precision_score := score;
     recall_score := score;
     f1_score := score;
     confusion_matrix := fun _ _ => Ok VNone |}.

(** The small implementation with another unpickler. *)
Definition toy_Lib_loading (loads : string -> result pyval) : Lib := {|
  fadd := @fadd toy_Lib;
  fsub := @fsub toy_Lib;
  fmul := @fmul toy_Lib;
  fdiv := @fdiv toy_Lib;
  pickle_dumps := @pickle_dumps toy_Lib;
  pickle_loads := loads;
  Mesh := @Mesh toy_Lib;
  trimesh_parse := @trimesh_parse toy_Lib;
  mesh_sample := @mesh_sample toy_Lib;
  linear_fn := @linear_fn toy_Lib;
  dropout_fn := @dropout_fn toy_Lib;
  log_softmax_fn := @log_softmax_fn toy_Lib;
  argmax_fn := @argmax_fn toy_Lib;
  linear_init := @linear_init toy_Lib;
  cross_entropy := @cross_entropy toy_Lib;
  randperm := @randperm toy_Lib;
  rs_permutation := @rs_permutation toy_Lib
|}.

(** A record with weights and an epoch and nothing else. *)
Definition weights_only : pyval :=
  VDict [ (VStr "epoch", VInt 4);
          (VStr "state_dict", VDict [(VStr "loss", VFloat (Finite 7))]) ].

(** No regular file other than [p] differs between [fs] and [fs']:
    none is created, removed or changed. *)
Definition files_kept (p : string) (fs fs' : filesystem) : Prop :=
  forall q bytes, q <> p ->
    fs' q = Some (EFile bytes) <-> fs q = Some (EFile bytes).

(** A loader over no sample. *)
Definition toy_empty_loader : DataLoader := Loader (Dataset [] []) 10 false.

(** A classifier with the layers [__init__] builds for two classes, on
    the small implementation. *)
Definition toy_classifier : ThreeDClassifier :=
  let layer n_in n_out := fst (@new_Linear toy_Lib n_in n_out 0) in
  Classifier (layer (1024 * 3) 512) (layer 512 256) (layer 256 2)
    (Finite 0) true.

(* ===================================================================== *)
(** * Properties *)
(* ===================================================================== *)

(** ** Dictionaries *)

Section DictFacts.
Context {V : Type}.
Implicit Types (d : dict V) (k : string) (v : V).

Lemma dict_get_set_same k v d : dict_get k (dict_set k v d) = Some v.
Proof.
  induction d as [|[k' v'] d IH]; simpl.
  - now rewrite String.eqb_refl.
  - destruct (String.eqb k k') eqn:E; simpl; rewrite E; auto.
Qed.

Lemma dict_get_set_other k k' v d :
  k' <> k -> dict_get k' (dict_set k v d) = dict_get k' d.
Proof.
  intros Hne. induction d as [|[k0 v0] d IH]; simpl.
  - apply String.eqb_neq in Hne. now rewrite Hne.
  - destruct (String.eqb k k0) eqn:E; simpl.
    + apply String.eqb_eq in E. subst k0.
      apply String.eqb_neq in Hne. now rewrite Hne.
    + now rewrite IH.
Qed.

Lemma dict_get_In k v d : dict_get k d = Some v -> In (k, v) d.
Proof.
  induction d as [|[k' v'] d IH]; simpl; [discriminate|].
  destruct (String.eqb_spec k k') as [->|Hne].
  - intros [= ->]. now left.
  - intros H. right. auto.
Qed.

Lemma dict_get_key k v d : dict_get k d = Some v -> In k (dict_keys d).
Proof.
  intros H. apply dict_get_In in H.
  change k with (fst (k, v)). now apply in_map.
Qed.

Lemma dict_key_get k d : In k (dict_keys d) -> exists v, dict_get k d = Some v.
Proof.
  induction d as [|[k' v'] d IH]; simpl; [tauto|].
  intros [->|Hin].
  - rewrite String.eqb_refl. eauto.
  - destruct (String.eqb k k'); eauto.
Qed.

Lemma dict_get_value k v d : dict_get k d = Some v -> In v (dict_values d).
Proof.
  intros H. apply dict_get_In in H.
  change v with (snd (k, v)). now apply in_map.
Qed.

Lemma dict_keys_set k v d :
  dict_keys (dict_set k v d)
  = if in_dec string_dec k (dict_keys d) then dict_keys d
    else dict_keys d ++ [k].
Proof.
  induction d as [|[k' v'] d IH]; simpl; [reflexivity|].
  destruct (String.eqb_spec k k') as [->|Hne]; simpl.
  - destruct (string_dec k' k'); [reflexivity | congruence].
  - rewrite IH. destruct (string_dec k' k) as [E|E]; [congruence|].
    destruct (in_dec string_dec k (dict_keys d)); reflexivity.
Qed.

Lemma dict_keys_set_In k k' v d :
  In k' (dict_keys (dict_set k v d)) <-> k' = k \/ In k' (dict_keys d).
Proof.
  rewrite dict_keys_set.
  destruct (in_dec string_dec k (dict_keys d)) as [Hin|Hout].
  - split; [tauto | intros [E|H]; [subst k'|]; assumption].
  - rewrite in_app_iff. simpl. intuition congruence.
Qed.

Lemma dict_keys_set_NoDup k v d :
  NoDup (dict_keys d) -> NoDup (dict_keys (dict_set k v d)).
Proof.
  intros Hnd. rewrite dict_keys_set.
  destruct (in_dec string_dec k (dict_keys d)) as [Hin|Hout]; [assumption|].
  apply NoDup_app; [assumption | repeat constructor; simpl; tauto |].
  intros x Hx [<-|[]]. contradiction.
Qed.

Lemma dict_value_get v d :
  NoDup (dict_keys d) -> In v (dict_values d) ->
  exists k, dict_get k d = Some v.
Proof.
  induction d as [|[k' v'] d IH]; simpl; [tauto|].
  intros Hnd [->|Hin].
  - exists k'. now rewrite String.eqb_refl.
  - inversion Hnd as [|? ? Hout Hnd']; subst.
    destruct (IH Hnd' Hin) as [k Hk]. exists k.
    destruct (String.eqb_spec k k') as [->|_]; [|assumption].
    apply dict_get_key in Hk. contradiction.
Qed.
End DictFacts.

(** ** [load_data] *)

Lemma combine_snoc {A B : Type} (l : list A) (l' : list B) a b :
  List.length l = List.length l' ->
  combine (l ++ [a]) (l' ++ [b]) = combine l l' ++ [(a, b)].
Proof.
  revert l'. induction l as [|x l IH]; intros [|y l'] Hlen;
    simpl in *; try discriminate; [reflexivity|].
  f_equal. apply IH. congruence.
Qed.

Lemma sorted_In x l : In x (sorted l) <-> In x l.
Proof.
  unfold sorted. split; apply Permutation_in;
    [apply Permutation_sym|]; apply StringSort.Permuted_sort.
Qed.

Lemma sorted_NoDup l : NoDup l -> NoDup (sorted l).
Proof.
  apply Permutation_NoDup, StringSort.Permuted_sort.
Qed.

Lemma isdir_listdir fs p :
  isdir fs p = true -> exists names, fs p = Some (EDir names).
Proof.
  unfold isdir. destruct (fs p) as [[names|b]|]; try discriminate. eauto.
Qed.

Section LoadDataFacts.
Variable fs : filesystem.
Variable root_dir : string.

Lemma scan_models_label_map dir_path idx models : forall acc,
  label_map (scan_models fs dir_path idx models acc) = label_map acc.
Proof.
  induction models as [|m rest IH]; intros acc; simpl; [reflexivity|].
  destruct (isfile fs _); rewrite IH; reflexivity.
Qed.

Lemma scan_models_spec dir_path idx models acc :
  List.length (file_paths acc) = List.length (labels acc) ->
  let r := scan_models fs dir_path idx models acc in
  label_map r = label_map acc
  /\ List.length (file_paths r) = List.length (labels r)
  /\ samples r
     = samples acc
       ++ map (fun m =>
                 (path_join dir_path [m; "models/model_normalized.obj"], idx))
            (filter (fun m =>
                 isfile fs
                   (path_join dir_path [m; "models/model_normalized.obj"]))
               models).
Proof.
  revert acc. induction models as [|m rest IH]; intros acc Hlen; cbn zeta.
  - simpl. rewrite app_nil_r. auto.
  - cbn [scan_models filter].
    destruct (isfile fs (path_join dir_path [m; _])) eqn:E.
    + specialize (IH (Loaded (file_paths acc ++ [path_join dir_path
                                 [m; "models/model_normalized.obj"]])
                             (labels acc ++ [idx]) (label_map acc))).
      cbn zeta in IH. destruct IH as (H1 & H2 & H3).
      { simpl. rewrite !length_app. simpl. lia. }
      split; [exact H1|]. split; [exact H2|].
      rewrite H3. unfold samples at 1. simpl file_paths. simpl labels.
      rewrite combine_snoc by assumption.
      rewrite <- app_assoc. reflexivity.
    + apply IH. assumption.
Qed.

(** The outer loop never raises: a name that passes [isdir] can be
    listed. *)
Lemma scan_dirs_total directories : forall idx acc,
  exists ld, scan_dirs fs root_dir idx directories acc = Ok ld.
Proof.
  induction directories as [|d rest IH]; intros idx acc;
    cbn [scan_dirs]; eauto.
  destruct (isdir fs (path_join root_dir [d])) eqn:E; [|apply IH].
  destruct (isdir_listdir _ _ E) as [names Hn].
  unfold listdir. rewrite Hn. cbn [rbind]. apply IH.
Qed.

(** Keys of the label map: the names that passed [isdir]. *)
Lemma scan_dirs_keys directories : forall idx acc ld,
  scan_dirs fs root_dir idx directories acc = Ok ld ->
  forall c, In c (dict_keys (label_map ld))
    <-> In c (dict_keys (label_map acc))
        \/ (In c directories /\ isdir fs (path_join root_dir [c]) = true).
Proof.
  induction directories as [|d rest IH]; intros idx acc ld Hrun c;
    cbn [scan_dirs In] in *.
  - injection Hrun as <-. tauto.
  - destruct (isdir fs (path_join root_dir [d])) eqn:E.
    + destruct (isdir_listdir _ _ E) as [names Hn].
      unfold listdir in Hrun. rewrite Hn in Hrun. cbn [rbind] in Hrun.
      rewrite (IH _ _ _ Hrun c).
      rewrite scan_models_label_map. cbn [label_map]. rewrite dict_keys_set_In.
      intuition (subst; auto).
    + rewrite (IH _ _ _ Hrun c). intuition (subst; try congruence; auto).
Qed.
Lemma set_fresh_label n idx d lm :
  labels_below n lm -> dict_injective lm -> n <= idx ->
  dict_injective (dict_set d idx lm) /\ labels_below (S idx) (dict_set d idx lm).
Proof.
  intros Hb Hi Hle.
  assert (Hget : forall k v, dict_get k (dict_set d idx lm) = Some v ->
                   (k = d /\ v = idx) \/ (k <> d /\ dict_get k lm = Some v)).
  { intros k v. destruct (string_dec k d) as [->|Hne].
    - rewrite dict_get_set_same. intros [= <-]. auto.
    - rewrite dict_get_set_other by assumption. auto. }
  split.
  - intros k1 k2 v H1 H2.
    destruct (Hget _ _ H1) as [[-> ->]|[N1 G1]];
      destruct (Hget _ _ H2) as [[E2 E2']|[N2 G2]]; subst; auto.
    + apply Hb in G2. lia.
    + apply Hb in G1. lia.
    + eapply Hi; eassumption.
  - intros k v H. destruct (Hget _ _ H) as [[_ ->]|[_ G]]; [lia|].
    apply Hb in G. lia.
Qed.

Lemma scan_dirs_injective directories : forall idx acc ld,
  scan_dirs fs root_dir idx directories acc = Ok ld ->
  labels_below idx (label_map acc) -> dict_injective (label_map acc) ->
  dict_injective (label_map ld)
  /\ labels_below (idx + List.length directories) (label_map ld).
Proof.
  induction directories as [|d rest IH]; intros idx acc ld Hrun Hb Hi;
    cbn [scan_dirs List.length] in *.
  - injection Hrun as <-. rewrite Nat.add_0_r. auto.
  - replace (idx + S (List.length rest)) with (S idx + List.length rest) by lia.
    destruct (isdir fs (path_join root_dir [d])) eqn:E.
    + destruct (isdir_listdir _ _ E) as [names Hn].
      unfold listdir in Hrun. rewrite Hn in Hrun. cbn [rbind] in Hrun.
      apply (IH _ _ _ Hrun); rewrite scan_models_label_map; cbn [label_map];
        eapply set_fresh_label; eauto.
    + apply (IH _ _ _ Hrun); [|assumption].
      intros k v H. apply Hb in H. lia.
Qed.

Lemma scan_dirs_keys_NoDup directories : forall idx acc ld,
  scan_dirs fs root_dir idx directories acc = Ok ld ->
  NoDup (dict_keys (label_map acc)) -> NoDup (dict_keys (label_map ld)).
Proof.
  induction directories as [|d rest IH]; intros idx acc ld Hrun Hnd;
    cbn [scan_dirs] in *.
  - injection Hrun as <-. assumption.
  - destruct (isdir fs (path_join root_dir [d])) eqn:E.
    + destruct (isdir_listdir _ _ E) as [names Hn].
      unfold listdir in Hrun. rewrite Hn in Hrun. cbn [rbind] in Hrun.
      apply (IH _ _ _ Hrun). rewrite scan_models_label_map. cbn [label_map].
      now apply dict_keys_set_NoDup.
    + apply (IH _ _ _ Hrun Hnd).
Qed.

(** A name the loop does not visit keeps its label. *)
Lemma scan_dirs_frame directories : forall idx acc ld,
  scan_dirs fs root_dir idx directories acc = Ok ld ->
  forall c, ~ In c directories ->
  dict_get c (label_map ld) = dict_get c (label_map acc).
Proof.
  induction directories as [|d rest IH]; intros idx acc ld Hrun c Hout;
    cbn [scan_dirs In] in *.
  - injection Hrun as <-. reflexivity.
  - destruct (isdir fs (path_join root_dir [d])) eqn:E.
    + destruct (isdir_listdir _ _ E) as [names Hn].
      unfold listdir in Hrun. rewrite Hn in Hrun. cbn [rbind] in Hrun.
      rewrite (IH _ _ _ Hrun c) by tauto.
      rewrite scan_models_label_map. cbn [label_map].
      apply dict_get_set_other. intros ->. tauto.
    + apply (IH _ _ _ Hrun c). tauto.
Qed.

(** Without repeated names, a directory is labelled with its position
    in the listing. *)
Lemma scan_dirs_label directories : forall idx acc ld,
  scan_dirs fs root_dir idx directories acc = Ok ld ->
  NoDup directories ->
  forall k c, nth_error directories k = Some c ->
  isdir fs (path_join root_dir [c]) = true ->
  dict_get c (label_map ld) = Some (idx + k).
Proof.
  induction directories as [|d rest IH]; intros idx acc ld Hrun Hnd k c Hk Hc.
  - destruct k; discriminate.
  - inversion Hnd as [|? ? Hout Hnd']; subst.
    cbn [scan_dirs] in Hrun. destruct k as [|k]; simpl in Hk.
    + injection Hk as ->. rewrite Hc in Hrun.
      destruct (isdir_listdir _ _ Hc) as [names Hn].
      unfold listdir in Hrun. rewrite Hn in Hrun. cbn [rbind] in Hrun.
      rewrite (scan_dirs_frame _ _ _ _ Hrun c Hout).
      rewrite scan_models_label_map. cbn [label_map].
      rewrite dict_get_set_same. f_equal. lia.
    + replace (idx + S k) with (S idx + k) by lia.
      destruct (isdir fs (path_join root_dir [d])) eqn:E.
      * destruct (isdir_listdir _ _ E) as [names Hn].
        unfold listdir in Hrun. rewrite Hn in Hrun. cbn [rbind] in Hrun.
        eapply IH; eauto.
      * eapply IH; eauto.
Qed.

(** The pairs collected: one per probed path that is a file, labelled
    with the position of its category in the listing. *)
Lemma scan_dirs_samples directories : forall idx acc ld,
  scan_dirs fs root_dir idx directories acc = Ok ld ->
  List.length (file_paths acc) = List.length (labels acc) ->
  List.length (file_paths ld) = List.length (labels ld)
  /\ forall p i, In (p, i) (samples ld)
      <-> In (p, i) (samples acc)
          \/ exists k c names m,
               nth_error directories k = Some c /\ i = idx + k
               /\ fs (path_join root_dir [c]) = Some (EDir names)
               /\ In m names /\ p = model_file root_dir c m
               /\ isfile fs p = true.
Proof.
  induction directories as [|d rest IH]; intros idx acc ld Hrun Hlen;
    cbn [scan_dirs] in *.
  - injection Hrun as <-. split; [assumption|]. intros p i. split; [auto|].
    intros [H|(k & c & names & m & Hk & _)]; [assumption|].
    destruct k; discriminate.
  - destruct (isdir fs (path_join root_dir [d])) eqn:E.
    + destruct (isdir_listdir _ _ E) as [names Hn].
      unfold listdir in Hrun. rewrite Hn in Hrun. cbn [rbind] in Hrun.
      destruct (scan_models_spec (path_join root_dir [d]) idx names
                  (Loaded (file_paths acc) (labels acc)
                          (dict_set d idx (label_map acc))) Hlen)
        as (_ & Hlen' & Hs).
      destruct (IH _ _ _ Hrun Hlen') as [Hl Hin]. split; [assumption|].
      intros p i. rewrite Hin, Hs, in_app_iff, in_map_iff.
      unfold samples at 1. cbn [file_paths labels]. fold (samples acc).
      split.
      * intros [[H|(m & [= <- <-] & Hm)]|(k & c & ns & m & Hk & -> & Hr)].
        -- now left.
        -- apply filter_In in Hm. destruct Hm as [Hm Hf].
           right. exists 0, d, names, m. rewrite Nat.add_0_r.
           repeat split; auto.
        -- right. exists (S k), c, ns, m.
           split; [exact Hk|]. split; [lia | exact Hr].
      * intros [H|(k & c & ns & m & Hk & -> & Hc & Hm & -> & Hf)];
          [now do 2 left|].
        destruct k as [|k]; simpl in Hk.
        -- injection Hk as ->. rewrite Hn in Hc. injection Hc as ->.
           left. right. exists m. rewrite Nat.add_0_r.
           split; [reflexivity|]. apply filter_In. split; assumption.
        -- right. exists k, c, ns, m.
           repeat split; auto. lia.
    + destruct (IH _ _ _ Hrun Hlen) as [Hl Hin]. split; [assumption|].
      intros p i. rewrite Hin. split.
      * intros [H|(k & c & ns & m & Hk & -> & Hr)]; [now left|].
        right. exists (S k), c, ns, m.
        split; [exact Hk|]. split; [lia | exact Hr].
      * intros [H|(k & c & ns & m & Hk & -> & Hc & Hr)]; [now left|].
        destruct k as [|k]; simpl in Hk.
        -- injection Hk as ->. unfold isdir in E. rewrite Hc in E.
           discriminate.
        -- right. exists k, c, ns, m. repeat split; try tauto. lia.
Qed.
End LoadDataFacts.

Lemma label_of_index_get lm i :
  NoDup (dict_keys lm) -> In i (dict_values lm) ->
  exists c, label_of_index lm i = Ok c /\ dict_get c lm = Some i.
Proof.
  unfold label_of_index.
  induction lm as [|[k v] lm IH]; simpl; [tauto|].
  intros Hnd Hin. inversion Hnd as [|? ? Hout Hnd']; subst.
  destruct (Nat.eqb_spec v i) as [->|Hne].
  - exists k. simpl. now rewrite String.eqb_refl.
  - destruct Hin as [Hv|Hin]; [congruence|].
    destruct (IH Hnd' Hin) as (c & Hc & Hg).
    destruct (list_index i (dict_values lm)) as [pos|e]; [|discriminate].
    simpl in *. exists c. split; [exact Hc|].
    destruct (String.eqb_spec c k) as [->|_]; [|exact Hg].
    apply dict_get_key in Hg. contradiction.
Qed.

Lemma in_combine_fst {A B : Type} (l : list A) (l' : list B) a :
  List.length l = List.length l' ->
  In a l <-> exists b, In (a, b) (combine l l').
Proof.
  intros Hlen. split.
  - revert l' Hlen. induction l as [|x l IH]; intros [|y l'] Hlen Hin;
      simpl in *; try discriminate; [tauto|].
    destruct Hin as [->|Hin]; [eauto|].
    destruct (IH l') as [b Hb]; [congruence | assumption | eauto].
  - intros [b Hb]. eapply in_combine_l; eassumption.
Qed.

(** C1: for every root directory, [load_data] returns a label map whose
    keys are exactly the category directories of the root, no two of
    them with the same class index, and for every index among its
    values the lookup of [predict_3d_model] returns the one directory
    name that the map sends to that index. *)
Theorem load_data_label_map_bijection (fs : filesystem) (root_dir : string) :
  isdir fs root_dir = true ->
  exists names ld,
    listdir fs root_dir = Ok names
    /\ load_data fs root_dir = Ok ld
    /\ (forall c, In c (dict_keys (label_map ld))
          <-> In c names /\ isdir fs (path_join root_dir [c]) = true)
    /\ (forall c1 c2 i,
          dict_get c1 (label_map ld) = Some i ->
          dict_get c2 (label_map ld) = Some i -> c1 = c2)
    /\ (forall i, In i (dict_values (label_map ld)) ->
          exists c, label_of_index (label_map ld) i = Ok c
            /\ dict_get c (label_map ld) = Some i
            /\ forall c', dict_get c' (label_map ld) = Some i -> c' = c).
Proof.
  intros Hroot. destruct (isdir_listdir _ _ Hroot) as [names Hn].
  assert (Hl : listdir fs root_dir = Ok names) by (unfold listdir; now rewrite Hn).
  destruct (scan_dirs_total fs root_dir (sorted names) 0 (Loaded [] [] []))
    as [ld Hrun].
  exists names, ld. split; [exact Hl|].
  split; [unfold load_data; rewrite Hl; exact Hrun|].
  destruct (scan_dirs_injective _ _ _ _ _ _ Hrun) as [Hinj _];
    [intros k v; discriminate | intros k1 k2 v; discriminate |].
  assert (Hnd : NoDup (dict_keys (label_map ld)))
    by (eapply scan_dirs_keys_NoDup; [exact Hrun | constructor]).
  split; [|split; [exact Hinj|]].
  - intros c. rewrite (scan_dirs_keys _ _ _ _ _ _ Hrun c), sorted_In.
    simpl. tauto.
  - intros i Hi. destruct (label_of_index_get _ _ Hnd Hi) as (c & Hc & Hg).
    exists c. repeat split; auto. intros c' Hc'. eapply Hinj; eassumption.
Qed.

Lemma load_data_label_map_bijection_witness :
  exists names ld,
    listdir fs_two "data" = Ok names
    /\ load_data fs_two "data" = Ok ld
    /\ (forall c, In c (dict_keys (label_map ld))
          <-> In c names /\ isdir fs_two (path_join "data" [c]) = true)
    /\ (forall c1 c2 i,
          dict_get c1 (label_map ld) = Some i ->
          dict_get c2 (label_map ld) = Some i -> c1 = c2)
    /\ (forall i, In i (dict_values (label_map ld)) ->
          exists c, label_of_index (label_map ld) i = Ok c
            /\ dict_get c (label_map ld) = Some i
            /\ forall c', dict_get c' (label_map ld) = Some i -> c' = c).
Proof.
  apply (load_data_label_map_bijection fs_two "data"). reflexivity.
Defined.

(** C2: on a root that holds a regular file sorting before its one
    category directory, [load_data] gives that directory, the 0-th
    directory of the root, the class index 1: the index counts the file
    too, and the values of the map are not [{0}]. *)
Theorem load_data_index_counts_files :
  exists ld,
    load_data fs_stray "data" = Ok ld
    /\ sorted ["synset"; "README.txt"] = ["README.txt"; "synset"]
    /\ isdir fs_stray "data/README.txt" = false
    /\ dict_keys (label_map ld) = ["synset"]
    /\ dict_get "synset" (label_map ld) = Some 1
    /\ ~ In 0 (dict_values (label_map ld)).
Proof.
  eexists. split; [vm_compute; reflexivity|].
  repeat split; try (vm_compute; reflexivity).
  simpl. intros [H|[]]. discriminate.
Qed.

(** What does hold: without repeated names, a category directory is
    labelled with its position in the sorted listing of all the names
    of the root; the labels are [0 .. n-1] as soon as every name of the
    root is a directory. *)
Lemma load_data_label_is_position (fs : filesystem) (root_dir : string)
    (names : list string) :
  listdir fs root_dir = Ok names ->
  NoDup names ->
  exists ld,
    load_data fs root_dir = Ok ld
    /\ (forall k c, nth_error (sorted names) k = Some c ->
          isdir fs (path_join root_dir [c]) = true ->
          dict_get c (label_map ld) = Some k)
    /\ ((forall c, In c names -> isdir fs (path_join root_dir [c]) = true) ->
        forall v, In v (dict_values (label_map ld)) <-> v < List.length names).
Proof.
  intros Hl Hnd.
  destruct (scan_dirs_total fs root_dir (sorted names) 0 (Loaded [] [] []))
    as [ld Hrun].
  exists ld. split; [unfold load_data; rewrite Hl; exact Hrun|].
  assert (Hlab : forall k c, nth_error (sorted names) k = Some c ->
            isdir fs (path_join root_dir [c]) = true ->
            dict_get c (label_map ld) = Some k).
  { intros k c Hk Hc.
    apply (scan_dirs_label _ _ _ _ _ _ Hrun (sorted_NoDup _ Hnd) k c Hk Hc). }
  split; [exact Hlab|]. intros Hall v.
  assert (Hlen : List.length (sorted names) = List.length names).
  { symmetry. apply Permutation_length, StringSort.Permuted_sort. }
  split.
  - intros Hv. apply dict_value_get in Hv;
      [|eapply scan_dirs_keys_NoDup; [exact Hrun | constructor]].
    destruct Hv as [c Hc]. pose proof (dict_get_key _ _ _ Hc) as Hkey.
    apply (scan_dirs_keys _ _ _ _ _ _ Hrun) in Hkey.
    destruct Hkey as [[]|[Hin Hd]].
    destruct (In_nth_error _ _ Hin) as [k Hk].
    rewrite (Hlab _ _ Hk Hd) in Hc. injection Hc as <-.
    rewrite <- Hlen. apply nth_error_Some. congruence.
  - intros Hv. rewrite <- Hlen in Hv. apply nth_error_Some in Hv.
    destruct (nth_error (sorted names) v) as [c|] eqn:Hk; [|congruence].
    apply dict_get_value with (k := c). apply Hlab; [assumption|].
    apply Hall, sorted_In. eapply nth_error_In; eassumption.
Qed.

(** The literal shape of the probed paths, for a root spelled without a
    trailing separator. *)
Lemma ends_with_sep_app a b :
  b <> "" -> ends_with_sep (a ++ b)%string = ends_with_sep b.
Proof.
  intros Hb. induction a as [|c a IH]; [reflexivity|].
  cbn [append ends_with_sep]. rewrite IH.
  destruct (a ++ b)%string eqn:E; [|reflexivity].
  destruct a; simpl in E; [contradiction | discriminate].
Qed.

Lemma no_sep_ends s : no_sep s = true -> ends_with_sep s = false.
Proof.
  induction s as [|c s IH]; [reflexivity|]. cbn [no_sep ends_with_sep].
  intros H. apply andb_prop in H. destruct H as [Hc Hs].
  destruct s; [now apply negb_true_iff in Hc | auto].
Qed.

Lemma join_step_relative path b :
  path <> "" -> ends_with_sep path = false ->
  b <> "" -> prefix "/" b = false ->
  join_step path b = (path ++ "/" ++ b)%string
  /\ join_step path b <> ""
  /\ ends_with_sep (join_step path b) = ends_with_sep b.
Proof.
  intros Hp He Hne Hpre.
  assert (Hj : join_step path b = (path ++ "/" ++ b)%string).
  { unfold join_step. rewrite Hpre. apply String.eqb_neq in Hp.
    now rewrite Hp, He. }
  rewrite Hj. split; [reflexivity|]. split.
  - destruct path; [contradiction | discriminate].
  - rewrite ends_with_sep_app by discriminate.
    now rewrite ends_with_sep_app by assumption.
Qed.

Lemma plain_name_relative b :
  plain_name b = true ->
  b <> "" /\ prefix "/" b = false /\ ends_with_sep b = false.
Proof.
  unfold plain_name. intros Hb. apply andb_prop in Hb.
  destruct Hb as [Hne Hns]. apply negb_true_iff, String.eqb_neq in Hne.
  split; [assumption|]. split; [|now apply no_sep_ends].
  destruct b as [|c b]; [contradiction|].
  cbn [no_sep] in Hns. apply andb_prop in Hns. destruct Hns as [Hc _].
  apply negb_true_iff in Hc.
  change (prefix "/" (String c b))
    with (if ascii_dec "/" c then prefix "" b else false).
  destruct (ascii_dec "/" c) as [<-|]; [discriminate | reflexivity].
Qed.

Lemma string_app_assoc (a b c : string) :
  ((a ++ b) ++ c = a ++ (b ++ c))%string.
Proof. induction a as [|x a IH]; simpl; congruence. Qed.

Lemma model_file_shape root_dir c m :
  root_dir <> "" -> ends_with_sep root_dir = false ->
  plain_name c = true -> plain_name m = true ->
  model_file root_dir c m
  = (root_dir ++ "/" ++ c ++ "/" ++ m ++ "/models/model_normalized.obj")%string.
Proof.
  intros Hr He Hc Hm. unfold model_file, path_join. cbn [fold_left].
  destruct (plain_name_relative c Hc) as (Nc & Pc & Sc).
  destruct (plain_name_relative m Hm) as (Nm & Pm & Sm).
  destruct (join_step_relative root_dir c Hr He Nc Pc) as (E1 & N1 & S1).
  rewrite Sc in S1.
  destruct (join_step_relative _ m N1 S1 Nm Pm) as (E2 & N2 & S2).
  rewrite Sm in S2.
  destruct (join_step_relative _ "models/model_normalized.obj" N2 S2)
    as (E3 & _ & _); [discriminate | reflexivity |].
  rewrite E3, E2, E1. rewrite !string_app_assoc. reflexivity.
Qed.

(** C7: when the listing of the root has no repeated name, the pairs
    [load_data] returns are exactly the paths
    [join(join(root, c), m, 'models/model_normalized.obj')] that are
    regular files, for [c] a category directory of the root and [m] an
    entry of [c], each paired with the class index the label map gives
    [c]; the returned file paths are exactly those paths. *)
Theorem load_data_layout (fs : filesystem) (root_dir : string)
    (names : list string) :
  listdir fs root_dir = Ok names ->
  NoDup names ->
  exists ld,
    load_data fs root_dir = Ok ld
    /\ List.length (file_paths ld) = List.length (labels ld)
    /\ (forall p i, In (p, i) (samples ld)
          <-> exists c ms m,
                In c names
                /\ fs (path_join root_dir [c]) = Some (EDir ms) /\ In m ms
                /\ p = model_file root_dir c m /\ isfile fs p = true
                /\ dict_get c (label_map ld) = Some i)
    /\ (forall p, In p (file_paths ld)
          <-> exists c ms m,
                In c names
                /\ fs (path_join root_dir [c]) = Some (EDir ms) /\ In m ms
                /\ p = model_file root_dir c m /\ isfile fs p = true).
Proof.
  intros Hl Hnd.
  destruct (scan_dirs_total fs root_dir (sorted names) 0 (Loaded [] [] []))
    as [ld Hrun].
  exists ld. split; [unfold load_data; rewrite Hl; exact Hrun|].
  destruct (scan_dirs_samples _ _ _ _ _ _ Hrun eq_refl) as [Hlen Hin].
  assert (Hlab : forall k c ms, nth_error (sorted names) k = Some c ->
            fs (path_join root_dir [c]) = Some (EDir ms) ->
            dict_get c (label_map ld) = Some k).
  { intros k c ms Hk Hc.
    apply (scan_dirs_label _ _ _ _ _ _ Hrun (sorted_NoDup _ Hnd) k c Hk).
    unfold isdir. now rewrite Hc. }
  assert (Hpairs : forall p i, In (p, i) (samples ld)
            <-> exists c ms m,
                  In c names
                  /\ fs (path_join root_dir [c]) = Some (EDir ms) /\ In m ms
                  /\ p = model_file root_dir c m /\ isfile fs p = true
                  /\ dict_get c (label_map ld) = Some i).
  { intros p i. rewrite Hin. split.
    - intros [[]|(k & c & ms & m & Hk & -> & Hc & Hm & Hp & Hf)].
      exists c, ms, m. repeat split; auto.
      + apply sorted_In. eapply nth_error_In; eassumption.
      + eapply Hlab; eassumption.
    - intros (c & ms & m & Hc & Hd & Hm & Hp & Hf & Hg). right.
      apply sorted_In, In_nth_error in Hc. destruct Hc as [k Hk].
      exists k, c, ms, m. repeat split; auto.
      rewrite (Hlab _ _ _ Hk Hd) in Hg. simpl. congruence. }
  split; [exact Hlen|]. split; [exact Hpairs|].
  intros p. unfold samples in Hpairs. rewrite (in_combine_fst _ _ _ Hlen). split.
  - intros [i Hi]. apply Hpairs in Hi.
    destruct Hi as (c & ms & m & H). exists c, ms, m. tauto.
  - intros (c & ms & m & Hc & Hd & Hm & Hp & Hf).
    destruct (In_nth_error _ _ (proj2 (sorted_In c names) Hc)) as [k Hk].
    exists k. apply Hpairs. exists c, ms, m. repeat split; auto.
    eapply Hlab; eassumption.
Qed.

Lemma load_data_layout_witness :
  exists ld,
    load_data fs_two "data" = Ok ld
    /\ List.length (file_paths ld) = List.length (labels ld)
    /\ (forall p i, In (p, i) (samples ld)
          <-> exists c ms m,
                In c ["02747177"; "02691156"]
                /\ fs_two (path_join "data" [c]) = Some (EDir ms) /\ In m ms
                /\ p = model_file "data" c m /\ isfile fs_two p = true
                /\ dict_get c (label_map ld) = Some i)
    /\ (forall p, In p (file_paths ld)
          <-> exists c ms m,
                In c ["02747177"; "02691156"]
                /\ fs_two (path_join "data" [c]) = Some (EDir ms) /\ In m ms
                /\ p = model_file "data" c m /\ isfile fs_two p = true).
Proof.
  apply (load_data_layout fs_two "data" ["02747177"; "02691156"]).
  - reflexivity.
  - repeat constructor; simpl; intuition discriminate.
Defined.

(** ** Checkpoints *)

(** C3: called with a path that is not an existing regular file,
    [load_checkpoint] prints the "No checkpoint found" line and returns
    [None]; the model and the optimizer come back as they were passed
    in, and nothing else changes. *)
Theorem load_checkpoint_missing_file `{Lib} {Mdl : Type} `{Module Mdl}
    `{Training Mdl} (filepath : string) (model : Mdl)
    (optimizer : option Optimizer) (w : world) :
  isfile (w_fs w) filepath = false ->
  load_checkpoint filepath model optimizer w
  = (Ok (None, model, optimizer),
     World (w_fs w) (w_rng w)
       (w_log w ++ [EvPrint [Text "No checkpoint found at '"; Text filepath;
                             Text "'"]])).
Proof.
  intros Hf. unfold load_checkpoint, bind. rewrite Hf. reflexivity.
Qed.

Lemma load_checkpoint_missing_file_witness :
  @load_checkpoint toy_Lib pyfloat toy_Module (toy_Training [])
    "./checkpoints/model_checkpoint.pth" (Finite 5) (Some [Finite 1])
    (world_of fs_two)
  = (Ok (None, Finite 5, Some [Finite 1]),
     World fs_two 0
       [EvPrint [Text "No checkpoint found at '";
                 Text "./checkpoints/model_checkpoint.pth"; Text "'"]]).
Proof.
  apply (@load_checkpoint_missing_file toy_Lib pyfloat toy_Module
           (toy_Training []) "./checkpoints/model_checkpoint.pth"
           (Finite 5) (Some [Finite 1]) (world_of fs_two)).
  reflexivity.
Defined.

Lemma fs_put_same p e fs : fs_put p e fs p = Some e.
Proof. unfold fs_put. now rewrite String.eqb_refl. Qed.

(** The two outcomes of [os.makedirs(p, exist_ok=True)]. *)
Lemma makedirs_spec (p : string) (w w' : world) (r : result unit) :
  makedirs p w = (r, w') ->
  (r = Ok tt /\ isfile (w_fs w) p = false /\ isdir (w_fs w') p = true
   /\ w_rng w' = w_rng w /\ w_log w' = w_log w
   /\ (forall q, q <> p -> w_fs w' q = w_fs w q)
   /\ (isdir (w_fs w) p = true -> w' = w))
  \/ (r = Raise (Exn "FileExistsError" p) /\ w' = w
      /\ isfile (w_fs w) p = true).
Proof.
  unfold makedirs, isfile, isdir.
  destruct (w_fs w p) as [[names|b]|] eqn:E; intros [= <- <-];
    cbn [w_fs w_rng w_log]; rewrite ?E, ?fs_put_same; auto 10.
  left. repeat split; auto; try discriminate.
  intros q Hq. unfold fs_put. apply String.eqb_neq in Hq. now rewrite Hq.
Qed.

(** The two outcomes of [torch.save]. *)
Lemma torch_save_spec `{Lib} (obj : pyval) (path : string) (w w' : world)
    (r : result unit) :
  torch_save obj path w = (r, w') ->
  (r = Ok tt /\ open_refused (w_fs w) path = None
   /\ w' = World (fs_put path (EFile (pickle_dumps obj)) (w_fs w)) (w_rng w)
              (w_log w ++ [EvSave path obj]))
  \/ (exists e, r = Raise e /\ open_refused (w_fs w) path = Some e /\ w' = w).
Proof.
  unfold torch_save. destruct (open_refused (w_fs w) path) as [e|];
    intros [= <- <-]; eauto 6.
Qed.

(** What a successful [save_checkpoint] leaves: the pickled object at
    [./checkpoints/filename], and one more event. *)
Lemma save_checkpoint_ok `{Lib} (state : pyval) (filename : string)
    (w w1 : world) :
  save_checkpoint state filename w = (Ok tt, w1) ->
  w_fs w1 (path_join "./checkpoints" [filename])
  = Some (EFile (pickle_dumps state))
  /\ w_rng w1 = w_rng w
  /\ w_log w1 = w_log w ++ [EvSave (path_join "./checkpoints" [filename]) state].
Proof.
  unfold save_checkpoint, bind.
  destruct (makedirs "./checkpoints" w) as [[[]|e] w0] eqn:Hm; [|discriminate].
  destruct (makedirs_spec _ _ _ _ Hm)
    as [(_ & _ & _ & Hr & Hl & _)|([=] & _)].
  intros Hs.
  destruct (torch_save_spec _ _ _ _ _ Hs) as [(_ & _ & ->)|(e & [=] & _)].
  cbn [w_fs w_rng w_log]. rewrite fs_put_same, Hr, Hl. auto.
Qed.

(** C6: after [save_checkpoint state filename] has succeeded, and given
    that [torch.load] reads back what [torch.save] wrote for [state],
    whatever [load_checkpoint] returns for the saved file is [state]
    itself, with the epoch field that was saved; and it does return as
    soon as [state] has a [state_dict] the model accepts, an [optimizer]
    the optimizer (if one is passed) accepts, and an [epoch]. *)
Theorem checkpoint_roundtrip_epoch `{Lib} {Mdl : Type} `{Module Mdl}
    `{Training Mdl} (state : pyval) (filename : string) (model : Mdl)
    (optimizer : option Optimizer) (w w1 : world) :
  pickle_loads (pickle_dumps state) = Ok state ->
  save_checkpoint state filename w = (Ok tt, w1) ->
  let saved_file := path_join "./checkpoints" [filename] in
  (forall ret model' optimizer' w2,
      load_checkpoint saved_file model optimizer w1
      = (Ok (ret, model', optimizer'), w2) ->
      exists checkpoint epoch,
        ret = Some checkpoint /\ checkpoint = state
        /\ py_getitem state "epoch" = Ok epoch
        /\ py_getitem checkpoint "epoch" = Ok epoch)
  /\ (forall sd model' epoch,
      py_getitem state "state_dict" = Ok sd ->
      load_state_dict model sd = Ok model' ->
      py_getitem state "epoch" = Ok epoch ->
      match optimizer with
      | None => True
      | Some opt => exists od opt', py_getitem state "optimizer" = Ok od
                      /\ opt_load_state_dict opt od = Ok opt'
      end ->
      exists optimizer' w2,
        load_checkpoint saved_file model optimizer w1
        = (Ok (Some state, model', optimizer'), w2)).
Proof.
  intros Hrt Hsave saved_file.
  destruct (save_checkpoint_ok _ _ _ _ Hsave) as (Hfile & _ & _).
  fold saved_file in Hfile.
  assert (Hload :
            load_checkpoint saved_file model optimizer w1
            = bind (lift (py_getitem state "state_dict")) (fun sd =>
                bind (lift (load_state_dict model sd)) (fun model =>
                bind (match optimizer with
                      | Some opt =>
                          bind (lift (py_getitem state "optimizer")) (fun od =>
                          bind (lift (opt_load_state_dict opt od)) (fun opt =>
                            ret (Some opt)))
                      | None => ret None
                      end) (fun optimizer =>
                bind (lift (py_getitem state "epoch")) (fun epoch =>
                bind (print [Text "Loaded checkpoint '"; Text saved_file;
                             Text "' (epoch "; Val epoch; Text ")"]) (fun _ =>
                  ret (Some state, model, optimizer)))))) w1).
  { unfold load_checkpoint at 1, bind at 1, isfile.
    rewrite Hfile. cbn [negb]. unfold bind at 1, torch_load.
    rewrite Hfile, Hrt. reflexivity. }
  split.
  - intros ret0 model' optimizer' w2. rewrite Hload. clear Hload.
    unfold bind, lift, print, ret.
    destruct (py_getitem state "state_dict") as [sd|e]; [|discriminate].
    destruct (load_state_dict model sd) as [m|e]; [|discriminate].
    destruct optimizer as [opt|].
    + destruct (py_getitem state "optimizer") as [od|e]; [|discriminate].
      destruct (opt_load_state_dict opt od) as [o|e]; [|discriminate].
      destruct (py_getitem state "epoch") as [ep|e] eqn:Eep; [|discriminate].
      intros [= <- _ _ _]. exists state, ep. auto.
    + destruct (py_getitem state "epoch") as [ep|e] eqn:Eep; [|discriminate].
      intros [= <- _ _ _]. exists state, ep. auto.
  - intros sd model' epoch Hsd Hm Hep Hopt. rewrite Hload. clear Hload.
    unfold bind, lift, print, ret. rewrite Hsd, Hm.
    destruct optimizer as [opt|].
    + destruct Hopt as (od & opt' & Hod & Hopt). rewrite Hod, Hopt, Hep.
      eauto.
    + rewrite Hep. eauto.
Qed.

Lemma checkpoint_roundtrip_epoch_witness :
  let w1 := snd (@save_checkpoint toy_Lib (toy_obj 3) "model_checkpoint.pth"
                   (world_of fs_two)) in
  exists optimizer' w2,
    @load_checkpoint toy_Lib pyfloat toy_Module (toy_Training [])
      "./checkpoints/model_checkpoint.pth" (Finite 5) (Some [Finite 1]) w1
    = (Ok (Some (toy_obj 3), Finite 0, optimizer'), w2).
Proof.
  intros w1.
  refine (proj2 (@checkpoint_roundtrip_epoch toy_Lib pyfloat toy_Module
                   (toy_Training []) (toy_obj 3) "model_checkpoint.pth"
                   (Finite 5) (Some [Finite 1]) (world_of fs_two) w1 _ _)
            (VDict [(VStr "loss", VFloat (Finite 0))]) (Finite 0) (VInt 3)
            _ _ _ _).
  - reflexivity.
  - reflexivity.
  - reflexivity.
  - reflexivity.
  - reflexivity.
  - exists (VList []), [Finite 1]. split; reflexivity.
Defined.

(** ** Floats *)

Lemma flt_irrefl x : flt x x = false.
Proof. destruct x; simpl; auto using Z.ltb_irrefl. Qed.

Lemma flt_trans x y z : flt x y = true -> flt y z = true -> flt x z = true.
Proof.
  destruct x, y, z; simpl; try discriminate; auto.
  rewrite !Z.ltb_lt. lia.
Qed.

Lemma flt_asym x y : flt x y = true -> flt y x = false.
Proof.
  intros H. destruct (flt y x) eqn:E; [|reflexivity].
  rewrite <- (flt_irrefl x). symmetry. eapply flt_trans; eassumption.
Qed.

Lemma flt_not_nan x y : flt x y = true -> is_nan x = false /\ is_nan y = false.
Proof. destruct x, y; simpl; try discriminate; auto. Qed.

(** On numbers the order is total. *)
Lemma flt_total x y :
  is_nan x = false -> is_nan y = false ->
  flt x y = false -> flt y x = false -> x = y.
Proof.
  destruct x, y; simpl; try discriminate; auto.
  rewrite !Z.ltb_ge. intros _ _ H1 H2. f_equal. lia.
Qed.

Lemma flt_below_inf x y : flt x y = true -> flt x PosInf = true.
Proof. destruct x, y; simpl; try discriminate; auto. Qed.

Lemma fle_of_not_flt x y :
  is_nan x = false -> is_nan y = false -> flt y x = false -> fle x y = true.
Proof. destruct x, y; simpl; try discriminate; auto; intros _ _ ->; auto. Qed.

(** ** Computations that only read *)

Lemma quiet_ret {A : Type} (a : A) : quiet (ret a).
Proof. intros w r w' [= _ <-]. auto. Qed.

Lemma quiet_lift {A : Type} (r : result A) : quiet (lift r).
Proof. intros w r' w' [= _ <-]. auto. Qed.

Lemma quiet_bind {A B : Type} (c : M A) (k : A -> M B) :
  quiet c -> (forall a, quiet (k a)) -> quiet (bind c k).
Proof.
  intros Hc Hk w r w'. unfold bind.
  destruct (c w) as [[a|e] w1] eqn:E; destruct (Hc _ _ _ E) as [Hf Hl].
  - intros Hk'. destruct (Hk _ _ _ _ Hk') as [Hf' Hl']. split; congruence.
  - intros [= _ <-]. auto.
Qed.

Lemma quiet_with_rng {A : Type} (c : R A) : quiet (with_rng c).
Proof.
  intros w r w'. unfold with_rng. destruct (c (w_rng w)) as [r0 s].
  intros [= _ <-]. auto.
Qed.

Lemma quiet_read {A : Type} (f : world -> result A) : quiet (fun w => (f w, w)).
Proof. intros w r w' [= _ <-]. auto. Qed.

Create HintDb quiet.
#[local] Hint Resolve quiet_ret quiet_lift quiet_with_rng quiet_read : quiet.

Ltac quiet_step :=
  repeat first
    [ apply quiet_bind; [|intros ?]
    | solve [auto with quiet]
    | match goal with
      | |- quiet (match ?x with _ => _ end) => destruct x
      | |- quiet (if ?b then _ else _) => destruct b
      end ].

Lemma quiet_trimesh_load `{Lib} (path : string) : quiet (trimesh_load path).
Proof.
  intros w r w'. unfold trimesh_load.
  destruct (w_fs w path) as [[names|b]|]; intros [= _ <-]; auto.
Qed.
#[local] Hint Resolve quiet_trimesh_load : quiet.

Lemma quiet_getitem `{Lib} (ds : ShapeNetDataset) (idx : nat) :
  quiet (__getitem__ ds idx).
Proof. unfold __getitem__. quiet_step. Qed.
#[local] Hint Resolve quiet_getitem : quiet.

Lemma quiet_map_M {A B : Type} (f : A -> M B) (l : list A) :
  (forall a, quiet (f a)) -> quiet (map_M f l).
Proof. intros Hf. induction l as [|a l IH]; simpl; quiet_step. Qed.

Lemma quiet_fetch `{Lib} (ds : ShapeNetDataset) (idxs : list nat) :
  quiet (fetch ds idxs).
Proof.
  unfold fetch. apply quiet_bind; [apply quiet_map_M; auto with quiet|].
  intros items. quiet_step.
Qed.
#[local] Hint Resolve quiet_fetch : quiet.

Lemma quiet_batches `{Lib} (dl : DataLoader) : quiet (batches dl).
Proof. unfold batches. quiet_step. Qed.
#[local] Hint Resolve quiet_batches : quiet.

(** ** [train_model] *)

Lemma save_checkpoint_raise `{Lib} (state : pyval) (filename : string)
    (w w1 : world) (e : exn) :
  save_checkpoint state filename w = (Raise e, w1) -> w_log w1 = w_log w.
Proof.
  unfold save_checkpoint, bind.
  destruct (makedirs "./checkpoints" w) as [[[]|e0] w0] eqn:Hm;
    destruct (makedirs_spec _ _ _ _ Hm)
      as [(Hok & _ & _ & _ & Hl & _)|(Hr & -> & _)]; try discriminate.
  - intros Hs.
    destruct (torch_save_spec _ _ _ _ _ Hs) as [([=] & _)|(e1 & _ & _ & ->)].
    exact Hl.
  - now intros [= _ <-].
Qed.

Lemma seq_snoc (a n : nat) : seq a (S n) = seq a n ++ [a + n].
Proof. apply seq_S. Qed.

Section TrainFacts.
Context `{Lib} {Mdl : Type} `{Module Mdl} `{Training Mdl}.
Variables (train_loader val_loader : DataLoader) (save_path : string).

Let ckpt_path : string := path_join "./checkpoints" [save_path].

Lemma quiet_train_batches bs : forall model optimizer total,
  quiet (train_batches train_loader bs model optimizer total).
Proof.
  induction bs as [|b bs IH]; intros model optimizer total; simpl.
  - auto with quiet.
  - apply quiet_bind; [auto with quiet|]. intros [points labels].
    apply quiet_bind; [auto with quiet|]. intros s.
    apply quiet_bind; [auto with quiet|]. intros outputs.
    apply quiet_bind; [auto with quiet|]. intros loss.
    destruct (optim_step model optimizer points labels s). apply IH.
Qed.

Lemma quiet_val_batches bs : forall model total,
  quiet (val_batches val_loader bs model total).
Proof.
  induction bs as [|b bs IH]; intros model total; simpl.
  - auto with quiet.
  - apply quiet_bind; [auto with quiet|]. intros [points labels].
    apply quiet_bind; [auto with quiet|]. intros outputs.
    apply quiet_bind; [auto with quiet|]. intros loss. apply IH.
Qed.

(** An epoch writes and prints nothing before its report. *)
Lemma quiet_run_epoch st : quiet (run_epoch train_loader val_loader st).
Proof.
  unfold run_epoch.
  apply quiet_bind; [auto with quiet|]. intros bs.
  apply quiet_bind; [apply quiet_train_batches|]. intros [[m o] t].
  apply quiet_bind; [auto with quiet|]. intros bs'.
  apply quiet_bind; [apply quiet_val_batches|]. intros tv.
  apply quiet_bind; auto with quiet.
Qed.

(** The report of an epoch either saves exactly the epoch's record,
    when the loss is below the best so far, or saves nothing. *)
Lemma report_epoch_spec epoch best r w res w' :
  report_epoch train_loader save_path epoch best r w = (res, w') ->
  let l := average_val_loss r in
  let ckpt := checkpoint_of epoch (er_model r) l (er_optimizer r) in
  exists emitted,
    w_log w' = w_log w ++ emitted
    /\ ((flt l best = true
         /\ res = Ok (TrainState (er_model r) (er_optimizer r) l)
         /\ (forall p obj, In (EvSave p obj) emitted
               <-> p = ckpt_path /\ obj = ckpt)
         /\ w_fs w' ckpt_path = Some (EFile (pickle_dumps ckpt)))
        \/ ((forall p obj, ~ In (EvSave p obj) emitted)
            /\ forall st', res = Ok st' ->
                 flt l best = false
                 /\ st' = TrainState (er_model r) (er_optimizer r) best)).
Proof.
  intros Hrun l ckpt. revert Hrun.
  unfold report_epoch, bind at 1, lift.
  destruct (py_div (total_train_loss r) (dl_len train_loader)) as [tl|e].
  2:{ intros [= <- <-]. exists []. rewrite app_nil_r. split; [reflexivity|].
      right. split; [intros p obj []|discriminate]. }
  unfold bind at 1, print at 1. cbn [w_fs w_rng w_log].
  fold l. destruct (flt l best) eqn:Hlt.
  - unfold bind at 1, print at 1. cbn [w_fs w_rng w_log].
    unfold bind at 1. fold ckpt.
    match goal with
    | |- context [save_checkpoint ckpt save_path ?w2] =>
        destruct (save_checkpoint ckpt save_path w2) as [[[]|e] w3] eqn:Hs
    end.
    + destruct (save_checkpoint_ok _ _ _ _ Hs) as (Hfile & _ & Hlog).
      cbn [w_log] in Hlog. unfold ret. intros [= <- <-].
      eexists. split; [rewrite Hlog, <- !app_assoc; reflexivity|].
      left. split; [reflexivity|]. split; [reflexivity|].
      split; [|exact Hfile]. intros p obj. simpl. split.
      * intros [Hx|[Hx|[Hx|[]]]]; try discriminate.
        injection Hx as <- <-. auto.
      * intros [-> ->]. auto.
    + apply save_checkpoint_raise in Hs. cbn [w_log] in Hs.
      intros [= <- <-].
      eexists. split; [rewrite Hs, <- !app_assoc; reflexivity|].
      right. split; [|discriminate].
      simpl. intros p obj [Hx|[Hx|[]]]; discriminate.
  - unfold ret. intros [= <- <-].
    eexists. split; [reflexivity|]. right. split.
    + simpl. intros p obj [Hx|[]]. discriminate.
    + intros st' [= <-]. auto.
Qed.
Lemma train_epoch_saves epoch st w res w' :
  train_epoch train_loader val_loader save_path epoch st w = (res, w') ->
  exists emitted,
    w_log w' = w_log w ++ emitted
    /\ forall p obj, In (EvSave p obj) emitted ->
         p = ckpt_path
         /\ (exists model best optimizer,
               obj = checkpoint_of epoch model best optimizer)
         /\ w_fs w' ckpt_path = Some (EFile (pickle_dumps obj)).
Proof.
  unfold train_epoch, bind.
  destruct (run_epoch train_loader val_loader st w) as [[r|e] w1] eqn:Hr;
    destruct (quiet_run_epoch _ _ _ _ Hr) as [_ Hlog].
  - intros Hrep. destruct (report_epoch_spec _ _ _ _ _ _ Hrep)
      as (emitted & Hl & [(_ & _ & Hin & Hfile)|[Hno _]]);
      exists emitted; (split; [congruence|]); intros p obj Hp.
    + apply Hin in Hp. destruct Hp as [-> ->]. eauto 6.
    + destruct (Hno _ _ Hp).
  - intros [= <- <-]. exists []. rewrite app_nil_r. split; [assumption|].
    intros p obj [].
Qed.

(** Every save of the loop belongs to one of its iterations. *)
Lemma train_loop_saves n : forall a st w res w',
  train_loop train_loader val_loader save_path (seq a n) st w = (res, w') ->
  exists written,
    w_log w' = w_log w ++ written
    /\ forall p obj, In (EvSave p obj) written ->
         exists k st_k wa r wb emitted,
           k < n
           /\ train_loop train_loader val_loader save_path (seq a k) st w
              = (Ok st_k, wa)
           /\ train_epoch train_loader val_loader save_path (a + k) st_k wa
              = (r, wb)
           /\ w_log wb = w_log wa ++ emitted
           /\ In (EvSave p obj) emitted.
Proof.
  induction n as [|n IH]; intros a st w res w'; cbn [seq train_loop].
  - intros [= <- <-]. exists []. rewrite app_nil_r. split; [reflexivity|].
    intros p obj [].
  - unfold bind at 1.
    destruct (train_epoch train_loader val_loader save_path a st w)
      as [[st1|e] w1] eqn:He;
      destruct (train_epoch_saves _ _ _ _ _ He) as (e1 & Hl1 & _).
    + intros Hrest. destruct (IH _ _ _ _ _ Hrest) as (rest & Hl & Hin).
      exists (e1 ++ rest). split; [rewrite Hl, Hl1, app_assoc; reflexivity|].
      intros p obj Hp. apply in_app_or in Hp. destruct Hp as [Hp|Hp].
      * exists 0, st, w, (Ok st1), w1, e1. rewrite Nat.add_0_r.
        repeat split; auto. lia.
      * destruct (Hin _ _ Hp) as (k & st_k & wa & r & wb & em & Hk & Hpre
                                  & Hep & Hlog & Hmem).
        exists (S k), st_k, wa, r, wb, em.
        split; [lia|]. split.
        { cbn [seq train_loop]. unfold bind at 1. rewrite He. exact Hpre. }
        split; [|auto]. rewrite <- Hep. f_equal. lia.
    + intros [= <- <-]. exists e1. split; [assumption|].
      intros p obj Hp.
      exists 0, st, w, (Raise e), w1, e1. rewrite Nat.add_0_r.
      repeat split; auto. lia.
Qed.

Lemma train_loop_app l1 l2 st w :
  train_loop train_loader val_loader save_path (l1 ++ l2) st w
  = bind (train_loop train_loader val_loader save_path l1 st)
      (train_loop train_loader val_loader save_path l2) w.
Proof.
  revert st w. induction l1 as [|a l1 IH]; intros st w; simpl.
  - reflexivity.
  - unfold bind in *.
    destruct (train_epoch _ _ _ a st w) as [[st1|e] w1]; [apply IH|].
    reflexivity.
Qed.

(** A run of [n] epochs goes through the runs of its first [k]. *)
Lemma train_loop_prefix n k st0 w0 st' w' :
  k <= n ->
  train_loop train_loader val_loader save_path (seq 0 n) st0 w0 = (Ok st', w') ->
  exists st w,
    train_loop train_loader val_loader save_path (seq 0 k) st0 w0 = (Ok st, w)
    /\ train_loop train_loader val_loader save_path (seq k (n - k)) st w
       = (Ok st', w').
Proof.
  intros Hk. replace n with (k + (n - k)) at 1 by lia.
  rewrite seq_app, train_loop_app. unfold bind.
  destruct (train_loop _ _ _ (seq 0 k) st0 w0) as [[st|e] w]; [|discriminate].
  intros Hrest. eauto.
Qed.

(** The state after [k] epochs of the loop is the end of a run of [k]
    completed epochs. *)
Lemma train_loop_done model w0 k : forall st w,
  train_loop train_loader val_loader save_path (seq 0 k) (train_init model) w0
  = (Ok st, w) ->
  exists losses,
    List.length losses = k
    /\ epochs_done train_loader val_loader save_path model w0 losses st w.
Proof.
  induction k as [|k IH]; intros st w.
  - simpl. intros [= <- <-]. exists []. split; [reflexivity | constructor].
  - rewrite seq_snoc, train_loop_app. unfold bind at 1.
    destruct (train_loop _ _ _ (seq 0 k) (train_init model) w0)
      as [[st_k|e] wk] eqn:Hk; [|discriminate].
    destruct (IH _ _ eq_refl) as (losses & Hlen & Hdone).
    cbn [train_loop Nat.add]. unfold bind at 1, train_epoch, bind at 1.
    destruct (run_epoch train_loader val_loader st_k wk) as [[r|e] w1] eqn:Hr;
      [|discriminate].
    destruct (report_epoch _ _ k _ r w1) as [[st'|e] w'] eqn:Hrep;
      [|discriminate].
    unfold ret. intros [= <- <-].
    exists (losses ++ [average_val_loss r]). split.
    + rewrite length_app. simpl. lia.
    + econstructor; [exact Hdone | exact Hr |]. rewrite Hlen. exact Hrep.
Qed.

(** The invariant of the loop: the best loss is a number, it is
    [inf] or the loss of a completed epoch, and no completed epoch has
    a smaller loss. *)
Lemma epochs_done_best model w0 losses st w :
  epochs_done train_loader val_loader save_path model w0 losses st w ->
  (best_val_loss st = PosInf \/ In (best_val_loss st) losses)
  /\ is_nan (best_val_loss st) = false
  /\ forall l, In l losses -> flt l (best_val_loss st) = false.
Proof.
  induction 1 as [|losses st w r w1 st' w' Hdone (Hin & Hnan & Hmin) Hr Hrep].
  - simpl. split; [now left|]. split; [reflexivity|]. intros l [].
  - destruct (report_epoch_spec _ _ _ _ _ _ Hrep)
      as (emitted & _ & [(Hlt & [= ->] & _)|[_ Hno]]).
    + cbn [best_val_loss]. split; [right; apply in_or_app; simpl; auto|].
      split; [apply (flt_not_nan _ _ Hlt)|].
      intros l Hl. apply in_app_or in Hl. destruct Hl as [Hl|[<-|[]]].
      * destruct (flt l (average_val_loss r)) eqn:E; [|reflexivity].
        rewrite <- (Hmin l Hl). symmetry. eapply flt_trans; eassumption.
      * apply flt_irrefl.
    + destruct (Hno _ eq_refl) as [Hge ->]. cbn [best_val_loss].
      split; [destruct Hin; [now left | right; apply in_or_app; auto]|].
      split; [assumption|].
      intros l Hl. apply in_app_or in Hl. destruct Hl as [Hl|[<-|[]]]; auto.
Qed.

(** Being below the best loss so far, spelled out over the history. *)
Lemma below_best_iff losses best l :
  (best = PosInf \/ In best losses) -> is_nan best = false ->
  (forall l', In l' losses -> flt l' best = false) ->
  flt l best = true
  <-> flt l PosInf = true
      /\ forall l', In l' losses -> is_nan l' = false -> flt l l' = true.
Proof.
  intros Hin Hnan Hmin. split.
  - intros Hlt. split; [eapply flt_below_inf; eassumption|].
    intros l' Hl' Hn'. specialize (Hmin l' Hl').
    destruct (flt best l') eqn:E; [eapply flt_trans; eassumption|].
    rewrite (flt_total l' best Hn' Hnan Hmin E). exact Hlt.
  - intros [Hinf Hall]. destruct Hin as [->|Hin]; [exact Hinf|].
    apply Hall; assumption.
Qed.
End TrainFacts.

(** C5: every object [train_model] hands to [torch.save] is saved by
    one iteration of its loop, say the one with loop variable [epoch]
    (0-based), at [./checkpoints/save_path]; it is a dict with exactly
    the keys [epoch], [state_dict], [best_val_loss] and [optimizer], in
    this order, its [epoch] is [epoch + 1], and when that iteration ends
    the file holds the pickled object. *)
Theorem train_model_checkpoints `{Lib} {Mdl : Type} `{Module Mdl}
    `{Training Mdl} (train_loader val_loader : DataLoader)
    (save_path : string) (model : Mdl) (num_epochs : nat) (w : world) :
  exists written,
    w_log (snd (train_model train_loader val_loader save_path model
                  num_epochs w))
    = w_log w ++ written
    /\ forall path obj, In (EvSave path obj) written ->
         exists epoch st wa r wb emitted,
           epoch < num_epochs
           /\ train_loop train_loader val_loader save_path (seq 0 epoch)
                (train_init model) w = (Ok st, wa)
           /\ train_epoch train_loader val_loader save_path epoch st wa
              = (r, wb)
           /\ w_log wb = w_log wa ++ emitted
           /\ In (EvSave path obj) emitted
           /\ path = path_join "./checkpoints" [save_path]
           /\ py_keys obj = [VStr "epoch"; VStr "state_dict";
                             VStr "best_val_loss"; VStr "optimizer"]
           /\ py_getitem obj "epoch" = Ok (VInt (Z.of_nat epoch + 1))
           /\ w_fs wb path = Some (EFile (pickle_dumps obj)).
Proof.
  unfold train_model, bind.
  destruct (train_loop train_loader val_loader save_path (seq 0 num_epochs)
              (train_init model) w) as [res w'] eqn:Hloop.
  destruct (train_loop_saves _ _ _ _ _ _ _ _ _ Hloop) as (written & Hlog & Hin).
  exists written. split; [destruct res; exact Hlog|].
  intros path obj Hp.
  destruct (Hin _ _ Hp) as (k & st & wa & r & wb & em & Hk & Hpre & Hep
                            & Hl & Hmem).
  simpl in Hep.
  destruct (train_epoch_saves _ _ _ _ _ _ _ _ Hep) as (em' & Hl' & Hprops).
  assert (em' = em) by (apply (app_inv_head (w_log wa)); congruence).
  subst em'.
  destruct (Hprops _ _ Hmem) as (-> & (m & b & o & ->) & Hfile).
  exists k, st, wa, r, wb, em. repeat split; auto.
Qed.

(** On the small implementation, losses 5, 7, 3: epochs 1 and 3 save. *)
Example toy_train_saved_epochs :
  map (fun obj => py_getitem obj "epoch")
    (saved_objs
       (w_log (snd (toy_train [Finite 5; Finite 7; Finite 3] 3
                      (world_of fs_two)))))
  = [Ok (VInt 1); Ok (VInt 3)].
Proof. vm_compute. reflexivity. Qed.

Section TrainReport.
Context `{Lib} {Mdl : Type} `{Module Mdl} `{Training Mdl}.
Variables (train_loader : DataLoader) (save_path : string).

(** With no training batch the report raises at the division for the
    printed training loss, before anything is printed. *)
Lemma report_epoch_empty_train epoch best r w :
  dl_len train_loader = 0 ->
  report_epoch train_loader save_path epoch best r w
  = (Raise (Exn "ZeroDivisionError" "division by zero"), w).
Proof.
  intros Hlen. unfold report_epoch, bind at 1, lift. now rewrite Hlen.
Qed.

(** The two ways the report can raise: that division, or
    [save_checkpoint] raising for a loss that is below the best. *)
Lemma report_epoch_raise epoch best r w e w' :
  report_epoch train_loader save_path epoch best r w = (Raise e, w') ->
  (dl_len train_loader = 0
   /\ e = Exn "ZeroDivisionError" "division by zero")
  \/ (dl_len train_loader <> 0
      /\ flt (average_val_loss r) best = true
      /\ exists w2 w3,
           w_fs w2 = w_fs w
           /\ save_checkpoint
                (checkpoint_of epoch (er_model r) (average_val_loss r)
                   (er_optimizer r)) save_path w2
              = (Raise e, w3)).
Proof.
  destruct (dl_len train_loader) as [|n] eqn:Hlen.
  - rewrite (report_epoch_empty_train _ _ _ _ Hlen). intros [= <- _]. now left.
  - unfold report_epoch, bind at 1, lift. rewrite Hlen. cbn [py_div].
    unfold bind at 1, print at 1. cbn [w_fs w_rng w_log].
    destruct (flt (average_val_loss r) best) eqn:Hlt; [|discriminate].
    unfold bind at 1, print at 1. cbn [w_fs w_rng w_log]. unfold bind at 1.
    match goal with
    | |- context [save_checkpoint ?ck save_path ?w2] =>
        destruct (save_checkpoint ck save_path w2) as [[[]|e0] w3] eqn:Hs;
          [discriminate|]; intros [= <- _]; right;
          split; [discriminate|]; split; [reflexivity|];
          exists w2, w3; split; [reflexivity | exact Hs]
    end.
Qed.
End TrainReport.

(** C9 as the code has it: after [k] completed epochs of [train_model],
    with [losses] their average validation losses, [best_val_loss] is a
    number that is [inf] or one of [losses], and no loss of [losses] is
    smaller; it never increases from one epoch to the next.  An epoch
    that gets to its report saves a checkpoint exactly when its loss is
    below [inf] and below every earlier loss that is not NaN (which is
    the test [average_val_loss < best_val_loss]) and the report does
    not raise; the saved [best_val_loss] field, and the new
    [best_val_loss], then are that loss.  The report raises, and
    nothing is saved, in two cases only: [len(train_loader)] is 0, so
    that the division for the printed training loss raises
    ZeroDivisionError, or the loss is below the best and
    [save_checkpoint] raises. *)
Theorem train_model_best_val_loss `{Lib} {Mdl : Type} `{Module Mdl}
    `{Training Mdl} (train_loader val_loader : DataLoader)
    (save_path : string) (model : Mdl) (k : nat) (w0 : world)
    (st : train_state) (w : world) :
  train_loop train_loader val_loader save_path (seq 0 k) (train_init model) w0
  = (Ok st, w) ->
  exists losses,
    List.length losses = k
    /\ epochs_done train_loader val_loader save_path model w0 losses st w
    /\ (best_val_loss st = PosInf \/ In (best_val_loss st) losses)
    /\ is_nan (best_val_loss st) = false
    /\ (forall l, In l losses -> flt l (best_val_loss st) = false)
    /\ forall r w1 res w',
         run_epoch train_loader val_loader st w = (Ok r, w1) ->
         report_epoch train_loader save_path k (best_val_loss st) r w1
         = (res, w') ->
         let l := average_val_loss r in
         let below :=
           flt l PosInf = true
           /\ forall l', In l' losses -> is_nan l' = false ->
                flt l l' = true in
         exists emitted,
           w_log w' = w_log w1 ++ emitted
           /\ (forall path obj, In (EvSave path obj) emitted ->
                 py_getitem obj "best_val_loss" = Ok (VFloat l))
           /\ (below <-> flt l (best_val_loss st) = true)
           /\ ((exists path obj, In (EvSave path obj) emitted)
               <-> below /\ exists st', res = Ok st')
           /\ (forall st', res = Ok st' ->
                fle (best_val_loss st') (best_val_loss st) = true
                /\ ((exists path obj, In (EvSave path obj) emitted)
                    <-> below)
                /\ ((exists path obj, In (EvSave path obj) emitted) ->
                    best_val_loss st' = l)
                /\ (~ below -> best_val_loss st' = best_val_loss st))
           /\ (dl_len train_loader = 0 ->
               res = Raise (Exn "ZeroDivisionError" "division by zero"))
           /\ (forall e, res = Raise e ->
                 (forall path obj, ~ In (EvSave path obj) emitted)
                 /\ ((dl_len train_loader = 0
                      /\ e = Exn "ZeroDivisionError" "division by zero")
                     \/ (dl_len train_loader <> 0 /\ below
                         /\ exists w2 w3,
                              w_fs w2 = w_fs w1
                              /\ save_checkpoint
                                   (checkpoint_of k (er_model r) l
                                      (er_optimizer r)) save_path w2
                                 = (Raise e, w3)))).
Proof.
  intros Hloop.
  destruct (train_loop_done _ _ _ _ _ _ _ _ Hloop) as (losses & Hlen & Hdone).
  destruct (epochs_done_best _ _ _ _ _ _ _ _ Hdone) as (Hin & Hnan & Hmin).
  exists losses. repeat (split; [assumption|]).
  intros r w1 res w' Hr Hrep l below.
  pose proof (below_best_iff losses (best_val_loss st) l Hin Hnan Hmin) as Hiff.
  assert (Hzero : dl_len train_loader = 0 ->
                  res = Raise (Exn "ZeroDivisionError" "division by zero")).
  { intros Hz. rewrite (report_epoch_empty_train _ _ _ _ _ _ Hz) in Hrep.
    now injection Hrep as <- _. }
  assert (Hraise : forall e, res = Raise e ->
            (dl_len train_loader = 0
             /\ e = Exn "ZeroDivisionError" "division by zero")
            \/ (dl_len train_loader <> 0 /\ below
                /\ exists w2 w3,
                     w_fs w2 = w_fs w1
                     /\ save_checkpoint
                          (checkpoint_of k (er_model r) l (er_optimizer r))
                          save_path w2
                        = (Raise e, w3))).
  { intros e ->. destruct (report_epoch_raise _ _ _ _ _ _ _ _ Hrep)
      as [Hz|(Hnz & Hlt & Hsave)]; [now left|].
    right. split; [exact Hnz|]. split; [now apply Hiff | exact Hsave]. }
  destruct (report_epoch_spec _ _ _ _ _ _ _ _ Hrep)
    as (emitted & Hl & [(Hlt & -> & Hsave & _)|[Hno Hres]]);
    exists emitted; (split; [exact Hl|]).
  - assert (Hsaved : exists path obj, In (EvSave path obj) emitted)
      by (eexists _, _; apply Hsave; split; reflexivity).
    split.
    { intros path obj Hp. apply Hsave in Hp. destruct Hp as [_ ->].
      reflexivity. }
    split; [symmetry; exact Hiff|].
    split; [split; [intros _; split; [now apply Hiff | eauto] | auto]|].
    split.
    { intros st' [= <-]. cbn [best_val_loss]. fold l.
      split; [|split; [|split; [reflexivity|]]].
      * apply fle_of_not_flt; [apply (flt_not_nan _ _ Hlt) | assumption|].
        now apply flt_asym.
      * split; [intros _; now apply Hiff | auto].
      * intros Hnb. exfalso. apply Hnb. now apply Hiff. }
    split; [exact Hzero|]. intros e [=].
  - assert (Hnone : ~ exists path obj, In (EvSave path obj) emitted)
      by (intros (path & obj & Hp); destruct (Hno _ _ Hp)).
    split; [intros path obj Hp; destruct (Hno _ _ Hp)|].
    split; [symmetry; exact Hiff|].
    split.
    { split; [intros Hs; destruct (Hnone Hs)|].
      intros [Hb (st' & Hst')]. destruct (Hres _ Hst') as [Hge _].
      apply Hiff in Hb. fold l in Hge. congruence. }
    split.
    { intros st' Hst'. destruct (Hres _ Hst') as [Hge ->]. cbn [best_val_loss].
      split; [|split; [|split]].
      + apply fle_of_not_flt; auto using flt_irrefl.
      + split; [intros Hs; destruct (Hnone Hs)|].
        intros Hb. apply Hiff in Hb. fold l in Hge. congruence.
      + intros Hs. destruct (Hnone Hs).
      + reflexivity. }
    split; [exact Hzero|].
    intros e He. split; [exact Hno | now apply Hraise].
Qed.

Lemma train_model_best_val_loss_witness :
  exists losses,
    losses = [Finite 5; Finite 3]
    /\ best_val_loss (toy_state [Finite 5; Finite 3] 2) = Finite 3
    /\ forall l, In l losses ->
         flt l (best_val_loss (toy_state [Finite 5; Finite 3] 2)) = false.
Proof.
  destruct (@train_model_best_val_loss toy_Lib pyfloat toy_Module
              (toy_Training [Finite 5; Finite 3]) toy_train_loader
              toy_val_loader "model_checkpoint.pth" (Finite 9) 2
              (world_of fs_two) (toy_state [Finite 5; Finite 3] 2)
              (snd (toy_loop [Finite 5; Finite 3] 2)))
    as (losses & Hlen & Hdone & Hin & _ & Hmin & _).
  - vm_compute. reflexivity.
  - exists [Finite 5; Finite 3]. split; [reflexivity|].
    split; [vm_compute; reflexivity|].
    intros l [<-|[<-|[]]]; vm_compute; reflexivity.
Defined.

(** C9 as it is worded fails on a validation loss that is NaN.  With
    the losses NaN then 3: the first epoch saves nothing, though no
    epoch came before it; the second saves, though its loss is not
    smaller than the first one's. *)
Lemma train_model_nan_loss_counterexample :
  exists r1 w1 st1 w1' r2 w2 st2 w2' obj,
    toy_run_epoch [NaN; Finite 3] (train_init (Finite 9)) (world_of fs_two)
    = (Ok r1, w1)
    /\ average_val_loss r1 = NaN
    /\ toy_report_epoch [NaN; Finite 3] 0 PosInf r1 w1 = (Ok st1, w1')
    /\ (forall l', In l' [] -> flt (average_val_loss r1) l' = true)
    /\ (forall path obj, ~ In (EvSave path obj) (w_log w1'))
    /\ toy_run_epoch [NaN; Finite 3] st1 w1' = (Ok r2, w2)
    /\ average_val_loss r2 = Finite 3
    /\ toy_report_epoch [NaN; Finite 3] 1 (best_val_loss st1) r2 w2
       = (Ok st2, w2')
    /\ ~ (forall l', In l' [average_val_loss r1] ->
            flt (average_val_loss r2) l' = true)
    /\ In (EvSave "./checkpoints/model_checkpoint.pth" obj) (w_log w2').
Proof.
  eexists _, _, _, _, _, _, _, _, _.
  split; [vm_compute; reflexivity|].
  split; [reflexivity|].
  split; [vm_compute; reflexivity|].
  split; [intros l' []|].
  split; [intros path obj [H|[]]; discriminate|].
  split; [vm_compute; reflexivity|].
  split; [reflexivity|].
  split; [vm_compute; reflexivity|].
  split; [intros Hall; specialize (Hall NaN (or_introl eq_refl)); discriminate|].
  cbn [w_log In]. do 3 right. left. reflexivity.
Qed.

(** On the small implementation, with [./checkpoints] a regular file:
    a loss of 5 is below [inf], the two lines are printed, then
    [save_checkpoint] raises and nothing is saved. *)
Example report_epoch_blocked_save :
  exists e w',
    toy_report_epoch [] 0 PosInf
      (@EpochResult pyfloat (toy_Training []) (Finite 5) [] (Finite 0)
         (Finite 5))
      (world_of (fs_put "./checkpoints" (EFile "x") fs_two))
    = (Raise e, w')
    /\ exn_class e = "FileExistsError"
    /\ saved_objs (w_log w') = []
    /\ List.length (w_log w') = 2.
Proof.
  eexists _, _. split; [vm_compute; reflexivity|]. repeat split.
Qed.

(** ** [predict_3d_model] *)

(** C4: [predict_3d_model] never raises.  Whenever the body of its
    [try] raises -- in particular when loading the mesh raises, or when
    the forward pass raises -- the exception is printed after
    "An error occurred: " and [None] is returned. *)
Theorem predict_3d_model_catches `{Lib} {Mdl : Type} `{Module Mdl}
    (model : Mdl) (file_path : string) (label_map : dict nat) (w : world) :
  let model' := set_training false model in
  let logged e w1 :=
    World (w_fs w1) (w_rng w1)
      (w_log w1 ++ [EvPrint [Text "An error occurred: "; Text (exn_str e)]]) in
  (exists r w', predict_3d_model model file_path label_map w = (Ok r, w'))
  /\ (forall e w1,
        predict_body model' file_path label_map w = (Raise e, w1) ->
        predict_3d_model model file_path label_map w
        = (Ok (None, model'), logged e w1))
  /\ (forall e,
        trimesh_load file_path w = (Raise e, w) ->
        predict_3d_model model file_path label_map w
        = (Ok (None, model'), logged e w))
  /\ (forall mesh points s e s',
        trimesh_load file_path w = (Ok mesh, w) ->
        mesh_sample mesh 1024 (w_rng w) = (Ok points, s) ->
        call model' (unsqueeze0 (tensor_of_points points)) s = (Raise e, s') ->
        predict_3d_model model file_path label_map w
        = (Ok (None, model'), logged e (World (w_fs w) s' (w_log w)))).
Proof.
  intros model' logged.
  assert (Hcatch : forall e w1,
            predict_body model' file_path label_map w = (Raise e, w1) ->
            predict_3d_model model file_path label_map w
            = (Ok (None, model'), logged e w1)).
  { intros e w1 Hb. unfold predict_3d_model. fold model'.
    unfold bind at 1, try_except. rewrite Hb. reflexivity. }
  split; [|split; [exact Hcatch|split]].
  - unfold predict_3d_model. fold model'. unfold bind at 1, try_except.
    destruct (predict_body model' file_path label_map w) as [[r|e] w1];
      unfold bind, print, ret; eauto.
  - intros e Hload. apply Hcatch. unfold predict_body, bind at 1.
    now rewrite Hload.
  - intros mesh points s e s' Hload Hsample Hcall. apply Hcatch.
    unfold predict_body, bind at 1. rewrite Hload.
    unfold bind at 1, with_rng at 1. rewrite Hsample. cbn [w_fs w_rng w_log].
    unfold bind at 1, with_rng at 1. cbn [w_fs w_rng w_log]. now rewrite Hcall.
Qed.

(** On the small implementation: a path that is not a file. *)
Example predict_3d_model_missing_mesh :
  @predict_3d_model toy_Lib pyfloat toy_Module (Finite 5) "data/absent.obj"
    [("02691156", 0); ("02747177", 1)] (world_of fs_two)
  = (Ok (None, Finite 5),
     World fs_two 0
       [EvPrint [Text "An error occurred: "; Text "string is not a file"]]).
Proof. reflexivity. Qed.

Example predict_3d_model_label :
  fst (@predict_3d_model toy_Lib pyfloat toy_Module (Finite 5)
         "data/02747177/m3/models/model_normalized.obj"
         [("02691156", 0); ("02747177", 1)] (world_of fs_two))
  = Ok (Some "02691156", Finite 5).
Proof. vm_compute. reflexivity. Qed.

(** ** Point clouds and the classifier *)






Lemma apply_Dropout_shape `{Lib} (p : pyfloat) (mode : bool) (x : tensor)
    (s : N) :
  exists y s', apply_Dropout p mode x s = (Ok y, s') /\ shape y = shape x.
Proof.
  unfold apply_Dropout, bind, draw, ret. destruct mode; [|eauto].
  destruct (dropout_fn p x s) as [d s']. eauto.
Qed.








(** ** [create_datasets] *)

Section TakeFacts.
Context {A : Type}.
Implicit Types (l r : list A) (idxs : list nat).

Lemma take_spec l idxs r :
  take l idxs = Ok r <-> map (nth_error l) idxs = map Some r.
Proof.
  revert r. induction idxs as [|i idxs IH]; intros r; simpl.
  - split.
    + intros [= <-]. reflexivity.
    + destruct r; [reflexivity | discriminate].
  - unfold list_item. destruct (nth_error l i) as [a|]; simpl.
    + destruct (take l idxs) as [r'|e]; simpl.
      * split.
        -- intros [= <-]. simpl. f_equal. now apply IH.
        -- destruct r as [|a' r]; [discriminate|]. simpl. intros [= -> Hr].
           apply IH in Hr. congruence.
      * split; [discriminate|].
        destruct r as [|a' r]; [discriminate|]. simpl. intros [= _ Hr].
        apply IH in Hr. discriminate.
    + split; [discriminate|]. destruct r; discriminate.
Qed.

Lemma take_length l idxs r :
  take l idxs = Ok r -> List.length r = List.length idxs.
Proof.
  intros Ht. apply take_spec in Ht.
  apply (f_equal (@List.length _)) in Ht. rewrite !length_map in Ht. auto.
Qed.

Lemma take_app l idxs1 idxs2 r1 r2 :
  take l idxs1 = Ok r1 -> take l idxs2 = Ok r2 ->
  take l (idxs1 ++ idxs2) = Ok (r1 ++ r2).
Proof.
  rewrite !take_spec, !map_app. congruence.
Qed.

Lemma nth_error_seq_all l :
  map (nth_error l) (seq 0 (List.length l)) = map Some l.
Proof.
  induction l as [|a l IH]; [reflexivity|].
  cbn [List.length seq map nth_error]. f_equal.
  rewrite <- seq_shift, map_map. exact IH.
Qed.

(** Indexing by a permutation of all positions permutes the list. *)
Lemma take_permutation l idxs r :
  Permutation idxs (seq 0 (List.length l)) ->
  take l idxs = Ok r -> Permutation r l.
Proof.
  intros Hp Ht. apply take_spec in Ht.
  apply (Permutation_map (nth_error l)) in Hp.
  rewrite Ht, nth_error_seq_all in Hp.
  apply Permutation_map_inv in Hp. destruct Hp as (l3 & E & Hp).
  assert (r = l3) as ->.
  { clear -E. revert l3 E. induction r as [|a r IH]; intros [|b l3] E;
      simpl in E; try discriminate; [reflexivity|].
    injection E as -> E. f_equal. auto. }
  now apply Permutation_sym.
Qed.
End TakeFacts.

Lemma nth_error_combine {A B : Type} (xs : list A) (ys : list B) (i : nat) :
  nth_error (combine xs ys) i
  = match nth_error xs i, nth_error ys i with
    | Some a, Some b => Some (a, b)
    | _, _ => None
    end.
Proof.
  revert ys i. induction xs as [|x xs IH]; intros [|y ys] [|i]; simpl; auto.
  destruct (nth_error xs i); reflexivity.
Qed.

Lemma take_combine {A B : Type} (xs : list A) (ys : list B) (idxs : list nat)
    (rx : list A) (ry : list B) :
  take xs idxs = Ok rx -> take ys idxs = Ok ry ->
  take (combine xs ys) idxs = Ok (combine rx ry).
Proof.
  rewrite !take_spec. revert rx ry.
  induction idxs as [|i idxs IH]; intros [|a rx] [|b ry]; simpl;
    try discriminate; [reflexivity|].
  intros [= Ha Hx] [= Hb Hy]. rewrite nth_error_combine, Ha, Hb.
  f_equal. now apply IH.
Qed.

(** The two sizes add up to the number of samples, and the test size
    is the ceiling of [test_size * n_samples]. *)
Lemma validate_shuffle_split_sizes `{Lib} (n_samples : nat) (test_size : pyfloat)
    (n_train n_test : nat) :
  validate_shuffle_split n_samples test_size = Ok (n_train, n_test) ->
  n_train + n_test = n_samples /\ n_train <> 0
  /\ exists c, py_ceil (fmul test_size (float_of_nat n_samples)) = Ok c
               /\ n_test = Z.to_nat c.
Proof.
  unfold validate_shuffle_split.
  destruct (_ || _)%bool; [discriminate|].
  destruct (py_ceil _) as [c|e]; [|discriminate]. cbn [rbind].
  destruct (Nat.eqb_spec (n_samples - Z.to_nat c) 0) as [|Hne]; [discriminate|].
  intros [= <- <-]. split; [lia|]. split; [assumption|]. eauto.
Qed.

(** One split: both parts keep paths and labels paired, and together
    they are the input, reordered. *)
Lemma train_test_split_spec `{Lib} {A B : Type} (xs : list A) (ys : list B)
    (test_size : pyfloat) (seed : Z) xs_train xs_test ys_train ys_test :
  Permutation (rs_permutation seed (List.length xs)) (seq 0 (List.length xs)) ->
  train_test_split xs ys test_size seed
  = Ok (xs_train, xs_test, ys_train, ys_test) ->
  exists n_train n_test,
    validate_shuffle_split (List.length xs) test_size = Ok (n_train, n_test)
    /\ List.length xs_train = n_train /\ List.length ys_train = n_train
    /\ List.length xs_test = n_test /\ List.length ys_test = n_test
    /\ Permutation (combine xs_train ys_train ++ combine xs_test ys_test)
         (combine xs ys).
Proof.
  intros Hperm. unfold train_test_split.
  destruct (Nat.eqb_spec (List.length xs) (List.length ys)) as [Hlen|];
    [|discriminate]. cbn [negb].
  destruct (validate_shuffle_split _ _) as [[n_train n_test]|e] eqn:Hv;
    [|discriminate]. cbn [rbind].
  destruct (validate_shuffle_split_sizes _ _ _ _ Hv) as (Hsum & _ & _).
  set (perm := rs_permutation seed (List.length xs)) in *.
  assert (Hpl : List.length perm = List.length xs).
  { rewrite (Permutation_length Hperm). apply length_seq. }
  assert (Htr : firstn n_train (skipn n_test perm) = skipn n_test perm).
  { apply firstn_all2. rewrite length_skipn. lia. }
  rewrite Htr.
  destruct (take xs (skipn n_test perm)) as [xtr|e] eqn:E1; [|discriminate].
  destruct (take xs (firstn n_test perm)) as [xte|e] eqn:E2; [|discriminate].
  destruct (take ys (skipn n_test perm)) as [ytr|e] eqn:E3; [|discriminate].
  destruct (take ys (firstn n_test perm)) as [yte|e] eqn:E4; [|discriminate].
  cbn [rbind]. intros [= <- <- <- <-].
  exists n_train, n_test. split; [reflexivity|].
  rewrite (take_length _ _ _ E1), (take_length _ _ _ E2),
    (take_length _ _ _ E3), (take_length _ _ _ E4),
    length_skipn, length_firstn.
  repeat (split; [lia|]).
  apply Permutation_trans with (combine xte yte ++ combine xtr ytr);
    [apply Permutation_app_comm|].
  apply (take_permutation (combine xs ys) perm).
  - rewrite length_combine, <- Hlen, Nat.min_id. exact Hperm.
  - rewrite <- (firstn_skipn n_test perm) at 1.
    apply take_app; apply take_combine; assumption.
Qed.

(** C10 as the code has it: given that [RandomState(42).permutation(n)]
    is a permutation of [0 .. n-1], whenever [create_datasets] returns,
    the (path, label) pairs of its three datasets are together exactly
    the pairs of [load_data], reordered, every path still with its label
    (so no pair is dropped, and none is in two datasets when no pair is
    repeated in the input); the world is unchanged; the test set holds
    [ceil(test_size * n)] pairs and the validation set
    [ceil(val_size / (1 - test_size) * (n - n_test))] pairs, as float
    arithmetic rounds them. *)
Theorem create_datasets_partition `{Lib} (root_dir : string)
    (test_size val_size : pyfloat) (w w' : world) (ds : datasets) :
  (forall seed n, Permutation (rs_permutation seed n) (seq 0 n)) ->
  create_datasets root_dir test_size val_size w = (Ok ds, w') ->
  exists ld ratio c_test c_val,
    load_data (w_fs w) root_dir = Ok ld
    /\ w' = w
    /\ ds_label_map ds = label_map ld
    /\ Permutation
         (ds_samples (train_dataset ds) ++ ds_samples (val_dataset ds)
          ++ ds_samples (test_dataset ds))
         (samples ld)
    /\ (NoDup (samples ld) ->
        NoDup (ds_samples (train_dataset ds) ++ ds_samples (val_dataset ds)
               ++ ds_samples (test_dataset ds)))
    /\ List.length (ds_file_paths (train_dataset ds))
       = List.length (ds_labels (train_dataset ds))
    /\ List.length (ds_file_paths (val_dataset ds))
       = List.length (ds_labels (val_dataset ds))
    /\ List.length (ds_file_paths (test_dataset ds))
       = List.length (ds_labels (test_dataset ds))
    /\ py_ceil (fmul test_size (float_of_nat (List.length (file_paths ld))))
       = Ok c_test
    /\ __len__ (test_dataset ds) = Z.to_nat c_test
    /\ py_truediv val_size (fsub (float_of_nat 1) test_size) = Ok ratio
    /\ py_ceil (fmul ratio
                  (float_of_nat (List.length (file_paths ld) - Z.to_nat c_test)))
       = Ok c_val
    /\ __len__ (val_dataset ds) = Z.to_nat c_val
    /\ __len__ (train_dataset ds) + __len__ (val_dataset ds)
       + __len__ (test_dataset ds)
       = List.length (file_paths ld).
Proof.
  intros Hperm. unfold create_datasets, bind at 1.
  destruct (load_data (w_fs w) root_dir) as [ld|e] eqn:Hld; [|discriminate].
  unfold bind at 1, lift at 1.
  destruct (train_test_split (file_paths ld) (labels ld) test_size 42)
    as [[[[xtr xte] ytr] yte]|e] eqn:Hs1; [|discriminate].
  unfold bind at 1, lift at 1.
  destruct (py_truediv val_size (fsub (float_of_nat 1) test_size))
    as [ratio|e] eqn:Hr; [|discriminate].
  unfold bind at 1, lift at 1.
  destruct (train_test_split xtr ytr ratio 42)
    as [[[[xtr2 xva] ytr2] yva]|e] eqn:Hs2; [|discriminate].
  unfold ret. intros [= <- <-].
  destruct (train_test_split_spec _ _ _ _ _ _ _ _ (Hperm _ _) Hs1)
    as (n1 & t1 & Hv1 & Lx1 & Ly1 & Lxt & Lyt & P1).
  destruct (train_test_split_spec _ _ _ _ _ _ _ _ (Hperm _ _) Hs2)
    as (n2 & t2 & Hv2 & Lx2 & Ly2 & Lxv & Lyv & P2).
  destruct (validate_shuffle_split_sizes _ _ _ _ Hv1) as (S1 & _ & c1 & C1 & T1).
  destruct (validate_shuffle_split_sizes _ _ _ _ Hv2) as (S2 & _ & c2 & C2 & T2).
  assert (Hrest : List.length xtr = List.length (file_paths ld) - Z.to_nat c1)
    by lia.
  rewrite Hrest in C2.
  assert (Hp : Permutation (combine xtr2 ytr2 ++ combine xva yva
                            ++ combine xte yte) (samples ld)).
  { rewrite app_assoc. unfold samples. rewrite <- P1.
    apply Permutation_app_tail. exact P2. }
  exists ld, ratio, c1, c2. unfold __len__, ds_samples.
  cbn [train_dataset val_dataset test_dataset ds_label_map
       ds_file_paths ds_labels].
  repeat (split; [first [reflexivity | assumption | congruence | lia ]|]).
  split; [intros Hnd; eapply Permutation_NoDup;
          [apply Permutation_sym; exact Hp | exact Hnd]|].
  repeat (split; [first [reflexivity | assumption | congruence | lia ]|]).
  lia.
Qed.

Lemma create_datasets_partition_witness :
  exists ds,
    @create_datasets toy_Lib "data7" float_0_2 float_0_1 (world_of fs_seven)
    = (Ok ds, world_of fs_seven)
    /\ __len__ (train_dataset ds) = 4 /\ __len__ (val_dataset ds) = 1
    /\ __len__ (test_dataset ds) = 2
    /\ Permutation
         (ds_samples (train_dataset ds) ++ ds_samples (val_dataset ds)
          ++ ds_samples (test_dataset ds))
         (map (fun m => (model_file "data7" "c" m, 0))
            ["m1"; "m2"; "m3"; "m4"; "m5"; "m6"; "m7"]).
Proof.
  destruct (@create_datasets toy_Lib "data7" float_0_2 float_0_1
              (world_of fs_seven)) as [[ds|e] w'] eqn:E;
    [|vm_compute in E; discriminate].
  destruct (@create_datasets_partition toy_Lib "data7" float_0_2 float_0_1
              (world_of fs_seven) w' ds)
    as (ld & ratio & c_test & c_val & Hld & -> & _ & Hp & _).
  - intros seed n. apply Permutation_refl.
  - exact E.
  - exists ds. split; [reflexivity|].
    assert (Hds : Ok ds = fst (@create_datasets toy_Lib "data7" float_0_2
                                 float_0_1 (world_of fs_seven)))
      by (now rewrite E).
    vm_compute in Hds. injection Hds as ->.
    repeat (split; [reflexivity|]).
    vm_compute in Hld. injection Hld as <-. exact Hp.
Defined.

(** C10 as it is worded fails in two ways.  On a dataset of two pairs
    the second split would leave no training pair, so [create_datasets]
    raises and returns no datasets.  On a dataset of seven pairs the
    test set gets 2 of them and the validation set 1, which are not the
    fractions 0.2 and 0.1 of 7. *)
Lemma create_datasets_small_counterexample :
  fst (@create_datasets toy_Lib "data" float_0_2 float_0_1 (world_of fs_two))
  = Raise (Exn "ValueError" "the resulting train set will be empty")
  /\ exists ld ds,
       load_data fs_seven "data7" = Ok ld
       /\ List.length (samples ld) = 7
       /\ fst (@create_datasets toy_Lib "data7" float_0_2 float_0_1
                 (world_of fs_seven)) = Ok ds
       /\ __len__ (test_dataset ds) = 2
       /\ __len__ (val_dataset ds) = 1
       /\ ~ exact_fraction float_0_2 7 (__len__ (test_dataset ds))
       /\ ~ exact_fraction float_0_1 7 (__len__ (val_dataset ds)).
Proof.
  split; [vm_compute; reflexivity|].
  eexists _, _.
  split; [vm_compute; reflexivity|].
  split; [reflexivity|].
  split; [vm_compute; reflexivity|].
  split; [reflexivity|]. split; [reflexivity|].
  split; vm_compute; discriminate.
Qed.

Example load_data_fs_two :
  load_data fs_two "data"
  = Ok (Loaded
          [ "data/02691156/m1/models/model_normalized.obj";
            "data/02747177/m3/models/model_normalized.obj" ]
          [0; 1]
          [("02691156", 0); ("02747177", 1)]).
Proof. vm_compute. reflexivity. Qed.

Example load_data_fs_stray :
  load_data fs_stray "data"
  = Ok (Loaded ["data/synset/m1/models/model_normalized.obj"] [1]
               [("synset", 1)]).
Proof. vm_compute. reflexivity. Qed.

(* ===================================================================== *)
(** * Further properties of the notebook *)
(* ===================================================================== *)

(** ** [load_data]: the labels *)

Lemma in_combine_snd {A B : Type} (l : list A) (l' : list B) b :
  List.length l = List.length l' ->
  In b l' <-> exists a, In (a, b) (combine l l').
Proof.
  intros Hlen. split.
  - revert l Hlen. induction l' as [|y l' IH]; intros [|x l] Hlen Hin;
      simpl in *; try discriminate; [tauto|].
    destruct Hin as [->|Hin]; [eauto|].
    destruct (IH l) as [a Ha]; [congruence | assumption | eauto].
  - intros [a Ha]. eapply in_combine_r; eassumption.
Qed.

Lemma scan_models_labels fs dir_path idx models : forall acc,
  exists k,
    labels (scan_models fs dir_path idx models acc)
    = labels acc ++ repeat idx k.
Proof.
  induction models as [|m rest IH]; intros acc; cbn [scan_models].
  - exists 0. simpl. now rewrite app_nil_r.
  - destruct (isfile fs _); [|apply IH].
    destruct (IH (Loaded (file_paths acc ++ [path_join dir_path
                            [m; "models/model_normalized.obj"]])
                         (labels acc ++ [idx]) (label_map acc))) as [k Hk].
    exists (S k). rewrite Hk. cbn [labels]. rewrite <- app_assoc. reflexivity.
Qed.

Lemma StronglySorted_le_snoc_repeat (l : list nat) (idx k : nat) :
  StronglySorted le l -> (forall x, In x l -> x <= idx) ->
  StronglySorted le (l ++ repeat idx k).
Proof.
  intros Hs Hb. induction Hs as [|a l Hs IH Ha]; simpl.
  - induction k as [|k IHk]; simpl; constructor; [assumption|].
    apply Forall_forall. intros x Hx. apply repeat_spec in Hx. lia.
  - constructor; [apply IH; intros x Hx; apply Hb; now right|].
    apply Forall_forall. intros x Hx. apply in_app_or in Hx.
    destruct Hx as [Hx| Hx].
    + rewrite Forall_forall in Ha. auto.
    + apply repeat_spec in Hx. subst x. apply Hb. now left.
Qed.

(** The labels are appended in the order of the indices. *)
Lemma scan_dirs_labels_sorted fs root_dir directories : forall idx acc ld,
  scan_dirs fs root_dir idx directories acc = Ok ld ->
  StronglySorted le (labels acc) ->
  (forall l, In l (labels acc) -> l < idx) ->
  StronglySorted le (labels ld)
  /\ forall l, In l (labels ld) -> l < idx + List.length directories.
Proof.
  induction directories as [|d rest IH]; intros idx acc ld Hrun Hs Hb;
    cbn [scan_dirs List.length] in *.
  - injection Hrun as <-. rewrite Nat.add_0_r. auto.
  - replace (idx + S (List.length rest)) with (S idx + List.length rest) by lia.
    destruct (isdir fs (path_join root_dir [d])) eqn:E.
    + destruct (isdir_listdir _ _ E) as [names Hn].
      unfold listdir in Hrun. rewrite Hn in Hrun. cbn [rbind] in Hrun.
      destruct (scan_models_labels fs (path_join root_dir [d]) idx names
                  (Loaded (file_paths acc) (labels acc)
                          (dict_set d idx (label_map acc)))) as [k Hk].
      cbn [labels] in Hk.
      apply (IH _ _ _ Hrun); rewrite Hk.
      * apply StronglySorted_le_snoc_repeat; [assumption|].
        intros x Hx. apply Hb in Hx. lia.
      * intros l Hl. apply in_app_or in Hl. destruct Hl as [Hl|Hl].
        -- apply Hb in Hl. lia.
        -- apply repeat_spec in Hl. lia.
    + apply (IH _ _ _ Hrun Hs). intros l Hl. apply Hb in Hl. lia.
Qed.

(** X1: the labels [load_data] returns are in non-decreasing order and
    each is below the number of names in the root; when the listing has
    no repeated name, each is a value of the label map. *)
Theorem load_data_labels_ordered (fs : filesystem) (root_dir : string)
    (names : list string) :
  listdir fs root_dir = Ok names ->
  exists ld,
    load_data fs root_dir = Ok ld
    /\ StronglySorted le (labels ld)
    /\ (forall l, In l (labels ld) -> l < List.length names)
    /\ (NoDup names ->
        forall l, In l (labels ld) -> In l (dict_values (label_map ld))).
Proof.
  intros Hl.
  destruct (scan_dirs_total fs root_dir (sorted names) 0 (Loaded [] [] []))
    as [ld Hrun].
  exists ld. split; [unfold load_data; rewrite Hl; exact Hrun|].
  destruct (scan_dirs_labels_sorted _ _ _ _ _ _ Hrun) as [Hs Hb];
    [constructor | intros l [] |].
  assert (Hlen : List.length (sorted names) = List.length names).
  { symmetry. apply Permutation_length, StringSort.Permuted_sort. }
  split; [exact Hs|]. split; [intros l Hin; rewrite <- Hlen; now apply Hb|].
  intros Hnd l Hin.
  destruct (scan_dirs_samples _ _ _ _ _ _ Hrun eq_refl) as [Hlens Hsam].
  apply (in_combine_snd (file_paths ld) (labels ld) l Hlens) in Hin.
  destruct Hin as [p Hp]. apply Hsam in Hp.
  destruct Hp as [[]|(k & c & ms & m & Hk & -> & Hc & _)].
  apply dict_get_value with (k := c).
  apply (scan_dirs_label _ _ _ _ _ _ Hrun (sorted_NoDup _ Hnd) k c Hk).
  unfold isdir. now rewrite Hc.
Qed.

Lemma load_data_labels_ordered_witness :
  exists ld,
    load_data fs_two "data" = Ok ld
    /\ StronglySorted le (labels ld)
    /\ (forall l, In l (labels ld) -> l < 2)
    /\ (NoDup ["02747177"; "02691156"] ->
        forall l, In l (labels ld) -> In l (dict_values (label_map ld))).
Proof.
  apply (load_data_labels_ordered fs_two "data" ["02747177"; "02691156"]).
  reflexivity.
Defined.

(** X2: when the root holds only directories (and no name twice), the
    label map has as many entries as the root has names, and every
    label returned is below that number: the labels are valid class
    indices for [ThreeDClassifier(num_classes=len(label_map))]. *)
Theorem load_data_labels_below_num_classes (fs : filesystem)
    (root_dir : string) (names : list string) :
  listdir fs root_dir = Ok names ->
  NoDup names ->
  (forall c, In c names -> isdir fs (path_join root_dir [c]) = true) ->
  exists ld,
    load_data fs root_dir = Ok ld
    /\ List.length (label_map ld) = List.length names
    /\ forall l, In l (labels ld) -> l < List.length (label_map ld).
Proof.
  intros Hl Hnd Hall.
  destruct (scan_dirs_total fs root_dir (sorted names) 0 (Loaded [] [] []))
    as [ld Hrun].
  exists ld. split; [unfold load_data; rewrite Hl; exact Hrun|].
  assert (Hlen : List.length (label_map ld) = List.length names).
  { rewrite <- (length_map fst). apply Permutation_length.
    apply NoDup_Permutation;
      [eapply scan_dirs_keys_NoDup; [exact Hrun | constructor] | exact Hnd |].
    intros c. fold (dict_keys (label_map ld)).
    rewrite (scan_dirs_keys _ _ _ _ _ _ Hrun c), sorted_In.
    cbn [label_map dict_keys map In].
    split; [tauto | intros Hc; right; auto]. }
  split; [exact Hlen|]. rewrite Hlen.
  destruct (scan_dirs_labels_sorted _ _ _ _ _ _ Hrun) as [_ Hb];
    [constructor | intros l [] |].
  intros l Hin. apply Hb in Hin. unfold sorted in Hin.
  rewrite <- (Permutation_length (StringSort.Permuted_sort names)) in Hin.
  exact Hin.
Qed.

Lemma load_data_labels_below_num_classes_witness :
  exists ld,
    load_data fs_two "data" = Ok ld
    /\ List.length (label_map ld) = 2
    /\ forall l, In l (labels ld) -> l < List.length (label_map ld).
Proof.
  apply (load_data_labels_below_num_classes fs_two "data"
           ["02747177"; "02691156"]).
  - reflexivity.
  - repeat constructor; simpl; intuition discriminate.
  - intros c [<-|[<-|[]]]; reflexivity.
Defined.

(** ** [load_data]: the order of the listing *)

Lemma ascii_compare_trans_le (a b c : ascii) :
  Ascii.compare a b <> Gt -> Ascii.compare b c <> Gt ->
  Ascii.compare a c <> Gt
  /\ (Ascii.compare a c = Eq ->
      Ascii.compare a b = Eq /\ Ascii.compare b c = Eq).
Proof.
  unfold Ascii.compare.
  destruct (N.compare_spec (N_of_ascii a) (N_of_ascii b));
    destruct (N.compare_spec (N_of_ascii b) (N_of_ascii c));
    destruct (N.compare_spec (N_of_ascii a) (N_of_ascii c));
    intros Hab Hbc; split; try congruence; try lia; auto.
Qed.

Lemma string_compare_trans_le (s1 : string) : forall s2 s3,
  String.compare s1 s2 <> Gt -> String.compare s2 s3 <> Gt ->
  String.compare s1 s3 <> Gt.
Proof.
  induction s1 as [|a s1 IH]; intros [|b s2] [|c s3]; simpl;
    try congruence.
  intros H1 H2.
  assert (Hab : Ascii.compare a b <> Gt)
    by (destruct (Ascii.compare a b); congruence).
  assert (Hbc : Ascii.compare b c <> Gt)
    by (destruct (Ascii.compare b c); congruence).
  destruct (ascii_compare_trans_le a b c Hab Hbc) as [Hac Heq].
  destruct (Ascii.compare a c) eqn:Eac; try congruence.
  destruct (Heq eq_refl) as [Eab Ebc]. rewrite Eab in H1. rewrite Ebc in H2.
  now apply (IH s2 s3).
Qed.

Lemma string_leb_trans (s1 s2 s3 : string) :
  String.leb s1 s2 = true -> String.leb s2 s3 = true -> String.leb s1 s3 = true.
Proof.
  unfold String.leb. intros H1 H2.
  pose proof (string_compare_trans_le s1 s2 s3) as H.
  destruct (String.compare s1 s2); try discriminate;
    destruct (String.compare s2 s3); try discriminate;
    destruct (String.compare s1 s3); try reflexivity;
    exfalso; apply H; congruence.
Qed.

(** A list of strings has one sorted arrangement. *)
Lemma sorted_unique (l1 : list string) : forall l2,
  StronglySorted (fun x y => String.leb x y = true) l1 ->
  StronglySorted (fun x y => String.leb x y = true) l2 ->
  Permutation l1 l2 -> l1 = l2.
Proof.
  induction l1 as [|a l1 IH]; intros l2 S1 S2 Hp.
  - apply Permutation_nil in Hp. now subst.
  - destruct l2 as [|b l2];
      [apply Permutation_sym, Permutation_nil in Hp; discriminate|].
    apply StronglySorted_inv in S1. destruct S1 as [S1 A1].
    apply StronglySorted_inv in S2. destruct S2 as [S2 A2].
    rewrite Forall_forall in A1, A2.
    assert (a = b) as <-.
    { assert (Hb : In b (a :: l1))
        by (eapply Permutation_in; [apply Permutation_sym; exact Hp | now left]).
      assert (Ha : In a (b :: l2))
        by (eapply Permutation_in; [exact Hp | now left]).
      destruct Hb as [|Hb]; [assumption|].
      destruct Ha as [|Ha]; [congruence|].
      apply String.leb_antisym; auto. }
    f_equal. apply IH; auto. eapply Permutation_cons_inv; exact Hp.
Qed.

Lemma sorted_permutation (l1 l2 : list string) :
  Permutation l1 l2 -> sorted l1 = sorted l2.
Proof.
  intros Hp. unfold sorted.
  assert (Htr : Transitive (fun x y => is_true (StringOrder.leb x y)))
    by (intros x y z; apply string_leb_trans).
  apply sorted_unique.
  - apply (StringSort.StronglySorted_sort l1 Htr).
  - apply (StringSort.StronglySorted_sort l2 Htr).
  - eapply Permutation_trans;
      [apply Permutation_sym, StringSort.Permuted_sort|].
    eapply Permutation_trans; [exact Hp | apply StringSort.Permuted_sort].
Qed.

Lemma scan_models_ext fs fs' dir_path idx models : forall acc,
  (forall m, In m models ->
     isfile fs' (path_join dir_path [m; "models/model_normalized.obj"])
     = isfile fs (path_join dir_path [m; "models/model_normalized.obj"])) ->
  scan_models fs' dir_path idx models acc
  = scan_models fs dir_path idx models acc.
Proof.
  induction models as [|m rest IH]; intros acc Hm; cbn [scan_models];
    [reflexivity|].
  rewrite (Hm m (or_introl eq_refl)).
  destruct (isfile fs _); apply IH; intros m' Hm'; apply Hm; now right.
Qed.

Lemma scan_dirs_ext fs fs' root_dir directories : forall idx acc,
  (forall c, In c directories ->
     fs' (path_join root_dir [c]) = fs (path_join root_dir [c])) ->
  (forall c ms m, In c directories ->
     fs (path_join root_dir [c]) = Some (EDir ms) -> In m ms ->
     isfile fs' (model_file root_dir c m) = isfile fs (model_file root_dir c m)) ->
  scan_dirs fs' root_dir idx directories acc
  = scan_dirs fs root_dir idx directories acc.
Proof.
  induction directories as [|d rest IH]; intros idx acc Hd Hm;
    cbn [scan_dirs]; [reflexivity|].
  unfold isdir, listdir. rewrite (Hd d (or_introl eq_refl)).
  destruct (fs (path_join root_dir [d])) as [[ms|b]|] eqn:E; cbn [rbind].
  - rewrite (scan_models_ext fs fs').
    + apply IH; intros; [apply Hd | eapply Hm]; try eassumption; now right.
    + intros m Hin. apply (Hm d ms m (or_introl eq_refl) E Hin).
  - apply IH; intros; [apply Hd | eapply Hm]; try eassumption; now right.
  - apply IH; intros; [apply Hd | eapply Hm]; try eassumption; now right.
Qed.

(** X3: the result of [load_data] does not depend on the order in which
    [os.listdir] returns the names of the root: two filesystems that
    list the same names there, in any order, and agree on the category
    directories and on the probed model files, give the same paths,
    labels and label map. *)
Theorem load_data_listing_order (fs fs' : filesystem) (root_dir : string)
    (names names' : list string) :
  listdir fs root_dir = Ok names ->
  listdir fs' root_dir = Ok names' ->
  Permutation names names' ->
  (forall c, In c names ->
     fs' (path_join root_dir [c]) = fs (path_join root_dir [c])) ->
  (forall c ms m, In c names ->
     fs (path_join root_dir [c]) = Some (EDir ms) -> In m ms ->
     isfile fs' (model_file root_dir c m) = isfile fs (model_file root_dir c m)) ->
  load_data fs' root_dir = load_data fs root_dir.
Proof.
  intros Hl Hl' Hp Hd Hm. unfold load_data. rewrite Hl, Hl'. cbn [rbind].
  rewrite <- (sorted_permutation names names' Hp).
  apply scan_dirs_ext.
  - intros c Hc. apply Hd. now apply sorted_In.
  - intros c ms m Hc. apply Hm. now apply sorted_In.
Qed.

Lemma load_data_listing_order_witness :
  load_data (fs_put "data" (EDir ["02691156"; "02747177"]) fs_two) "data"
  = load_data fs_two "data".
Proof.
  apply (load_data_listing_order fs_two
           (fs_put "data" (EDir ["02691156"; "02747177"]) fs_two) "data"
           ["02747177"; "02691156"] ["02691156"; "02747177"]).
  - reflexivity.
  - reflexivity.
  - apply perm_swap.
  - intros c [<-|[<-|[]]]; reflexivity.
  - intros c ms m [<-|[<-|[]]] [= <-]; simpl;
      intuition (subst; reflexivity).
Defined.

(* ===================================================================== *)
(** ** More on checkpoints *)

(** A checkpoint is never written over the checkpoint directory. *)
Lemma checkpoint_path_not_dir (filename : string) :
  path_join "./checkpoints" [filename] <> "./checkpoints".
Proof.
  unfold path_join, fold_left, join_step.
  destruct (prefix "/" filename) eqn:Hp.
  - intros ->. vm_compute in Hp. discriminate.
  - assert (E : (String.eqb "./checkpoints" "" || ends_with_sep "./checkpoints")%bool
                = false) by reflexivity.
    rewrite E. simpl. discriminate.
Qed.

Lemma fs_put_other p q e fs : q <> p -> fs_put p e fs q = fs q.
Proof. unfold fs_put. intros Hq. apply String.eqb_neq in Hq. now rewrite Hq. Qed.



Lemma split_last_sep_spec (p : string) : forall d b,
  split_last_sep p = Some (d, b) -> p = (d ++ String "/" b)%string.
Proof.
  induction p as [|c p IH]; intros d b; cbn [split_last_sep]; [discriminate|].
  destruct (split_last_sep p) as [[d' b']|].
  - intros [= <- <-]. cbn [append]. f_equal. now apply IH.
  - destruct (Ascii.eqb_spec c "/"%char) as [->|_]; [|discriminate].
    now intros [= <- <-].
Qed.

Lemma append_longer (d : string) : forall c x, (d ++ String c x)%string <> d.
Proof.
  induction d as [|a d IH]; intros c x; cbn [append]; [discriminate|].
  intros [= E]. exact (IH _ _ E).
Qed.

(** Writing a file does not change whether [torch.save] can open it. *)
Lemma open_refused_after_write (fs : filesystem) (p bytes : string) :
  open_refused fs p = None ->
  open_refused (fs_put p (EFile bytes) fs) p = None.
Proof.
  unfold open_refused.
  assert (Hp : isdir (fs_put p (EFile bytes) fs) p = false)
    by (unfold isdir; now rewrite fs_put_same).
  destruct (split_last_sep p) as [[d b]|] eqn:E.
  - apply split_last_sep_spec in E.
    assert (Hd : fs_put p (EFile bytes) fs d = fs d).
    { apply fs_put_other. intros ->. symmetry in E.
      exact (append_longer _ _ _ E). }
    unfold isfile. rewrite Hd, Hp.
    destruct (negb (d =? "")%string && match fs d with
                                       | None => true
                                       | Some _ => false
                                       end); [discriminate|].
    destruct (negb (d =? "")%string && match fs d with
                                       | Some (EFile _) => true
                                       | _ => false
                                       end); [discriminate|].
    cbn [orb]. destruct (b =? "")%string; [discriminate|].
    destruct (b =? ".")%string; [discriminate|].
    destruct (b =? "..")%string; [discriminate|]. reflexivity.
  - rewrite Hp. cbn [String.eqb negb andb orb].
    destruct (p =? "")%string; [discriminate|].
    destruct (p =? ".")%string; [discriminate|].
    destruct (p =? "..")%string; [discriminate|]. reflexivity.
Qed.





(** After a successful [save_checkpoint], saving again under the same
    name always succeeds and replaces the record: the file then holds
    the second object, every other path is as the first save left it,
    and the trace shows the two saves. *)
Theorem save_checkpoint_overwrites `{Lib} (first second : pyval)
    (filename : string) (w w1 : world) :
  save_checkpoint first filename w = (Ok tt, w1) ->
  let p := path_join "./checkpoints" [filename] in
  exists w2,
    save_checkpoint second filename w1 = (Ok tt, w2)
    /\ w_fs w2 p = Some (EFile (pickle_dumps second))
    /\ (forall q, q <> p -> w_fs w2 q = w_fs w1 q)
    /\ w_log w2 = w_log w ++ [EvSave p first; EvSave p second].
Proof.
  intros Hsave p.
  pose proof (checkpoint_path_not_dir filename) as Hp. fold p in Hp.
  revert Hsave. unfold save_checkpoint, bind. fold p.
  destruct (makedirs "./checkpoints" w) as [[[]|e] w0] eqn:Hm; [|discriminate].
  destruct (makedirs_spec _ _ _ _ Hm)
    as [(_ & _ & Hd0 & _ & Hl0 & _)|([=] & _)].
  intros Hs.
  destruct (torch_save_spec _ _ _ _ _ Hs) as [(_ & Ho & ->)|(e & [=] & _)].
  set (w1 := World (fs_put p (EFile (pickle_dumps first)) (w_fs w0))
               (w_rng w0) (w_log w0 ++ [EvSave p first])).
  assert (Hd1 : isdir (w_fs w1) "./checkpoints" = true).
  { unfold isdir, w1. cbn [w_fs]. rewrite fs_put_other by congruence.
    exact Hd0. }
  destruct (makedirs "./checkpoints" w1) as [rm w1'] eqn:Hm1.
  destruct (makedirs_spec _ _ _ _ Hm1)
    as [(-> & _ & _ & _ & _ & _ & Hsame)|(_ & _ & Hf)].
  2:{ unfold isfile in Hf. unfold isdir in Hd1.
      destruct (w_fs w1 "./checkpoints") as [[?|?]|]; discriminate. }
  rewrite (Hsame Hd1). unfold torch_save.
  replace (open_refused (w_fs w1) p) with (@None exn)
    by (symmetry; apply open_refused_after_write, Ho).
  eexists. split; [reflexivity|]. cbn [w_fs w_rng w_log].
  split; [apply fs_put_same|]. split.
  - intros q Hq. now apply fs_put_other.
  - unfold w1. cbn [w_log]. rewrite Hl0, <- app_assoc. reflexivity.
Qed.

Lemma save_checkpoint_overwrites_witness :
  let w1 := snd (@save_checkpoint toy_Lib (toy_obj 1) "model_checkpoint.pth"
                   (world_of fs_two)) in
  exists w2,
    @save_checkpoint toy_Lib (toy_obj 2) "model_checkpoint.pth" w1 = (Ok tt, w2)
    /\ w_fs w2 "./checkpoints/model_checkpoint.pth"
       = Some (EFile (@pickle_dumps toy_Lib (toy_obj 2)))
    /\ (forall q, q <> "./checkpoints/model_checkpoint.pth" ->
          w_fs w2 q = w_fs w1 q)
    /\ w_log w2
       = [EvSave "./checkpoints/model_checkpoint.pth" (toy_obj 1);
          EvSave "./checkpoints/model_checkpoint.pth" (toy_obj 2)].
Proof.
  intros w1.
  exact (@save_checkpoint_overwrites toy_Lib (toy_obj 1) (toy_obj 2)
           "model_checkpoint.pth" (world_of fs_two) w1 eq_refl).
Defined.

(** [load_checkpoint] only reads: whatever it returns or raises, the
    filesystem and the random generators are as before, nothing is
    saved, and at most one line is printed. *)
Theorem load_checkpoint_read_only `{Lib} {Mdl : Type} `{Module Mdl}
    `{Training Mdl} (filepath : string) (model : Mdl)
    (optimizer : option Optimizer) (w : world) :
  let w' := snd (load_checkpoint filepath model optimizer w) in
  w_fs w' = w_fs w /\ w_rng w' = w_rng w
  /\ (w_log w' = w_log w \/ exists line, w_log w' = w_log w ++ [EvPrint line]).
Proof.
  assert (Hprint : forall (l : list io_event) line,
            l = l \/ exists line', l ++ [EvPrint line] = l ++ [EvPrint line'])
    by (intros l line; right; eauto).
  unfold load_checkpoint, bind, torch_load, lift, print, ret, isfile.
  destruct (w_fs w filepath) as [[names|bytes]|] eqn:Ef; cbn [negb]; cbv beta;
    rewrite ?Ef; cbn [snd w_fs w_rng w_log]; eauto 6.
  destruct (pickle_loads bytes) as [ck|e]; cbn [snd]; auto.
  destruct (py_getitem ck "state_dict") as [sd|e]; cbn [snd]; auto.
  destruct (load_state_dict model sd) as [m|e]; cbn [snd]; auto.
  destruct optimizer as [opt|].
  - destruct (py_getitem ck "optimizer") as [od|e]; cbn [snd]; auto.
    destruct (opt_load_state_dict opt od) as [o|e]; cbn [snd]; auto.
    destruct (py_getitem ck "epoch") as [ep|e]; cbn [snd w_fs w_rng w_log];
      eauto 6.
  - destruct (py_getitem ck "epoch") as [ep|e]; cbn [snd w_fs w_rng w_log];
      eauto 6.
Qed.

Lemma py_getitem_missing (obj : pyval) (s : string) (v : pyval) :
  py_getitem obj "state_dict" = Ok v ->
  ~ In (VStr s) (py_keys obj) ->
  py_getitem obj s = Raise (Exn "KeyError" s).
Proof.
  destruct obj as [| | | | | |items]; try discriminate.
  intros _ Hout. cbn [py_getitem py_keys] in *.
  destruct (find (fun kv => key_is s (fst kv)) items) as [kv|] eqn:E;
    [|reflexivity].
  apply find_some in E. destruct E as [Hin Hk]. exfalso. apply Hout.
  destruct kv as [k v']. cbn [fst] in Hk. destruct k; try discriminate.
  cbn [key_is] in Hk. apply String.eqb_eq in Hk. subst.
  apply (in_map fst) in Hin. exact Hin.
Qed.

(** The [optimizer] entry of a checkpoint is looked up only when an
    optimizer is passed.  For a file whose record has a [state_dict] the
    model accepts and an [epoch] but no [optimizer] key,
    [load_checkpoint] without an optimizer returns the record and the
    loaded model, while with any optimizer it raises KeyError, prints
    nothing and returns nothing. *)
Theorem load_checkpoint_optimizer_optional `{Lib} {Mdl : Type} `{Module Mdl}
    `{Training Mdl} (filepath bytes : string) (model model' : Mdl)
    (checkpoint sd epoch : pyval) (w : world) :
  w_fs w filepath = Some (EFile bytes) ->
  pickle_loads bytes = Ok checkpoint ->
  py_getitem checkpoint "state_dict" = Ok sd ->
  load_state_dict model sd = Ok model' ->
  py_getitem checkpoint "epoch" = Ok epoch ->
  ~ In (VStr "optimizer") (py_keys checkpoint) ->
  load_checkpoint filepath model None w
  = (Ok (Some checkpoint, model', None),
     World (w_fs w) (w_rng w)
       (w_log w ++ [EvPrint [Text "Loaded checkpoint '"; Text filepath;
                             Text "' (epoch "; Val epoch; Text ")"]]))
  /\ forall opt,
       load_checkpoint filepath model (Some opt) w
       = (Raise (Exn "KeyError" "optimizer"), w).
Proof.
  intros Hfile Hload Hsd Hm Hep Hopt.
  pose proof (py_getitem_missing _ _ _ Hsd Hopt) as Hraise.
  unfold load_checkpoint, bind, torch_load, lift, print, ret, isfile.
  rewrite Hfile. cbn [negb]. cbv beta. rewrite Hfile, Hload, Hsd, Hm, Hep, Hraise.
  split; [reflexivity|]. intros opt. reflexivity.
Qed.

Lemma load_checkpoint_optimizer_optional_witness :
  let w := world_of (fs_put "weights.pth" (EFile "w") fs_two) in
  @load_checkpoint (toy_Lib_loading (fun _ => Ok weights_only)) pyfloat
    toy_Module (toy_Training []) "weights.pth" (Finite 5) None w
  = (Ok (Some weights_only, Finite 7, None),
     World (w_fs w) 0
       [EvPrint [Text "Loaded checkpoint '"; Text "weights.pth";
                 Text "' (epoch "; Val (VInt 4); Text ")"]])
  /\ forall opt,
       @load_checkpoint (toy_Lib_loading (fun _ => Ok weights_only)) pyfloat
         toy_Module (toy_Training []) "weights.pth" (Finite 5) (Some opt) w
       = (Raise (Exn "KeyError" "optimizer"), w).
Proof.
  intros w.
  refine (@load_checkpoint_optimizer_optional
            (toy_Lib_loading (fun _ => Ok weights_only)) pyfloat toy_Module
            (toy_Training []) "weights.pth" "w" (Finite 5) (Finite 7)
            weights_only (VDict [(VStr "loss", VFloat (Finite 7))]) (VInt 4)
            w _ _ _ _ _ _).
  - reflexivity.
  - reflexivity.
  - reflexivity.
  - reflexivity.
  - reflexivity.
  - cbn. intros [E|[E|[]]]; discriminate E.
Defined.

(* ===================================================================== *)
(** ** More on [predict_3d_model] *)

Lemma list_index_nth (x : nat) (l : list nat) : forall pos,
  list_index x l = Ok pos -> nth_error l pos = Some x.
Proof.
  induction l as [|y l IH]; simpl; [discriminate|]. intros pos.
  destruct (Nat.eqb_spec y x) as [->|_].
  - now intros [= <-].
  - destruct (list_index x l) as [i|e]; simpl; [|discriminate].
    intros [= <-]. simpl. auto.
Qed.

Lemma list_index_missing (x : nat) (l : list nat) :
  ~ In x l -> exists e, list_index x l = Raise e /\ exn_class e = "ValueError".
Proof.
  induction l as [|y l IH]; simpl; intros Hout; [eauto|].
  destruct (Nat.eqb_spec y x) as [->|_]; [tauto|].
  destruct IH as (e & -> & He); [tauto|]. simpl. eauto.
Qed.

(** The label found for an index is a key that the map sends to it. *)
Lemma label_of_index_In (lm : dict nat) (i : nat) (c : string) :
  label_of_index lm i = Ok c -> In (c, i) lm.
Proof.
  unfold label_of_index.
  destruct (list_index i (dict_values lm)) as [pos|e] eqn:E; simpl;
    [|discriminate].
  apply list_index_nth in E. unfold list_item, dict_keys, dict_values in *.
  rewrite nth_error_map in *.
  destruct (nth_error lm pos) as [[k v]|] eqn:En; simpl in *; try discriminate.
  intros [= <-]. injection E as <-. eapply nth_error_In; eassumption.
Qed.

Lemma quiet_predict_body `{Lib} {Mdl : Type} `{Module Mdl} (model : Mdl)
    (file_path : string) (label_map : dict nat) :
  quiet (predict_body model file_path label_map).
Proof. unfold predict_body. quiet_step. Qed.

(** [predict_3d_model] only reads: whatever the file, the model and the
    map, the filesystem is left as it was, nothing is saved, and at most
    one line, the error message, is printed. *)
Theorem predict_3d_model_read_only `{Lib} {Mdl : Type} `{Module Mdl}
    (model : Mdl) (file_path : string) (label_map : dict nat) (w : world) :
  let w' := snd (predict_3d_model model file_path label_map w) in
  w_fs w' = w_fs w
  /\ (w_log w' = w_log w \/ exists line, w_log w' = w_log w ++ [EvPrint line]).
Proof.
  unfold predict_3d_model, bind, try_except, print, ret.
  destruct (predict_body (set_training false model) file_path label_map w)
    as [[r|e] w1] eqn:Hb;
    destruct (quiet_predict_body _ _ _ _ _ _ Hb) as [Hf Hl];
    cbn [snd w_fs w_log].
  - auto.
  - rewrite Hl. eauto.
Qed.

(** When [predict_3d_model] returns a label, the label is a key of
    [label_map], and the value the map gives it is the index
    [torch.max] picked in the model's output for the points sampled from
    the file; nothing was printed, and the model is in evaluation
    mode. *)
Theorem predict_3d_model_label_in_map `{Lib} {Mdl : Type} `{Module Mdl}
    (model model' : Mdl) (file_path : string) (label_map : dict nat)
    (c : string) (w w' : world) :
  predict_3d_model model file_path label_map w = (Ok (Some c, model'), w') ->
  model' = set_training false model
  /\ w_fs w' = w_fs w /\ w_log w' = w_log w
  /\ exists mesh points s outputs i,
       trimesh_load file_path w = (Ok mesh, w)
       /\ mesh_sample mesh 1024 (w_rng w) = (Ok points, s)
       /\ call model' (unsqueeze0 (tensor_of_points points)) s
          = (Ok outputs, w_rng w')
       /\ torch_max_1 outputs = Ok [i]
       /\ In (c, i) label_map.
Proof.
  unfold predict_3d_model, bind at 1, try_except.
  destruct (predict_body (set_training false model) file_path label_map w)
    as [[r|e] w1] eqn:Hb; unfold bind, print, ret;
    [|intros [= ]].
  intros [= -> <- <-].
  destruct (quiet_predict_body _ _ _ _ _ _ Hb) as [Hf Hl].
  split; [reflexivity|]. split; [exact Hf|]. split; [exact Hl|].
  revert Hb. unfold predict_body, bind at 1.
  destruct (trimesh_load file_path w) as [[mesh|e] w0] eqn:Hload;
    [|discriminate].
  assert (w0 = w) as ->.
  { revert Hload. unfold trimesh_load.
    destruct (w_fs w file_path) as [[names|bytes]|]; now intros [= _ <-]. }
  unfold bind at 1, with_rng at 1.
  destruct (mesh_sample mesh 1024 (w_rng w)) as [[points|e] s] eqn:Hs;
    [|discriminate].
  unfold bind at 1, with_rng at 1. cbn [w_fs w_rng w_log].
  destruct (call (set_training false model)
              (unsqueeze0 (tensor_of_points points)) s)
    as [[outputs|e] s'] eqn:Hc; [|discriminate].
  unfold bind, lift, ret.
  destruct (torch_max_1 outputs) as [idxs|e] eqn:Hm; [|discriminate].
  destruct (item idxs) as [i|e] eqn:Hi; [|discriminate].
  destruct (label_of_index label_map i) as [c'|e] eqn:Hlab; [|discriminate].
  intros [= -> <-]. cbn [w_rng].
  exists mesh, points, s, outputs, i.
  repeat split; auto.
  - destruct idxs as [|j [|? ?]]; try discriminate. now injection Hi as ->.
  - now apply label_of_index_In.
Qed.

Lemma predict_3d_model_label_in_map_witness :
  exists i, In ("02691156", i) [("02691156", 0); ("02747177", 1)].
Proof.
  destruct (@predict_3d_model_label_in_map toy_Lib pyfloat toy_Module
              (Finite 5) (Finite 5)
              "data/02747177/m3/models/model_normalized.obj"
              [("02691156", 0); ("02747177", 1)] "02691156"
              (world_of fs_two) (World fs_two 1 []) eq_refl)
    as (_ & _ & _ & _ & _ & _ & _ & i & _ & _ & _ & _ & Hin).
  exists i. exact Hin.
Defined.

(** When the index the model picks is no value of [label_map],
    [predict_3d_model] returns [None] and prints the message of the
    ValueError that [list.index] raised. *)
Theorem predict_3d_model_unknown_index `{Lib} {Mdl : Type} `{Module Mdl}
    (model : Mdl) (file_path : string) (label_map : dict nat) (w : world)
    (mesh : Mesh) (points : list point) (s s' : N) (outputs : tensor)
    (i : nat) :
  let model' := set_training false model in
  trimesh_load file_path w = (Ok mesh, w) ->
  mesh_sample mesh 1024 (w_rng w) = (Ok points, s) ->
  call model' (unsqueeze0 (tensor_of_points points)) s = (Ok outputs, s') ->
  torch_max_1 outputs = Ok [i] ->
  ~ In i (dict_values label_map) ->
  exists e,
    exn_class e = "ValueError"
    /\ predict_3d_model model file_path label_map w
       = (Ok (None, model'),
          World (w_fs w) s'
            (w_log w ++ [EvPrint [Text "An error occurred: ";
                                  Text (exn_str e)]])).
Proof.
  intros model' Hload Hs Hc Hm Hout.
  destruct (list_index_missing i (dict_values label_map) Hout) as (e & He & Hcl).
  exists e. split; [exact Hcl|].
  unfold predict_3d_model. fold model'. unfold bind at 1, try_except.
  unfold predict_body, bind at 1. rewrite Hload.
  unfold bind at 1, with_rng at 1. rewrite Hs. cbn [w_fs w_rng w_log].
  unfold bind at 1, with_rng at 1. cbn [w_fs w_rng w_log]. rewrite Hc.
  unfold bind at 1, lift at 1. rewrite Hm.
  unfold bind at 1, lift at 1. cbn [item].
  unfold bind at 1, lift at 1, label_of_index. rewrite He. cbn [rbind].
  reflexivity.
Qed.

Lemma predict_3d_model_unknown_index_witness :
  exists e,
    exn_class e = "ValueError"
    /\ @predict_3d_model toy_Lib pyfloat toy_Module (Finite 5)
         "data/synset/m1/models/model_normalized.obj" [("synset", 1)]
         (world_of fs_stray)
       = (Ok (None, Finite 5),
          World fs_stray 1
            [EvPrint [Text "An error occurred: "; Text (exn_str e)]]).
Proof.
  refine (@predict_3d_model_unknown_index toy_Lib pyfloat toy_Module
            (Finite 5) "data/synset/m1/models/model_normalized.obj"
            [("synset", 1)] (world_of fs_stray) 7 (repeat origin 1024) 1 1
            (Tensor [1; 1] [Finite 5]) 0 _ _ _ _ _).
  - reflexivity.
  - reflexivity.
  - reflexivity.
  - reflexivity.
  - cbn. intros [E|[]]. discriminate E.
Defined.

(** [predict_3d_model] gives the model the batch that a loader yields
    for the same file: if a dataset holds [file_path] at [idx] and the
    loader's batch for [[idx]] is [batch], then the body of the [try]
    goes on from [batch] in the world the loader left. *)
Theorem predict_3d_model_sees_loader_batch `{Lib} {Mdl : Type} `{Module Mdl}
    (model : Mdl) (file_path : string) (label_map : dict nat)
    (ds : ShapeNetDataset) (idx : nat) (batch : tensor) (labels : list nat)
    (w w1 : world) :
  nth_error (ds_file_paths ds) idx = Some file_path ->
  fetch ds [idx] w = (Ok (batch, labels), w1) ->
  predict_body model file_path label_map w
  = classify model label_map batch w1.
Proof.
  intros Hp. unfold fetch, predict_body, classify. cbn [map_M].
  unfold __getitem__, bind, lift, ret, list_item. rewrite Hp.
  destruct (trimesh_load file_path w) as [[mesh|e] w0]; [|discriminate].
  destruct (with_rng (mesh_sample mesh 1024) w0) as [[points|e] w2];
    [|discriminate].
  destruct (nth_error (ds_labels ds) idx) as [label|]; [|discriminate].
  cbn [map fst snd stack forallb].
  destruct (list_eq_dec Nat.eq_dec (shape (tensor_of_points points))
              (shape (tensor_of_points points))) as [_|Hne];
    [|contradiction].
  cbn [andb flat_map List.length]. intros [= <- _ <-].
  unfold unsqueeze0. rewrite app_nil_r. reflexivity.
Qed.

Lemma predict_3d_model_sees_loader_batch_witness :
  let ds := Dataset ["data/02747177/m3/models/model_normalized.obj"] [1] in
  @predict_body toy_Lib pyfloat toy_Module (Finite 5)
    "data/02747177/m3/models/model_normalized.obj"
    [("02691156", 0); ("02747177", 1)] (world_of fs_two)
  = @classify toy_Lib pyfloat toy_Module (Finite 5)
      [("02691156", 0); ("02747177", 1)]
      (Tensor [1; 1024; 3] (flat_map coords (repeat origin 1024)))
      (World fs_two 1 []).
Proof.
  intros ds.
  refine (@predict_3d_model_sees_loader_batch toy_Lib pyfloat toy_Module
            (Finite 5) "data/02747177/m3/models/model_normalized.obj"
            [("02691156", 0); ("02747177", 1)] ds 0 _ [1]
            (world_of fs_two) _ _ _).
  - reflexivity.
  - vm_compute. reflexivity.
Defined.

(* ===================================================================== *)
(** ** More on [ShapeNetDataset] and [ThreeDClassifier] *)

(** [dataset[idx]] at the bounds: an index from [len(dataset)] on raises
    IndexError before anything is read; a path that is not a regular
    file makes the load fail; and when an item comes back, its label is
    [labels[idx]], its path [file_paths[idx]] is a regular file, and the
    filesystem and the trace are as before. *)
Theorem getitem_bounds `{Lib} (self : ShapeNetDataset) (idx : nat)
    (w : world) :
  (__len__ self <= idx ->
   __getitem__ self idx w
   = (Raise (Exn "IndexError" "list index out of range"), w))
  /\ (forall path,
        nth_error (ds_file_paths self) idx = Some path ->
        isfile (w_fs w) path = false ->
        exists e, __getitem__ self idx w = (Raise e, w))
  /\ (forall points label w',
        __getitem__ self idx w = (Ok (points, label), w') ->
        nth_error (ds_labels self) idx = Some label
        /\ (exists path, nth_error (ds_file_paths self) idx = Some path
                         /\ isfile (w_fs w) path = true)
        /\ w_fs w' = w_fs w /\ w_log w' = w_log w).
Proof.
  split; [|split].
  - intros Hlen. apply nth_error_None in Hlen.
    unfold __getitem__, bind, lift, list_item. now rewrite Hlen.
  - intros path Hp Hf. unfold __getitem__, bind, lift, list_item, trimesh_load.
    rewrite Hp. unfold isfile in Hf.
    destruct (w_fs w path) as [[names|bytes]|]; try discriminate; eauto.
  - intros points label w' Hget.
    destruct (quiet_getitem _ _ _ _ _ Hget) as [Hf Hl].
    revert Hget.
    unfold __getitem__, bind, lift, ret, list_item, trimesh_load, isfile.
    destruct (nth_error (ds_file_paths self) idx) as [path|]; [|discriminate].
    destruct (w_fs w path) as [[names|bytes]|] eqn:Ef; try discriminate.
    destruct (trimesh_parse bytes) as [mesh|e]; [|discriminate].
    destruct (with_rng (mesh_sample mesh 1024) w) as [[pts|e] w1];
      [|discriminate].
    destruct (nth_error (ds_labels self) idx) as [l|]; [|discriminate].
    intros [= _ <- _]. repeat split; auto.
    exists path. now rewrite Ef.
Qed.



(** In evaluation mode the forward pass draws no random numbers: it
    leaves the generator state as it found it, and its result does not
    depend on that state. *)
Theorem forward_eval_draws_nothing `{Lib} (self : ThreeDClassifier)
    (x : tensor) (s s2 : N) :
  let model := set_training false self in
  snd (forward model x s) = s
  /\ fst (forward model x s2) = fst (forward model x s).
Proof.
  cbn [set_training ThreeDClassifier_Module].
  unfold forward, apply_Dropout, bind, lift, ret. cbn [training dropout fc1 fc2 fc3].
  destruct (reshape_rows x) as [x0|e]; [|auto].
  destruct (apply_Linear (fc1 self) x0) as [x1|e]; [|auto].
  destruct (apply_Linear (fc2 self) (relu x1)) as [x2|e]; [|auto].
  destruct (apply_Linear (fc3 self) (relu x2)) as [x3|e]; auto.
Qed.

(* ===================================================================== *)
(** ** More on [train_model] *)

Lemma files_kept_refl p fs : files_kept p fs fs.
Proof. intros q bytes _. reflexivity. Qed.

Lemma files_kept_eq p fs fs' : fs' = fs -> files_kept p fs fs'.
Proof. intros ->. apply files_kept_refl. Qed.

Lemma files_kept_trans p fs1 fs2 fs3 :
  files_kept p fs1 fs2 -> files_kept p fs2 fs3 -> files_kept p fs1 fs3.
Proof.
  intros H12 H23 q bytes Hq. rewrite (H23 q bytes Hq). apply H12, Hq.
Qed.

Lemma save_checkpoint_files `{Lib} (state : pyval) (filename : string)
    (w w' : world) (r : result unit) :
  save_checkpoint state filename w = (r, w') ->
  files_kept (path_join "./checkpoints" [filename]) (w_fs w) (w_fs w').
Proof.
  set (p := path_join "./checkpoints" [filename]).
  unfold save_checkpoint, bind.
  destruct (makedirs "./checkpoints" w) as [rm w0] eqn:Hm.
  assert (Hmk : files_kept p (w_fs w) (w_fs w0)).
  { destruct (makedirs_spec _ _ _ _ Hm)
      as [(_ & Hnf & Hd0 & _ & _ & Hframe & _)|(_ & -> & _)];
      [|apply files_kept_refl].
    intros q bytes Hq. destruct (string_dec q "./checkpoints") as [->|Hne].
    - unfold isfile, isdir in Hnf, Hd0.
      destruct (w_fs w "./checkpoints") as [[?|?]|];
        destruct (w_fs w0 "./checkpoints") as [[?|?]|];
        try discriminate; split; discriminate.
    - now rewrite Hframe. }
  destruct rm as [[]|e]; [|now intros [= _ <-]].
  intros Hs. eapply files_kept_trans; [exact Hmk|].
  destruct (torch_save_spec _ _ _ _ _ Hs) as [(_ & _ & ->)|(e & _ & _ & ->)];
    [|apply files_kept_refl].
  intros q bytes Hq. cbn [w_fs]. now rewrite fs_put_other.
Qed.

Section TrainFiles.
Context `{Lib} {Mdl : Type} `{Module Mdl} `{Training Mdl}.
Variables (train_loader val_loader : DataLoader) (save_path : string).

Let ckpt_path : string := path_join "./checkpoints" [save_path].

Lemma report_epoch_files epoch best r w res w' :
  report_epoch train_loader save_path epoch best r w = (res, w') ->
  files_kept ckpt_path (w_fs w) (w_fs w').
Proof.
  unfold report_epoch, bind at 1, lift.
  destruct (py_div (total_train_loss r) (dl_len train_loader)) as [tl|e].
  2:{ intros [= _ <-]. apply files_kept_refl. }
  unfold bind at 1, print at 1. cbn [w_fs w_rng w_log].
  destruct (flt (average_val_loss r) best).
  - unfold bind at 1, print at 1. cbn [w_fs w_rng w_log]. unfold bind at 1.
    match goal with
    | |- context [save_checkpoint ?ck save_path ?w2] =>
        destruct (save_checkpoint ck save_path w2) as [[[]|e] w3] eqn:Hs
    end; apply save_checkpoint_files in Hs; cbn [w_fs] in Hs;
      unfold ret; intros [= _ <-]; exact Hs.
  - unfold ret. intros [= _ <-]. apply files_kept_refl.
Qed.

(** A report that does not save leaves the filesystem alone. *)
Lemma report_epoch_nosave_fs epoch best r w res w' :
  flt (average_val_loss r) best = false ->
  report_epoch train_loader save_path epoch best r w = (res, w') ->
  w_fs w' = w_fs w.
Proof.
  intros Hge. unfold report_epoch, bind at 1, lift.
  destruct (py_div (total_train_loss r) (dl_len train_loader)) as [tl|e].
  2:{ now intros [= _ <-]. }
  unfold bind at 1, print at 1. cbn [w_fs w_rng w_log]. rewrite Hge.
  unfold ret. now intros [= _ <-].
Qed.

Lemma train_epoch_files epoch st w res w' :
  train_epoch train_loader val_loader save_path epoch st w = (res, w') ->
  files_kept ckpt_path (w_fs w) (w_fs w').
Proof.
  unfold train_epoch, bind.
  destruct (run_epoch train_loader val_loader st w) as [[r|e] w1] eqn:Hr;
    destruct (quiet_run_epoch _ _ _ _ _ _ Hr) as [Hf _].
  - intros Hrep. apply report_epoch_files in Hrep. now rewrite Hf in Hrep.
  - intros [= _ <-]. now apply files_kept_eq.
Qed.

Lemma train_loop_files epochs : forall st w res w',
  train_loop train_loader val_loader save_path epochs st w = (res, w') ->
  files_kept ckpt_path (w_fs w) (w_fs w').
Proof.
  induction epochs as [|epoch epochs IH]; intros st w res w'; simpl.
  - unfold ret. intros [= _ <-]. apply files_kept_refl.
  - unfold bind.
    destruct (train_epoch train_loader val_loader save_path epoch st w)
      as [[st1|e] w1] eqn:He; apply train_epoch_files in He.
    + intros Hrest. eapply files_kept_trans; [exact He|]. eapply IH, Hrest.
    + now intros [= _ <-].
Qed.

(** After completed epochs, either no checkpoint has been written and
    the filesystem is untouched, or the checkpoint file holds the record
    of the first epoch that reached the best loss. *)
Lemma epochs_done_checkpoint model w0 losses st w :
  epochs_done train_loader val_loader save_path model w0 losses st w ->
  (best_val_loss st = PosInf /\ forall q, w_fs w q = w_fs w0 q)
  \/ exists e m o,
       nth_error losses e = Some (best_val_loss st)
       /\ (forall j l, j < e -> nth_error losses j = Some l ->
             l <> best_val_loss st)
       /\ w_fs w ckpt_path
          = Some (EFile (pickle_dumps
                           (checkpoint_of e m (best_val_loss st) o))).
Proof.
  induction 1 as [|losses st w r w1 st' w' Hdone IH Hr Hrep].
  - left. auto.
  - destruct (quiet_run_epoch _ _ _ _ _ _ Hr) as [Hf _].
    destruct (epochs_done_best _ _ _ _ _ _ _ _ Hdone) as (_ & _ & Hmin).
    destruct (report_epoch_spec _ _ _ _ _ _ _ _ Hrep)
      as (emitted & _ & [(Hlt & [= ->] & _ & Hfile)|[_ Hno]]).
    + right. exists (List.length losses), (er_model r), (er_optimizer r).
      cbn [best_val_loss]. split; [|split; [|exact Hfile]].
      * rewrite nth_error_app2, Nat.sub_diag by lia. reflexivity.
      * intros j l Hj Hl Heq. rewrite nth_error_app1 in Hl by assumption.
        apply nth_error_In, Hmin in Hl. congruence.
    + destruct (Hno _ eq_refl) as [Hge ->]. cbn [best_val_loss].
      pose proof (report_epoch_nosave_fs _ _ _ _ _ _ Hge Hrep) as Hf'.
      destruct IH as [[Hb Hfs]|(e & m & o & He & Hfirst & Hfile)].
      * left. split; [assumption|]. intros q. rewrite Hf', Hf. apply Hfs.
      * right. exists e, m, o.
        assert (Hlt : e < List.length losses)
          by (apply nth_error_Some; congruence).
        split; [|split].
        -- now rewrite nth_error_app1.
        -- intros j l Hj Hl. rewrite nth_error_app1 in Hl by lia.
           eapply Hfirst; eassumption.
        -- now rewrite Hf', Hf.
Qed.
End TrainFiles.

(** [train_model] never creates, removes or changes a regular file
    other than its checkpoint [./checkpoints/save_path], whether it
    returns or raises. *)
Theorem train_model_keeps_files `{Lib} {Mdl : Type} `{Module Mdl}
    `{Training Mdl} (train_loader val_loader : DataLoader)
    (save_path : string) (model : Mdl) (num_epochs : nat) (w : world) :
  files_kept (path_join "./checkpoints" [save_path]) (w_fs w)
    (w_fs (snd (train_model train_loader val_loader save_path model
                  num_epochs w))).
Proof.
  unfold train_model, bind.
  destruct (train_loop train_loader val_loader save_path (seq 0 num_epochs)
              (train_init model) w) as [[st|e] w'] eqn:Hloop;
    apply train_loop_files in Hloop; exact Hloop.
Qed.

(** When [train_model] returns, with [losses] the average validation
    losses of its epochs: either no loss was below [inf] and the
    filesystem is as it was, or the checkpoint file holds the record
    saved by the first epoch whose loss is the smallest, with that loss
    as its [best_val_loss] and that epoch's number as its [epoch]. *)
Theorem train_model_checkpoint_is_best `{Lib} {Mdl : Type} `{Module Mdl}
    `{Training Mdl} (train_loader val_loader : DataLoader)
    (save_path : string) (model trained : Mdl) (num_epochs : nat)
    (w0 w : world) :
  train_model train_loader val_loader save_path model num_epochs w0
  = (Ok trained, w) ->
  exists losses st,
    List.length losses = num_epochs
    /\ epochs_done train_loader val_loader save_path model w0 losses st w
    /\ trained = ts_model st
    /\ (((forall l, In l losses -> flt l PosInf = false)
         /\ forall q, w_fs w q = w_fs w0 q)
        \/ exists epoch m o best,
             nth_error losses epoch = Some best
             /\ (forall l, In l losses -> flt l best = false)
             /\ (forall j l, j < epoch -> nth_error losses j = Some l ->
                   l <> best)
             /\ w_fs w (path_join "./checkpoints" [save_path])
                = Some (EFile (pickle_dumps (checkpoint_of epoch m best o)))
             /\ py_getitem (checkpoint_of epoch m best o) "epoch"
                = Ok (VInt (Z.of_nat epoch + 1))
             /\ py_getitem (checkpoint_of epoch m best o) "best_val_loss"
                = Ok (VFloat best)).
Proof.
  unfold train_model, bind.
  destruct (train_loop train_loader val_loader save_path (seq 0 num_epochs)
              (train_init model) w0) as [[st|e] w'] eqn:Hloop; [|discriminate].
  unfold ret. intros [= <- <-].
  destruct (train_loop_done _ _ _ _ _ _ _ _ Hloop) as (losses & Hlen & Hdone).
  destruct (epochs_done_best _ _ _ _ _ _ _ _ Hdone) as (_ & _ & Hmin).
  exists losses, st. repeat (split; [auto|]).
  destruct (epochs_done_checkpoint _ _ _ _ _ _ _ _ Hdone)
    as [[Hb Hfs]|(e & m & o & He & Hfirst & Hfile)].
  - left. split; [|exact Hfs]. intros l Hl. rewrite <- Hb. now apply Hmin.
  - right. exists e, m, o, (best_val_loss st). auto 7.
Qed.

Lemma train_model_checkpoint_is_best_witness :
  exists epoch m o best,
    w_fs (snd (toy_train [Finite 5; Finite 7; Finite 3] 3
                 (world_of fs_two)))
      "./checkpoints/model_checkpoint.pth"
    = Some (EFile (@pickle_dumps toy_Lib
                     (@checkpoint_of pyfloat toy_Module
                        (toy_Training [Finite 5; Finite 7; Finite 3])
                        epoch m best o))).
Proof.
  destruct (@train_model_checkpoint_is_best toy_Lib pyfloat toy_Module
              (toy_Training [Finite 5; Finite 7; Finite 3]) toy_train_loader
              toy_val_loader "model_checkpoint.pth" (Finite 9) (Finite 3) 3
              (world_of fs_two)
              (snd (toy_train [Finite 5; Finite 7; Finite 3] 3
                      (world_of fs_two))))
    as (losses & st & _ & _ & _
        & [[_ Hfs]|(e & m & o & best & _ & _ & _ & Hfile & _)]).
  - vm_compute. reflexivity.
  - exfalso. specialize (Hfs "./checkpoints/model_checkpoint.pth").
    vm_compute in Hfs. discriminate Hfs.
  - exists e, m, o, best. exact Hfile.
Defined.

Lemma dl_len_empty (dl : DataLoader) :
  __len__ (dl_dataset dl) = 0 -> dl_len dl = 0.
Proof.
  unfold dl_len. intros ->. destruct (dl_batch_size dl) as [|b]; [reflexivity|].
  apply Nat.div_small. lia.
Qed.

(** With a validation loader over an empty dataset, [train_model] asked
    for at least one epoch never returns: the first epoch raises, and
    nothing is printed, saved or written.  When the training pass of
    that epoch goes through, the exception is the ZeroDivisionError of
    [total_val_loss / len(val_loader)]. *)
Theorem train_model_empty_validation `{Lib} {Mdl : Type} `{Module Mdl}
    `{Training Mdl} (train_loader val_loader : DataLoader)
    (save_path : string) (model : Mdl) (n : nat) (w : world) :
  __len__ (dl_dataset val_loader) = 0 ->
  dl_shuffle val_loader = false ->
  exists e w',
    train_model train_loader val_loader save_path model (S n) w = (Raise e, w')
    /\ w_fs w' = w_fs w /\ w_log w' = w_log w
    /\ forall x w1,
         bind (batches train_loader) (fun bs =>
           train_batches train_loader bs (set_training true model)
             (Adam model float_0_001) (Finite 0)) w = (Ok x, w1) ->
         e = Exn "ZeroDivisionError" "division by zero".
Proof.
  intros Hlen Hsh.
  assert (Hrun : exists e w',
             run_epoch train_loader val_loader (train_init model) w
             = (Raise e, w')
             /\ forall x w1,
                  bind (batches train_loader) (fun bs =>
                    train_batches train_loader bs (set_training true model)
                      (Adam model float_0_001) (Finite 0)) w = (Ok x, w1) ->
                  e = Exn "ZeroDivisionError" "division by zero").
  { set (pass := bind (batches train_loader) (fun bs =>
                    train_batches train_loader bs (set_training true model)
                      (Adam model float_0_001) (Finite 0))).
    assert (Hrw : run_epoch train_loader val_loader (train_init model) w
                  = bind pass (fun '(m, o, t) =>
                      bind (batches val_loader) (fun bs =>
                      bind (val_batches val_loader bs (set_training false m)
                              (Finite 0)) (fun total_val_loss =>
                      bind (lift (py_div total_val_loss (dl_len val_loader)))
                        (fun average_val_loss =>
                      ret (EpochResult (set_training false m) o t
                             average_val_loss))))) w).
    { unfold run_epoch, train_init, pass. cbn [ts_model ts_optimizer].
      unfold bind at 1 6 7.
      destruct (batches train_loader w) as [[bs|e] w1]; [|reflexivity].
      unfold bind at 1 5.
      destruct (train_batches train_loader bs (set_training true model)
                  (Adam model float_0_001) (Finite 0) w1)
        as [[[[m o] t]|e] w2]; reflexivity. }
    rewrite Hrw. unfold bind at 1.
    destruct (pass w) as [[[[m o] t]|e] w1];
      [|eexists _, _; split; [reflexivity|discriminate]].
    unfold bind, batches, lift, ret. rewrite Hsh, Hlen. cbn [seq chunks val_batches].
    unfold ret. rewrite (dl_len_empty _ Hlen). cbn [py_div].
    eexists _, _. split; reflexivity. }
  destruct Hrun as (e & w' & Hrun & Hzero).
  destruct (quiet_run_epoch _ _ _ _ _ _ Hrun) as [Hf Hl].
  exists e, w'. split; [|auto].
  unfold train_model, bind at 1. cbn [seq train_loop].
  unfold bind at 1, train_epoch, bind at 1. now rewrite Hrun.
Qed.

Lemma train_model_empty_validation_witness :
  exists e w',
    @train_model toy_Lib pyfloat toy_Module (toy_Training [Finite 5])
      toy_train_loader toy_empty_loader "model_checkpoint.pth" (Finite 9) 1
      (world_of fs_two)
    = (Raise e, w')
    /\ w_fs w' = fs_two /\ w_log w' = []
    /\ e = Exn "ZeroDivisionError" "division by zero".
Proof.
  destruct (@train_model_empty_validation toy_Lib pyfloat toy_Module
              (toy_Training [Finite 5]) toy_train_loader toy_empty_loader
              "model_checkpoint.pth" (Finite 9) 0 (world_of fs_two)
              eq_refl eq_refl)
    as (e & w' & Hrun & Hf & Hl & Hzero).
  exists e, w'. repeat split; auto.
  eapply Hzero. vm_compute. reflexivity.
Defined.

(* ===================================================================== *)
(** ** [test_model] *)

Lemma concat_chunks (size : nat) : forall fuel l,
  0 < size -> List.length l <= fuel -> List.concat (chunks fuel size l) = l.
Proof.
  induction fuel as [|fuel IH]; intros l Hsize Hlen.
  - destruct l; [reflexivity | simpl in Hlen; lia].
  - destruct l as [|a l]; [reflexivity|].
    cbn [chunks List.concat]. rewrite IH; [apply firstn_skipn | assumption |].
    rewrite length_skipn. cbn [List.length] in *. lia.
Qed.

Lemma skipn_nth_error {A : Type} (l : list A) : forall i x,
  nth_error l i = Some x -> skipn i l = x :: skipn (S i) l.
Proof.
  induction l as [|a l IH]; intros [|i] x; simpl; try discriminate.
  - now intros [= ->].
  - intros Hi. now rewrite (IH _ _ Hi).
Qed.

Lemma items_of_seq {A : Type} (l : list A) (n : nat) : forall a L,
  Forall2 (fun i x => nth_error l i = Some x) (seq a n) L ->
  L = firstn n (skipn a l).
Proof.
  induction n as [|n IH]; intros a L HL; simpl in HL.
  - inversion HL. reflexivity.
  - inversion HL as [|i x idxs L' Hx HL']; subst.
    rewrite (skipn_nth_error _ _ _ Hx). cbn [firstn]. f_equal. now apply IH.
Qed.

(** The items fetched for a list of indices carry the labels the
    dataset has at these indices. *)
Lemma map_M_getitem_labels `{Lib} (ds : ShapeNetDataset) (idxs : list nat) :
  forall w items w',
    map_M (__getitem__ ds) idxs w = (Ok items, w') ->
    Forall2 (fun i l => nth_error (ds_labels ds) i = Some l) idxs
      (map snd items).
Proof.
  induction idxs as [|i idxs IH]; intros w items w'; cbn [map_M].
  - unfold ret. intros [= <- _]. constructor.
  - unfold bind at 1.
    destruct (__getitem__ ds i w) as [[[points label]|e] w1] eqn:Hget;
      [|discriminate].
    unfold bind at 1.
    destruct (map_M (__getitem__ ds) idxs w1) as [[rest|e] w2] eqn:Hrest;
      [|discriminate].
    unfold ret. intros [= <- _]. cbn [map snd]. constructor; [|eapply IH, Hrest].
    revert Hget. unfold __getitem__, bind, lift, ret, list_item.
    destruct (nth_error (ds_file_paths ds) i) as [path|]; [|discriminate].
    destruct (trimesh_load path w) as [[mesh|e] w3]; [|discriminate].
    destruct (with_rng (mesh_sample mesh 1024) w3) as [[pts|e] w4];
      [|discriminate].
    destruct (nth_error (ds_labels ds) i) as [l|]; [|discriminate].
    now intros [= _ <- _].
Qed.

Lemma map_M_length {A B : Type} (f : A -> M B) (l : list A) :
  forall w items w',
    map_M f l w = (Ok items, w') -> List.length items = List.length l.
Proof.
  induction l as [|a l IH]; intros w items w'; cbn [map_M].
  - unfold ret. now intros [= <- _].
  - unfold bind at 1. destruct (f a w) as [[b|e] w1]; [|discriminate].
    unfold bind at 1.
    destruct (map_M f l w1) as [[rest|e] w2] eqn:Hrest; [|discriminate].
    unfold ret. intros [= <- _]. simpl. f_equal. eapply IH, Hrest.
Qed.

(** A batch: its labels are the dataset's at the batch's indices, and
    its points have one row per index. *)
Lemma fetch_spec `{Lib} (ds : ShapeNetDataset) (idxs : list nat) (w w' : world)
    (points : tensor) (labels : list nat) :
  fetch ds idxs w = (Ok (points, labels), w') ->
  Forall2 (fun i l => nth_error (ds_labels ds) i = Some l) idxs labels
  /\ List.length labels = List.length idxs
  /\ exists dims, shape points = List.length idxs :: dims.
Proof.
  unfold fetch, bind at 1.
  destruct (map_M (__getitem__ ds) idxs w) as [[items|e] w1] eqn:Hitems;
    [|discriminate].
  unfold bind, lift, ret.
  destruct (stack (map fst items)) as [x|e] eqn:Hstack; [|discriminate].
  intros [= <- <- _].
  pose proof (map_M_length _ _ _ _ _ Hitems) as Hlen.
  split; [eapply map_M_getitem_labels, Hitems|].
  split; [now rewrite length_map|].
  revert Hstack. unfold stack.
  destruct (map fst items) as [|t ts] eqn:Hm; [discriminate|].
  destruct (forallb _ (t :: ts)); [|discriminate].
  intros [= <-]. cbn [shape]. exists (shape t).
  now rewrite <- Hlen, <- (length_map fst), Hm.
Qed.

Section TestFacts.
Context `{Lib} `{Metrics} {Mdl : Type} `{Module Mdl}.
Variable test_loader : DataLoader.

Lemma quiet_test_batches bs : forall model acc,
  quiet (test_batches test_loader bs model acc).
Proof.
  induction bs as [|b bs IH]; intros model acc; simpl.
  - auto with quiet.
  - apply quiet_bind; [auto with quiet|]. intros [points labels].
    apply quiet_bind; [auto with quiet|]. intros outputs.
    apply quiet_bind; [auto with quiet|]. intros loss.
    apply quiet_bind; [auto with quiet|]. intros predicted. apply IH.
Qed.

Lemma quiet_test_pass model : quiet (test_pass test_loader model).
Proof.
  unfold test_pass. apply quiet_bind; [auto with quiet|].
  intros bs. apply quiet_test_batches.
Qed.

(** The loop appends, batch after batch, the labels the dataset has at
    the indices of the batch. *)
Lemma test_batches_labels bs : forall model acc w t w',
  test_batches test_loader bs model acc w = (Ok t, w') ->
  exists L,
    actual_labels t = actual_labels acc ++ L
    /\ Forall2 (fun i l => nth_error (ds_labels (dl_dataset test_loader)) i
                           = Some l) (List.concat bs) L.
Proof.
  induction bs as [|b bs IH]; intros model acc w t w'; cbn [test_batches].
  - unfold ret. intros [= <- _]. exists []. rewrite app_nil_r.
    split; [reflexivity | constructor].
  - unfold bind at 1.
    destruct (fetch (dl_dataset test_loader) b w) as [[[points labels]|e] w1]
      eqn:Hfetch; [|discriminate].
    apply fetch_spec in Hfetch. destruct Hfetch as (Hlab & _ & _).
    unfold bind at 1.
    destruct (with_rng (call model points) w1) as [[outputs|e] w2];
      [|discriminate].
    unfold bind at 1, lift at 1.
    destruct (cross_entropy outputs labels) as [loss|e]; [|discriminate].
    unfold bind at 1, lift at 1.
    destruct (torch_max_1 outputs) as [predicted|e]; [|discriminate].
    intros Hrest. destruct (IH _ _ _ _ _ Hrest) as (L & HL & Hall).
    cbn [actual_labels] in HL. exists (labels ++ L).
    split; [now rewrite HL, app_assoc|].
    cbn [List.concat]. now apply Forall2_app.
Qed.
End TestFacts.

(** [test_model] only reads and prints: the filesystem is left as it
    was and nothing is saved; every event it adds is a printed line;
    when the loop over the batches raises, nothing at all is printed;
    and when it returns it has printed its seven lines and the model is
    in evaluation mode. *)
Theorem test_model_only_prints `{Lib} `{Metrics} {Mdl : Type} `{Module Mdl}
    (test_loader : DataLoader) (model : Mdl) (w : world) :
  let r := fst (test_model test_loader model w) in
  let w' := snd (test_model test_loader model w) in
  w_fs w' = w_fs w
  /\ exists added,
       w_log w' = w_log w ++ added
       /\ (forall ev, In ev added -> exists line, ev = EvPrint line)
       /\ (forall e w1,
             test_pass test_loader (set_training false model) w = (Raise e, w1) ->
             r = Raise e /\ added = [])
       /\ (forall m, r = Ok m ->
             m = set_training false model /\ List.length added = 7).
Proof.
  intros r w'. subst r w'.
  unfold test_model, bind, print, lift, ret.
  destruct (test_pass test_loader (set_training false model) w)
    as [[t|e] w1] eqn:Hpass;
    destruct (quiet_test_pass _ _ _ _ _ Hpass) as [Hf Hl].
  2:{ cbn [fst snd]. split; [exact Hf|]. exists []. rewrite app_nil_r.
      split; [exact Hl|]. split; [intros ev []|].
      split; [intros e' w2 [= <- _]; auto | discriminate]. }
  cbn [w_fs w_rng w_log].
  destruct (accuracy_score (actual_labels t) (pred_labels t)) as [a|e];
    [destruct (precision_score (actual_labels t) (pred_labels t)) as [p|e];
     [destruct (recall_score (actual_labels t) (pred_labels t)) as [rc|e];
      [destruct (f1_score (actual_labels t) (pred_labels t)) as [f|e];
       [destruct (confusion_matrix (actual_labels t) (pred_labels t))
          as [cm|e];
        [destruct (py_div (total_test_loss t) (dl_len test_loader))
           as [tl|e]|]|]|]|]|];
    cbn [fst snd w_fs w_rng w_log]; (split; [exact Hf|]);
    rewrite Hl, <- ?app_assoc; cbn [app];
    (eexists; split; [reflexivity|]);
    (split; [intros ev Hin; cbn [In] in Hin;
             repeat (destruct Hin as [<-|Hin]; [eauto|]); destruct Hin|]);
    (split; [discriminate|]);
    try discriminate.
  intros m [= <-]. auto.
Qed.

(** When the loop of [test_model] goes through for a loader that does
    not shuffle, the actual labels it hands to the metrics are the
    dataset's labels, one per file and in the dataset's order. *)
Theorem test_model_actual_labels `{Lib} {Mdl : Type} `{Module Mdl}
    (test_loader : DataLoader) (model : Mdl) (w w' : world)
    (t : test_totals) :
  dl_shuffle test_loader = false ->
  0 < dl_batch_size test_loader ->
  test_pass test_loader model w = (Ok t, w') ->
  let ds := dl_dataset test_loader in
  actual_labels t = firstn (__len__ ds) (ds_labels ds)
  /\ List.length (actual_labels t) = __len__ ds.
Proof.
  intros Hsh Hbs Hrun. cbv zeta. revert Hrun.
  unfold test_pass, batches. rewrite Hsh. unfold bind, ret. intros Hrun.
  destruct (test_batches_labels _ _ _ _ _ _ _ Hrun) as (L & HL & Hall).
  cbn [actual_labels app] in HL.
  rewrite concat_chunks in Hall by (rewrite ?length_seq; auto).
  pose proof (Forall2_length Hall) as Hlen. rewrite length_seq in Hlen.
  apply items_of_seq in Hall. cbn [skipn] in Hall.
  split; congruence.
Qed.

Lemma test_model_actual_labels_witness :
  exists t w',
    @test_pass toy_Lib pyfloat toy_Module toy_val_loader (Finite 5)
      (world_of fs_two) = (Ok t, w')
    /\ actual_labels t = [1].
Proof.
  destruct (@test_pass toy_Lib pyfloat toy_Module toy_val_loader (Finite 5)
              (world_of fs_two)) as [[t|e] w'] eqn:E;
    [|vm_compute in E; discriminate].
  exists t, w'. split; [reflexivity|].
  exact (proj1 (@test_model_actual_labels toy_Lib pyfloat toy_Module
                  toy_val_loader (Finite 5) (world_of fs_two) w' t eq_refl
                  (Nat.lt_0_succ 9) E)).
Defined.

Lemma apply_Linear_rows `{Lib} (layer : Linear) (x y : tensor) :
  apply_Linear layer x = Ok y -> hd 0 (shape y) = hd 0 (shape x)
                                 /\ List.length (shape y) = 2.
Proof.
  unfold apply_Linear.
  destruct (shape x) as [|b [|f [|? ?]]]; try discriminate.
  destruct (Nat.eqb f (in_features layer)); [|discriminate].
  now intros [= <-].
Qed.

(** The output of a forward pass that goes through has one row per
    item of the batch. *)
Lemma forward_rows `{Lib} (self : ThreeDClassifier) (x outputs : tensor)
    (s s' : N) :
  forward self x s = (Ok outputs, s') ->
  exists c, shape outputs = [hd 0 (shape x); c].
Proof.
  unfold forward, bind at 1, lift at 1.
  destruct (reshape_rows x) as [x0|e] eqn:E0; [|discriminate].
  assert (H0 : hd 0 (shape x0) = hd 0 (shape x)).
  { revert E0. unfold reshape_rows. destruct (shape x) as [|b rest];
      [discriminate|]. destruct (Nat.eqb b 0); [discriminate|].
    now intros [= <-]. }
  unfold bind at 1, lift at 1.
  destruct (apply_Linear (fc1 self) x0) as [x1|e] eqn:E1; [|discriminate].
  apply apply_Linear_rows in E1. destruct E1 as [E1 _].
  unfold bind at 1.
  destruct (apply_Dropout_shape (dropout self) (training self) (relu x1) s)
    as (d1 & s1 & Ed1 & Sd1). rewrite Ed1.
  unfold bind at 1, lift at 1.
  destruct (apply_Linear (fc2 self) d1) as [x2|e] eqn:E2; [|discriminate].
  apply apply_Linear_rows in E2. destruct E2 as [E2 _].
  unfold bind at 1.
  destruct (apply_Dropout_shape (dropout self) (training self) (relu x2) s1)
    as (d2 & s2 & Ed2 & Sd2). rewrite Ed2.
  unfold bind at 1, lift at 1.
  destruct (apply_Linear (fc3 self) d2) as [x3|e] eqn:E3; [|discriminate].
  apply apply_Linear_rows in E3. destruct E3 as [E3 L3].
  unfold ret. intros [= <- _]. cbn [shape].
  destruct (shape x3) as [|b [|c [|? ?]]]; try discriminate.
  exists c. cbn [hd] in E3. rewrite E3, Sd2. cbn [relu shape].
  rewrite E2, Sd1. cbn [relu shape]. now rewrite E1, H0.
Qed.

Lemma length_rows (b c : nat) : forall l, List.length (rows b c l) = b.
Proof. induction b as [|b IH]; intros l; simpl; [reflexivity|]. now rewrite IH. Qed.

Lemma test_batches_lengths `{Lib} (test_loader : DataLoader)
    (bs : list (list nat)) :
  forall (model : ThreeDClassifier) acc w t w',
    test_batches test_loader bs model acc w = (Ok t, w') ->
    List.length (pred_labels acc) = List.length (actual_labels acc) ->
    List.length (pred_labels t) = List.length (actual_labels t).
Proof.
  induction bs as [|b bs IH]; intros model acc w t w'; cbn [test_batches].
  - unfold ret. now intros [= <- _].
  - unfold bind at 1.
    destruct (fetch (dl_dataset test_loader) b w) as [[[points labels]|e] w1]
      eqn:Hfetch; [|discriminate].
    apply fetch_spec in Hfetch. destruct Hfetch as (_ & Hlen & dims & Hsh).
    unfold bind at 1, with_rng at 1. cbn [call ThreeDClassifier_Module].
    destruct (forward model points (w_rng w1)) as [[outputs|e] s1] eqn:Hfwd;
      [|discriminate].
    apply forward_rows in Hfwd. destruct Hfwd as [c Hout].
    rewrite Hsh in Hout. cbn [hd] in Hout.
    unfold bind at 1, lift at 1.
    destruct (cross_entropy outputs labels) as [loss|e]; [|discriminate].
    unfold bind at 1, lift at 1.
    destruct (torch_max_1 outputs) as [predicted|e] eqn:Hmax; [|discriminate].
    intros Hrest Hacc. apply (IH _ _ _ _ _ Hrest).
    cbn [pred_labels actual_labels]. rewrite !length_app, Hacc, Hlen.
    f_equal. revert Hmax. unfold torch_max_1. rewrite Hout.
    destruct (Nat.eqb c 0); [discriminate|].
    intros [= <-]. now rewrite length_map, length_rows.
Qed.

(** For a [ThreeDClassifier], whenever the loop of [test_model] goes
    through, it has collected exactly one predicted label per actual
    label, so the metrics are called on lists of equal length. *)
Theorem test_model_one_prediction_per_label `{Lib}
    (test_loader : DataLoader) (model : ThreeDClassifier) (w w' : world)
    (t : test_totals) :
  test_pass test_loader (set_training false model) w = (Ok t, w') ->
  List.length (pred_labels t) = List.length (actual_labels t).
Proof.
  unfold test_pass, bind at 1.
  destruct (batches test_loader w) as [[bs|e] w1]; [|discriminate].
  intros Hrun. now apply (test_batches_lengths _ _ _ _ _ _ _ Hrun).
Qed.

Lemma test_model_one_prediction_per_label_witness :
  exists t w',
    @test_pass toy_Lib ThreeDClassifier (@ThreeDClassifier_Module toy_Lib)
      toy_val_loader
      (@set_training ThreeDClassifier (@ThreeDClassifier_Module toy_Lib)
         false toy_classifier)
      (world_of fs_two)
    = (Ok t, w')
    /\ List.length (pred_labels t) = List.length (actual_labels t).
Proof.
  destruct (@test_pass toy_Lib ThreeDClassifier
              (@ThreeDClassifier_Module toy_Lib) toy_val_loader
              (@set_training ThreeDClassifier
                 (@ThreeDClassifier_Module toy_Lib) false toy_classifier)
              (world_of fs_two))
    as [[t|e] w'] eqn:E; [|vm_compute in E; discriminate].
  exists t, w'. split; [reflexivity|].
  exact (@test_model_one_prediction_per_label toy_Lib toy_val_loader
           toy_classifier (world_of fs_two) w' t E).
Defined.

(** On a test loader over an empty dataset [test_model] never returns:
    the loop does nothing, the metrics are called on two empty lists,
    and if each of them returns, the six lines before the loss are
    printed and [total_test_loss / len(test_loader)] raises
    ZeroDivisionError. *)
Theorem test_model_empty_loader `{Lib} `{Metrics} {Mdl : Type} `{Module Mdl}
    (test_loader : DataLoader) (model : Mdl) (w : world) :
  __len__ (dl_dataset test_loader) = 0 ->
  dl_shuffle test_loader = false ->
  (exists e w', test_model test_loader model w = (Raise e, w'))
  /\ forall a p r f cm,
       accuracy_score [] [] = Ok a -> precision_score [] [] = Ok p ->
       recall_score [] [] = Ok r -> f1_score [] [] = Ok f ->
       confusion_matrix [] [] = Ok cm ->
       exists printed,
         test_model test_loader model w
         = (Raise (Exn "ZeroDivisionError" "division by zero"),
            World (w_fs w) (w_rng w) (w_log w ++ map EvPrint printed))
         /\ List.length printed = 6.
Proof.
  intros Hlen Hsh.
  assert (Hpass : test_pass test_loader (set_training false model) w
                  = (Ok (TestTotals (Finite 0) [] []), w)).
  { unfold test_pass, bind, batches. rewrite Hsh, Hlen. reflexivity. }
  split; [|intros a p r f cm Ha Hp Hr Hf Hcm];
    unfold test_model, bind, print, lift, ret; rewrite Hpass;
    cbn [pred_labels actual_labels total_test_loss w_fs w_rng w_log];
    rewrite (dl_len_empty _ Hlen); cbn [py_div].
  - destruct (accuracy_score [] []); [|eauto].
    destruct (precision_score [] []); [|eauto].
    destruct (recall_score [] []); [|eauto].
    destruct (f1_score [] []); [|eauto].
    destruct (confusion_matrix [] []); eauto.
  - rewrite Ha, Hp, Hr, Hf, Hcm. rewrite <- !app_assoc. cbn [app].
    eexists [_; _; _; _; _; _]. split; reflexivity.
Qed.

Lemma test_model_empty_loader_witness :
  exists e w',
    @test_model toy_Lib toy_Metrics pyfloat toy_Module toy_empty_loader
      (Finite 5) (world_of fs_two) = (Raise e, w').
Proof.
  exact (proj1 (@test_model_empty_loader toy_Lib toy_Metrics pyfloat
                  toy_Module toy_empty_loader (Finite 5) (world_of fs_two)
                  eq_refl eq_refl)).
Defined.

(* ===================================================================== *)
(** ** From [create_datasets] to [predict_3d_model] *)

Lemma take_incl {A : Type} (l : list A) (idxs : list nat) (r : list A) :
  take l idxs = Ok r -> incl r l.
Proof.
  intros Ht x Hx. apply take_spec in Ht.
  apply (in_map Some) in Hx. rewrite <- Ht in Hx.
  apply in_map_iff in Hx. destruct Hx as (i & Hi & _).
  eapply nth_error_In, Hi.
Qed.

(** Both parts of a split hold pairs of the input, whatever the
    permutation. *)
Lemma train_test_split_incl `{Lib} {A B : Type} (xs : list A) (ys : list B)
    (test_size : pyfloat) (seed : Z) xs_train xs_test ys_train ys_test :
  train_test_split xs ys test_size seed
  = Ok (xs_train, xs_test, ys_train, ys_test) ->
  incl (combine xs_train ys_train) (combine xs ys)
  /\ incl (combine xs_test ys_test) (combine xs ys)
  /\ List.length xs_train = List.length ys_train
  /\ List.length xs_test = List.length ys_test.
Proof.
  unfold train_test_split.
  destruct (Nat.eqb (List.length xs) (List.length ys)); [|discriminate].
  cbn [negb].
  destruct (validate_shuffle_split _ _) as [[n_train n_test]|e];
    [|discriminate]. cbn [rbind].
  set (perm := rs_permutation seed (List.length xs)).
  destruct (take xs (firstn n_train (skipn n_test perm))) as [xtr|e] eqn:E1;
    [|discriminate].
  destruct (take xs (firstn n_test perm)) as [xte|e] eqn:E2; [|discriminate].
  destruct (take ys (firstn n_train (skipn n_test perm))) as [ytr|e] eqn:E3;
    [|discriminate].
  destruct (take ys (firstn n_test perm)) as [yte|e] eqn:E4; [|discriminate].
  cbn [rbind].
  intros [= <- <- <- <-].
  split; [eapply take_incl, take_combine; eassumption|].
  split; [eapply take_incl, take_combine; eassumption|].
  rewrite (take_length _ _ _ E1), (take_length _ _ _ E2),
    (take_length _ _ _ E3), (take_length _ _ _ E4). auto.
Qed.

(** Every sample of every dataset [create_datasets] returns is a
    regular file [root/c/m/models/model_normalized.obj] of a category
    directory [c], and the lookup [predict_3d_model] does in the
    returned label map takes the sample's label back to [c]. *)
Theorem create_datasets_labels_decode `{Lib} (root_dir : string)
    (test_size val_size : pyfloat) (w w' : world) (ds : datasets)
    (names : list string) :
  listdir (w_fs w) root_dir = Ok names ->
  NoDup names ->
  create_datasets root_dir test_size val_size w = (Ok ds, w') ->
  forall part,
    In part [train_dataset ds; val_dataset ds; test_dataset ds] ->
    List.length (ds_file_paths part) = List.length (ds_labels part)
    /\ forall p l, In (p, l) (ds_samples part) ->
         exists c m,
           In c names
           /\ p = model_file root_dir c m
           /\ isfile (w_fs w') p = true
           /\ label_of_index (ds_label_map ds) l = Ok c.
Proof.
  intros Hl Hnd. unfold create_datasets, bind at 1.
  destruct (load_data (w_fs w) root_dir) as [ld|e] eqn:Hld; [|discriminate].
  unfold bind at 1, lift at 1.
  destruct (train_test_split (file_paths ld) (labels ld) test_size 42)
    as [[[[trp tep] trl] tel]|e] eqn:S1; [|discriminate].
  unfold bind at 1, lift at 1.
  destruct (py_truediv val_size (fsub (float_of_nat 1) test_size))
    as [ratio|e]; [|discriminate].
  unfold bind at 1, lift at 1.
  destruct (train_test_split trp trl ratio 42)
    as [[[[trp2 vap] trl2] val]|e] eqn:S2; [|discriminate].
  unfold ret. intros [= <- <-].
  cbn [train_dataset val_dataset test_dataset ds_label_map].
  apply train_test_split_incl in S1. destruct S1 as (I1 & I1' & L1 & L1').
  apply train_test_split_incl in S2. destruct S2 as (I2 & I2' & L2 & L2').
  revert Hld. unfold load_data. rewrite Hl. cbn [rbind]. intros Hrun.
  destruct (scan_dirs_samples _ _ _ _ _ _ Hrun eq_refl) as [_ Hin].
  pose proof (scan_dirs_keys_NoDup _ _ _ _ _ _ Hrun (NoDup_nil _)) as Hkeys.
  destruct (scan_dirs_injective _ _ _ _ _ _ Hrun) as [Hinj _];
    [intros k v; discriminate | intros k1 k2 v; discriminate|].
  assert (Hdec : forall p l, In (p, l) (samples ld) ->
            exists c m, In c names /\ p = model_file root_dir c m
                        /\ isfile (w_fs w) p = true
                        /\ label_of_index (label_map ld) l = Ok c).
  { intros p l Hp. apply Hin in Hp.
    destruct Hp as [[]|(k & c & ms & m & Hk & -> & Hc & Hm & Hp & Hf)].
    exists c, m. split; [eapply sorted_In, nth_error_In, Hk|].
    split; [exact Hp|]. split; [exact Hf|].
    assert (Hg : dict_get c (label_map ld) = Some (0 + k)).
    { apply (scan_dirs_label _ _ _ _ _ _ Hrun (sorted_NoDup _ Hnd) k c Hk).
      unfold isdir. now rewrite Hc. }
    destruct (label_of_index_get (label_map ld) (0 + k) Hkeys
                (dict_get_value _ _ _ Hg)) as (c' & Hc' & Hg').
    rewrite Hc'. f_equal. eapply Hinj; eassumption. }
  intros part [<-|[<-|[<-|[]]]]; unfold ds_samples;
    cbn [ds_file_paths ds_labels]; (split; [assumption|]);
    intros p l Hp; apply Hdec; unfold samples; auto.
Qed.

Lemma create_datasets_labels_decode_witness :
  exists ds w',
    @create_datasets toy_Lib "data7" float_0_2 float_0_1 (world_of fs_seven)
    = (Ok ds, w')
    /\ forall p l, In (p, l) (ds_samples (train_dataset ds)) ->
         exists c m,
           In c ["c"] /\ p = model_file "data7" c m
           /\ isfile (w_fs w') p = true
           /\ label_of_index (ds_label_map ds) l = Ok c.
Proof.
  destruct (@create_datasets toy_Lib "data7" float_0_2 float_0_1
              (world_of fs_seven)) as [[ds|e] w'] eqn:E;
    [|vm_compute in E; discriminate].
  exists ds, w'. split; [reflexivity|].
  refine (proj2 (@create_datasets_labels_decode toy_Lib "data7" float_0_2
                   float_0_1 (world_of fs_seven) w' ds ["c"] _ _ E
                   (train_dataset ds) _)).
  - reflexivity.
  - repeat constructor. intros [].
  - left. reflexivity.
Defined.

(* ===================================================================== *)
(** ** The weights of a [ThreeDClassifier] *)

Lemma Linear_load_state `{Lib} (other : ThreeDClassifier) (layer : Linear) :
  let load name (from : Linear) :=
    if (if list_eq_dec Nat.eq_dec (shape (weight from)) (shape (weight layer))
        then true else false)
       && (if list_eq_dec Nat.eq_dec (shape (bias from)) (shape (bias layer))
           then true else false)
    then Ok (MkLinear (in_features layer) (out_features layer)
               (weight from) (bias from))
    else Raise (Exn "RuntimeError" "size mismatch") in
  Linear_load "fc1" layer (state_dict other) = load "fc1" (fc1 other)
  /\ Linear_load "fc2" layer (state_dict other) = load "fc2" (fc2 other)
  /\ Linear_load "fc3" layer (state_dict other) = load "fc3" (fc3 other).
Proof. repeat split; reflexivity. Qed.

(** Loading the [state_dict] of one classifier into another: it
    succeeds exactly when the weights and biases of the three layers
    have the same shapes in both, any failure is a RuntimeError, and the
    loaded classifier has the weights of the one saved (its own
    [state_dict] is the one loaded) while it keeps the mode, the dropout
    probability and the layer sizes of the receiver. *)
Theorem load_state_dict_shapes `{Lib} (self other : ThreeDClassifier) :
  let agree (a b : Linear) :=
    shape (weight a) = shape (weight b) /\ shape (bias a) = shape (bias b) in
  ((exists loaded, load_state_dict self (state_dict other) = Ok loaded)
   <-> agree (fc1 other) (fc1 self) /\ agree (fc2 other) (fc2 self)
       /\ agree (fc3 other) (fc3 self))
  /\ (forall loaded,
        load_state_dict self (state_dict other) = Ok loaded ->
        state_dict loaded = state_dict other
        /\ training loaded = training self /\ dropout loaded = dropout self
        /\ in_features (fc1 loaded) = in_features (fc1 self)
        /\ in_features (fc2 loaded) = in_features (fc2 self)
        /\ in_features (fc3 loaded) = in_features (fc3 self)
        /\ out_features (fc3 loaded) = out_features (fc3 self))
  /\ (forall e,
        load_state_dict self (state_dict other) = Raise e ->
        exn_class e = "RuntimeError").
Proof.
  intros agree. subst agree.
  assert (Hload : load_state_dict self (state_dict other)
                  = rbind (Linear_load "fc1" (fc1 self) (state_dict other))
                      (fun l1 =>
                    rbind (Linear_load "fc2" (fc2 self) (state_dict other))
                      (fun l2 =>
                    rbind (Linear_load "fc3" (fc3 self) (state_dict other))
                      (fun l3 =>
                      Ok (Classifier l1 l2 l3 (dropout self) (training self))))))
    by reflexivity.
  rewrite Hload. clear Hload.
  destruct (Linear_load_state other (fc1 self)) as (-> & _ & _).
  destruct (Linear_load_state other (fc2 self)) as (_ & -> & _).
  destruct (Linear_load_state other (fc3 self)) as (_ & _ & ->).
  destruct (list_eq_dec Nat.eq_dec (shape (weight (fc1 other)))
              (shape (weight (fc1 self)))) as [W1|W1];
    destruct (list_eq_dec Nat.eq_dec (shape (bias (fc1 other)))
                (shape (bias (fc1 self)))) as [B1|B1];
    cbn [andb rbind];
    try (split; [split; [intros [? [=]] | tauto]
                |split; [discriminate | now intros e [= <-]]]).
  destruct (list_eq_dec Nat.eq_dec (shape (weight (fc2 other)))
              (shape (weight (fc2 self)))) as [W2|W2];
    destruct (list_eq_dec Nat.eq_dec (shape (bias (fc2 other)))
                (shape (bias (fc2 self)))) as [B2|B2];
    cbn [andb rbind];
    try (split; [split; [intros [? [=]] | tauto]
                |split; [discriminate | now intros e [= <-]]]).
  destruct (list_eq_dec Nat.eq_dec (shape (weight (fc3 other)))
              (shape (weight (fc3 self)))) as [W3|W3];
    destruct (list_eq_dec Nat.eq_dec (shape (bias (fc3 other)))
                (shape (bias (fc3 self)))) as [B3|B3];
    cbn [andb rbind];
    try (split; [split; [intros [? [=]] | tauto]
                |split; [discriminate | now intros e [= <-]]]).
  split; [split; [tauto | eauto]|]. split; [|discriminate].
  intros loaded [= <-]. repeat split.
Qed.
